(** * A shallow embedding of [HTML-compile-complete.js]

    The program reads one parsed portfolio document and renders it into HTML
    text: a main page, and optionally a references page and a projects page.
    Every renderer is a string template over the document; the embedding below
    keeps the templates as they are written in the source.

    Conventions.
    - A JavaScript string is a Rocq [string]; each [ascii] stands for one code
      unit, so the embedding covers the strings whose code units are below 256.
    - Literal markup is written with [~] standing for the double-quote
      character (the source never uses [~]); [html] puts the quotes back.
    - A function that can throw returns a [result]; a throw that nothing
      catches ends the run.
    - [console.log] calls only write diagnostics and are left out. *)

From Stdlib Require Import String Ascii List ZArith Lia Bool Arith PeanoNat.
From Stdlib Require Import DecimalString Zify ZifyNat.
Import ListNotations.
Open Scope list_scope.
Open Scope string_scope.

(** ** JavaScript values and string primitives *)

(** A number of the document. The embedding keeps the integers from
    [-(2^53 - 1)] to [2^53 - 1]: a double holds each of them exactly and
    [String(...)] prints it digit by digit. *)
Record number : Type := mkNumber {
  integer : Z;
  safe : (Z.abs integer <=? 9007199254740991)%Z = true
}.

(** The primitive values a document field can hold where the source treats the
    field generically (truthiness test, [String(...)]). *)
Inductive jsval : Type :=
| JUndefined
| JNull
| JBool (b : bool)
| JNum (n : number)
| JStr (s : string).

(** [!v] is [negb (truthy v)]. *)
Definition truthy (v : jsval) : bool :=
  match v with
  | JUndefined | JNull => false
  | JBool b => b
  | JNum n => negb (integer n =? 0)%Z
  | JStr s => negb (s =? "")
  end.

(** [String(v)]. *)
Definition toString (v : jsval) : string :=
  match v with
  | JUndefined => "undefined"
  | JNull => "null"
  | JBool true => "true"
  | JBool false => "false"
  | JNum n => NilZero.string_of_int (Z.to_int (integer n))
  | JStr s => s
  end.

(** An optional string field: absent is [undefined]. *)
Definition ofOpt (o : option string) : jsval :=
  match o with
  | Some s => JStr s
  | None => JUndefined
  end.

(** Truthiness of an optional string field. *)
Definition truthyS (o : option string) : bool := truthy (ofOpt o).

(** [o || dflt] for an optional string field. *)
Definition orElse (o : option string) (dflt : string) : string :=
  match o with
  | Some s => if s =? "" then dflt else s
  | None => dflt
  end.

(** [o || p] where both operands are optional string fields. *)
Definition orOpt (o p : option string) : option string :=
  if truthyS o then o else p.

(** The double-quote character. *)
Definition dquote : ascii := "034"%char.

(** Literal markup: every [~] is a double quote. *)
Fixpoint html (s : string) : string :=
  match s with
  | EmptyString => EmptyString
  | String a s' => String (if Ascii.eqb a "~" then dquote else a) (html s')
  end.

(** [s.replace(/c/g, rep)]: every occurrence of the character [c]. *)
Fixpoint replaceG (c : ascii) (rep : string) (s : string) : string :=
  match s with
  | EmptyString => EmptyString
  | String a s' =>
      if Ascii.eqb a c then rep ++ replaceG c rep s'
      else String a (replaceG c rep s')
  end.

(** [s.startsWith(p)]. *)
Fixpoint startsWith (p s : string) : bool :=
  match p, s with
  | EmptyString, _ => true
  | String a p', String b s' => Ascii.eqb a b && startsWith p' s'
  | String _ _, EmptyString => false
  end.

(** [s.slice(n)]. *)
Fixpoint dropS (n : nat) (s : string) : string :=
  match n, s with
  | O, _ => s
  | S n', String _ s' => dropS n' s'
  | S _, EmptyString => EmptyString
  end.

(** [s.replace(pat, rep)] with a string pattern: the first occurrence only,
    wherever it stands. *)
Fixpoint replaceFirst (pat rep : string) (s : string) : string :=
  if startsWith pat s then rep ++ dropS (String.length pat) s
  else
    match s with
    | EmptyString => EmptyString
    | String a s' => String a (replaceFirst pat rep s')
    end.

(** [s.includes(pat)]. *)
Fixpoint includesS (pat : string) (s : string) : bool :=
  if startsWith pat s then true
  else
    match s with
    | EmptyString => false
    | String _ s' => includesS pat s'
    end.

(** White space and line terminators among the code units below 256. *)
Definition isWhitespace (a : ascii) : bool :=
  let n := nat_of_ascii a in
  (((9 <=? n) && (n <=? 13)) || (n =? 32) || (n =? 160))%nat.

Fixpoint trimStart (s : string) : string :=
  match s with
  | EmptyString => EmptyString
  | String a s' => if isWhitespace a then trimStart s' else s
  end.

Fixpoint trimEnd (s : string) : string :=
  match s with
  | EmptyString => EmptyString
  | String a s' =>
      match trimEnd s' with
      | EmptyString => if isWhitespace a then EmptyString else String a EmptyString
      | r => String a r
      end
  end.

(** [s.trim()]. *)
Definition trim (s : string) : string := trimEnd (trimStart s).

(** [s.toLowerCase()] on code units below 256. *)
Definition lowerChar (a : ascii) : ascii :=
  let n := nat_of_ascii a in
  if (((65 <=? n) && (n <=? 90))
      || ((192 <=? n) && (n <=? 222) && negb (n =? 215)))%nat
  then ascii_of_nat (n + 32) else a.

Fixpoint toLowerCase (s : string) : string :=
  match s with
  | EmptyString => EmptyString
  | String a s' => String (lowerChar a) (toLowerCase s')
  end.

(** [s.split(sep)] for a non-empty separator: [skip] counts the code units of
    a separator just matched that are still to be passed over, [cur] is the
    piece being read. *)
Fixpoint splitGo (sep : string) (skip : nat) (cur : string) (s : string)
  : list string :=
  match s with
  | EmptyString => [cur]
  | String a s' =>
      match skip with
      | S k => splitGo sep k cur s'
      | O =>
          if startsWith sep s
          then cur :: splitGo sep (String.length sep - 1) EmptyString s'
          else splitGo sep O (cur ++ String a EmptyString) s'
      end
  end.

Definition split (sep : string) (s : string) : list string :=
  splitGo sep 0 EmptyString s.

(** [xs.join(sep)]. *)
Fixpoint join (sep : string) (xs : list string) : string :=
  match xs with
  | [] => EmptyString
  | [x] => x
  | x :: rest => x ++ sep ++ join sep rest
  end.

(** [xs.slice(i, j)]. *)
Definition slice {A : Type} (i j : nat) (xs : list A) : list A :=
  firstn (j - i) (skipn i xs).

(** [xs.includes(x)] on strings. *)
Definition includes (x : string) (xs : list string) : bool :=
  existsb (String.eqb x) xs.

(** [n[0]] spliced into a [join]: the first code unit, nothing for [""]. *)
Definition firstChar (s : string) : string :=
  match s with
  | EmptyString => EmptyString
  | String a _ => String a EmptyString
  end.

(** A decimal numeral spliced into a template. *)
Definition natToString (n : nat) : string :=
  NilZero.string_of_uint (Nat.to_uint n).

(** The line feed ['\n']. *)
Definition LF : string := String "010"%char EmptyString.

(** ** HTML escaping *)

(** [escapeHtml] (source lines 22-30). *)
Definition escapeHtml (text : jsval) : string :=
  if negb (truthy text) then ""
  else
    replaceG "'" "&#39;"
      (replaceG dquote "&quot;"
         (replaceG ">" "&gt;"
            (replaceG "<" "&lt;"
               (replaceG "&" "&amp;" (toString text))))).

(** ** The portfolio document

    The parsed input, typed as the source reads it: a field the source tests
    for presence is an [option]; an array is a [list]; the [skills] mapping is
    an association list in the object's own key order, which is the order
    [Object.values] walks. *)

Module ThemeColors.
Record t : Type := mk {
  primary : option string;
  secondary : option string;
  accent : option string;
  background : option string;
  text : option string
}.
End ThemeColors.

Module Category.
Record t : Type := mk {
  id : option string;
  name : option string;
  icon : option string
}.
End Category.

Module Skills.
Record t : Type := mk {
  categories : option (list Category.t);
  skills : option (list (string * list string))
}.
End Skills.

Module Project.
Record t : Type := mk {
  title : option string;
  summary : option string;
  description : option string;
  image : option string;
  imageBg : option string;
  imageStyle : option string;
  skills : option (list string);
  githubUrl : option string;
  liveUrl : option string;
  technologies : option (list string)
}.
End Project.

Module TimelineEntry.
Record t : Type := mk {
  type : option string;
  year : jsval;
  title : option string;
  organization : option string;
  description : option string
}.
End TimelineEntry.

Module Reference.
Record t : Type := mk {
  name : option string;
  title : option string;
  company : option string;
  relationship : option string;
  description : option string;
  testimonial : option string;
  email : option string;
  phone : option string;
  linkedin : option string
}.
End Reference.

Module Contact.
Record t : Type := mk {
  email : option string;
  linkedin : option string;
  phone : option string;
  areasOfInterest : option (list string)
}.
End Contact.

Module Links.
Record t : Type := mk {
  github : option string
}.
End Links.

Module Doc.
Record t : Type := mk {
  name : option string;
  title : option string;
  bio : option string;
  themeColors : option ThemeColors.t;
  sectionOrder : option (list string);
  aboutText : option string;
  skills : option Skills.t;
  skillsDisplayMode : option string;
  projects : option (list Project.t);
  timeline : option (list TimelineEntry.t);
  contact : option Contact.t;
  links : option Links.t;
  resumeUrl : option string;
  referencesUrl : option string;
  references : option (list Reference.t);
  footerDescriptors : option (list string);
  projectsDescription : option string;
  contactIntro : option string;
  headshotImage : option string
}.
End Doc.

(** [o?.f] for an optional sub-object. *)
Definition chain {A B : Type} (o : option A) (f : A -> option B) : option B :=
  match o with
  | Some a => f a
  | None => None
  end.

(** [xs && xs.length > 0] for an optional array. *)
Definition nonEmpty {A : Type} (o : option (list A)) : bool :=
  match o with
  | Some (_ :: _) => true
  | _ => false
  end.

(** The elements of an optional array where the source has already tested its
    presence ([xs || []] elsewhere). *)
Definition listOf {A : Type} (o : option (list A)) : list A :=
  match o with
  | Some l => l
  | None => []
  end.

(** [o === s] for an optional string field. *)
Definition optIs (o : option string) (s : string) : bool :=
  match o with
  | Some x => x =? s
  | None => false
  end.

(** The own property of the skills mapping under a key; the keys of an object
    are distinct, so the first match is the only one. *)
Fixpoint lookup (key : string) (m : list (string * list string))
  : option (list string) :=
  match m with
  | [] => None
  | (k, v) :: m' => if k =? key then Some v else lookup key m'
  end.

(** What [mapping[key]] can be when it is not [undefined]: the array under an
    own key, or a member that every object inherits from [Object.prototype],
    which is a method (the source reads only its [length]) or, under
    [__proto__], the prototype object itself. *)
Inductive member : Type :=
| Listed (skills : list string)
| Method (arity : nat)
| Prototype.

(** The members of [Object.prototype] by key, each method with its
    [length]. *)
Definition objectPrototype (key : string) : option member :=
  if key =? "constructor" then Some (Method 1)
  else if key =? "__defineGetter__" then Some (Method 2)
  else if key =? "__defineSetter__" then Some (Method 2)
  else if key =? "hasOwnProperty" then Some (Method 1)
  else if key =? "__lookupGetter__" then Some (Method 1)
  else if key =? "__lookupSetter__" then Some (Method 1)
  else if key =? "isPrototypeOf" then Some (Method 1)
  else if key =? "propertyIsEnumerable" then Some (Method 1)
  else if key =? "toString" then Some (Method 0)
  else if key =? "valueOf" then Some (Method 0)
  else if key =? "toLocaleString" then Some (Method 0)
  else if key =? "__proto__" then Some Prototype
  else None.

(** [mapping[key]]: the own property when there is one, the inherited one
    otherwise; [None] is [undefined]. *)
Definition getMember (key : string) (m : list (string * list string))
  : option member :=
  match lookup key m with
  | Some skills => Some (Listed skills)
  | None => objectPrototype key
  end.

(** [v || []]: an array, even an empty one, a function and an object are all
    truthy. *)
Definition orEmpty (v : option member) : member :=
  match v with
  | Some x => x
  | None => Listed []
  end.

(** [v.length > 0]: the prototype object has no [length], and
    [undefined > 0] is false. *)
Definition hasPositiveLength (v : member) : bool :=
  match v with
  | Listed skills => (0 <? length skills)%nat
  | Method arity => (0 <? arity)%nat
  | Prototype => false
  end.

(** A property key made from a field: an absent field reads as the key
    [undefined]. *)
Definition propertyKey (o : option string) : string := toString (ofOpt o).

(** [Object.values(m).flat()]. *)
Definition valuesFlat (m : list (string * list string)) : list string :=
  concat (map snd m).

(** [xs.map((x, idx) => f x idx)], the index counted from [i]. *)
Fixpoint mapi {A B : Type} (f : A -> nat -> B) (i : nat) (xs : list A)
  : list B :=
  match xs with
  | [] => []
  | x :: rest => f x i :: mapi f (S i) rest
  end.

(** What a call returns: a value, or a thrown [TypeError]. *)
Inductive result (A : Type) : Type :=
| Ok (a : A)
| TypeError (message : string).
Arguments Ok {A} a.
Arguments TypeError {A} message.

Definition bind {A B : Type} (r : result A) (k : A -> result B) : result B :=
  match r with
  | Ok a => k a
  | TypeError m => TypeError m
  end.

(** [xs.map(f)] where a call of [f] may throw: the first throw ends the map. *)
Fixpoint mapM {A B : Type} (f : A -> result B) (xs : list A)
  : result (list B) :=
  match xs with
  | [] => Ok []
  | x :: rest =>
      bind (f x) (fun y => bind (mapM f rest) (fun ys => Ok (y :: ys)))
  end.

(** [xs.map((x, idx) => f x idx)] where a call of [f] may throw, the index
    counted from [i]. *)
Fixpoint mapiM {A B : Type} (f : A -> nat -> result B) (i : nat) (xs : list A)
  : result (list B) :=
  match xs with
  | [] => Ok []
  | x :: rest =>
      bind (f x i) (fun y => bind (mapiM f (S i) rest) (fun ys => Ok (y :: ys)))
  end.

(** [v.map(f)] on a member of the skills mapping: only an array has [map]. *)
Definition mapSkills {B : Type} (f : string -> B) (v : member)
  : result (list B) :=
  match v with
  | Listed skills => Ok (map f skills)
  | Method _ | Prototype => TypeError "skills.map is not a function"
  end.

(** The copyright sign, code unit 169. *)
Definition copyrightSign : string := String "169"%char EmptyString.

(** The visible text of the LinkedIn and GitHub contact links (source lines
    888 and 924): each [replace] takes a string pattern, so it removes the
    first occurrence of the pattern, wherever it stands. *)
Definition linkedinDisplay (linkedin : string) : string :=
  replaceFirst "linkedin.com/in/" "" (replaceFirst "https://" "" linkedin).

Definition githubDisplay (github : string) : string :=
  replaceFirst "github.com/" ""
    (replaceFirst "http://" "" (replaceFirst "https://" "" github)).

(** The five icons an unrecognised identifier rotates through. *)
Definition defaultIcons : list string :=
  [
    html "<svg class=~w-8 h-8 text-white~ fill=~none~ stroke=~currentColor~ viewBox=~0 0 24 24~>
      <path stroke-linecap=~round~ stroke-linejoin=~round~ stroke-width=~2~ d=~M11.049 2.927c.3-.921 1.603-.921 1.902 0l1.519 4.674a1 1 0 00.95.69h4.915c.969 0 1.371 1.24.588 1.81l-3.976 2.888a1 1 0 00-.363 1.118l1.518 4.674c.3.922-.755 1.688-1.538 1.118l-3.976-2.888a1 1 0 00-1.176 0l-3.976 2.888c-.783.57-1.838-.197-1.538-1.118l1.518-4.674a1 1 0 00-.363-1.118l-3.976-2.888c-.784-.57-.38-1.81.588-1.81h4.914a1 1 0 00.951-.69l1.519-4.674z~></path>
    </svg>";
    html "<svg class=~w-8 h-8 text-white~ fill=~none~ stroke=~currentColor~ viewBox=~0 0 24 24~>
      <path stroke-linecap=~round~ stroke-linejoin=~round~ stroke-width=~2~ d=~M9 12l2 2 4-4m6 2a9 9 0 11-18 0 9 9 0 0118 0z~></path>
    </svg>";
    html "<svg class=~w-8 h-8 text-white~ fill=~none~ stroke=~currentColor~ viewBox=~0 0 24 24~>
      <path stroke-linecap=~round~ stroke-linejoin=~round~ stroke-width=~2~ d=~M17 20h5v-2a3 3 0 00-5.356-1.857M17 20H7m10 0v-2c0-.656-.126-1.283-.356-1.857M7 20H2v-2a3 3 0 015.356-1.857M7 20v-2c0-.656.126-1.283.356-1.857m0 0a5.002 5.002 0 019.288 0M15 7a3 3 0 11-6 0 3 3 0 016 0zm6 3a2 2 0 11-4 0 2 2 0 014 0zM7 10a2 2 0 11-4 0 2 2 0 014 0z~></path>
    </svg>";
    html "<svg class=~w-8 h-8 text-white~ fill=~none~ stroke=~currentColor~ viewBox=~0 0 24 24~>
      <path stroke-linecap=~round~ stroke-linejoin=~round~ stroke-width=~2~ d=~M9 12l2 2 4-4m6 2a9 9 0 11-18 0 9 9 0 0118 0z~></path>
    </svg>";
    html "<svg class=~w-8 h-8 text-white~ fill=~none~ stroke=~currentColor~ viewBox=~0 0 24 24~>
      <path stroke-linecap=~round~ stroke-linejoin=~round~ stroke-width=~2~ d=~M19 11H5m14 0a2 2 0 012 2v6a2 2 0 01-2 2H5a2 2 0 01-2-2v-6a2 2 0 012-2m14 0V9a2 2 0 00-2-2M5 11V9a2 2 0 012-2m0 0V5a2 2 0 012-2h6a2 2 0 012 2v2M7 7h10~></path>
    </svg>"
  ].

(** [getCategoryIcon] (source lines 487-631). The index is always below five,
    so the default of [nth] is never read. *)
Definition getCategoryIcon (iconName categoryName : option string)
  (categoryIndex : nat) : string :=
  let identifier := toLowerCase (orElse iconName (orElse categoryName "")) in
  if (identifier =? "star") then
    html "<svg class=~w-8 h-8 text-white~ fill=~none~ stroke=~currentColor~ viewBox=~0 0 24 24~>
        <path stroke-linecap=~round~ stroke-linejoin=~round~ stroke-width=~2~ d=~M11.049 2.927c.3-.921 1.603-.921 1.902 0l1.519 4.674a1 1 0 00.95.69h4.915c.969 0 1.371 1.24.588 1.81l-3.976 2.888a1 1 0 00-.363 1.118l1.518 4.674c.3.922-.755 1.688-1.538 1.118l-3.976-2.888a1 1 0 00-1.176 0l-3.976 2.888c-.783.57-1.838-.197-1.538-1.118l1.518-4.674a1 1 0 00-.363-1.118l-3.976-2.888c-.784-.57-.38-1.81.588-1.81h4.914a1 1 0 00.951-.69l1.519-4.674z~></path>
      </svg>"
  else
  if (identifier =? "check") || (identifier =? "testing") then
    html "<svg class=~w-8 h-8 text-white~ fill=~none~ stroke=~currentColor~ viewBox=~0 0 24 24~>
        <path stroke-linecap=~round~ stroke-linejoin=~round~ stroke-width=~2~ d=~M9 12l2 2 4-4m6 2a9 9 0 11-18 0 9 9 0 0118 0z~></path>
      </svg>"
  else
  if (identifier =? "people") || (identifier =? "professional") || (identifier =? "professional skills") then
    html "<svg class=~w-8 h-8 text-white~ fill=~none~ stroke=~currentColor~ viewBox=~0 0 24 24~>
        <path stroke-linecap=~round~ stroke-linejoin=~round~ stroke-width=~2~ d=~M17 20h5v-2a3 3 0 00-5.356-1.857M17 20H7m10 0v-2c0-.656-.126-1.283-.356-1.857M7 20H2v-2a3 3 0 015.356-1.857M7 20v-2c0-.656.126-1.283.356-1.857m0 0a5.002 5.002 0 019.288 0M15 7a3 3 0 11-6 0 3 3 0 016 0zm6 3a2 2 0 11-4 0 2 2 0 014 0zM7 10a2 2 0 11-4 0 2 2 0 014 0z~></path>
      </svg>"
  else
  if (identifier =? "code") || (identifier =? "technical") || (identifier =? "technical skills") then
    html "<svg class=~w-8 h-8 text-white~ fill=~none~ stroke=~currentColor~ viewBox=~0 0 24 24~>
        <path stroke-linecap=~round~ stroke-linejoin=~round~ stroke-width=~2~ d=~M9 3v2m6-2v2M9 19v2m6-2v2M5 9H3m2 6H3m18-6h-2m2 6h-2M7 19h10a2 2 0 002-2V7a2 2 0 00-2-2H7a2 2 0 00-2 2v10a2 2 0 002 2zM9 9h6v6H9V9z~></path>
      </svg>"
  else
  if (identifier =? "tool") || (identifier =? "engineering") || (identifier =? "engineering expertise") || (identifier =? "devops") then
    html "<svg class=~w-8 h-8 text-white~ fill=~none~ stroke=~currentColor~ viewBox=~0 0 24 24~>
        <path stroke-linecap=~round~ stroke-linejoin=~round~ stroke-width=~2~ d=~M10.325 4.317c.426-1.756 2.924-1.756 3.35 0a1.724 1.724 0 002.573 1.066c1.543-.94 3.31.826 2.37 2.37a1.724 1.724 0 001.065 2.572c1.756.426 1.756 2.924 0 3.35a1.724 1.724 0 00-1.066 2.573c.94 1.543-.826 3.31-2.37 2.37a1.724 1.724 0 00-2.572 1.065c-.426 1.756-2.924 1.756-3.35 0a1.724 1.724 0 00-2.573-1.066c-1.543.94-3.31-.826-2.37-2.37a1.724 1.724 0 00-1.065-2.572c-1.756-.426-1.756-2.924 0-3.35a1.724 1.724 0 001.066-2.573c-.94-1.543.826-3.31 2.37-2.37.996.608 2.296.07 2.572-1.065z~></path><path stroke-linecap=~round~ stroke-linejoin=~round~ stroke-width=~2~ d=~M15 12a3 3 0 11-6 0 3 3 0 016 0z~></path>
      </svg>"
  else
  if (identifier =? "design") || (identifier =? "creative") then
    html "<svg class=~w-8 h-8 text-white~ fill=~none~ stroke=~currentColor~ viewBox=~0 0 24 24~>
        <path stroke-linecap=~round~ stroke-linejoin=~round~ stroke-width=~2~ d=~M7 21a4 4 0 01-4-4V5a2 2 0 012-2h4a2 2 0 012 2v12a4 4 0 01-4 4zM21 5a2 2 0 00-2-2h-4a2 2 0 00-2 2v12a4 4 0 004 4h4a2 2 0 002-2V5z~></path>
      </svg>"
  else
  if (identifier =? "language") then
    html "<svg class=~w-8 h-8 text-white~ fill=~none~ stroke=~currentColor~ viewBox=~0 0 24 24~>
        <path stroke-linecap=~round~ stroke-linejoin=~round~ stroke-width=~2~ d=~M3 5h12M9 3v2m1.048 9.5A18.022 18.022 0 016.412 9m6.088 9h7M11 21l5-10 5 10M12.751 5C11.783 10.77 8.07 15.61 3 18.129~></path>
      </svg>"
  else
  if (identifier =? "heart") || (identifier =? "soft") || (identifier =? "healthcare") || (identifier =? "volunteer") then
    html "<svg class=~w-8 h-8 text-white~ fill=~none~ stroke=~currentColor~ viewBox=~0 0 24 24~>
        <path stroke-linecap=~round~ stroke-linejoin=~round~ stroke-width=~2~ d=~M4.318 6.318a4.5 4.5 0 000 6.364L12 20.364l7.682-7.682a4.5 4.5 0 00-6.364-6.364L12 7.636l-1.318-1.318a4.5 4.5 0 00-6.364 0z~></path>
      </svg>"
  else
  if (identifier =? "certification") then
    html "<svg class=~w-8 h-8 text-white~ fill=~none~ stroke=~currentColor~ viewBox=~0 0 24 24~>
        <path stroke-linecap=~round~ stroke-linejoin=~round~ stroke-width=~2~ d=~M9 12l2 2 4-4M7.835 4.697a3.42 3.42 0 001.946-.806 3.42 3.42 0 014.438 0 3.42 3.42 0 001.946.806 3.42 3.42 0 013.138 3.138 3.42 3.42 0 00.806 1.946 3.42 3.42 0 010 4.438 3.42 3.42 0 00-.806 1.946 3.42 3.42 0 01-3.138 3.138 3.42 3.42 0 00-1.946.806 3.42 3.42 0 01-4.438 0 3.42 3.42 0 00-1.946-.806 3.42 3.42 0 01-3.138-3.138 3.42 3.42 0 00-.806-1.946 3.42 3.42 0 010-4.438 3.42 3.42 0 00.806-1.946 3.42 3.42 0 013.138-3.138z~></path>
      </svg>"
  else
  if (identifier =? "framework") then
    html "<svg class=~w-8 h-8 text-white~ fill=~none~ stroke=~currentColor~ viewBox=~0 0 24 24~>
        <path stroke-linecap=~round~ stroke-linejoin=~round~ stroke-width=~2~ d=~M19 11H5m14 0a2 2 0 012 2v6a2 2 0 01-2 2H5a2 2 0 01-2-2v-6a2 2 0 012-2m14 0V9a2 2 0 00-2-2M5 11V9a2 2 0 012-2m0 0V5a2 2 0 012-2h6a2 2 0 012 2v2M7 7h10~></path>
      </svg>"
  else
  if (identifier =? "database") then
    html "<svg class=~w-8 h-8 text-white~ fill=~none~ stroke=~currentColor~ viewBox=~0 0 24 24~>
        <path stroke-linecap=~round~ stroke-linejoin=~round~ stroke-width=~2~ d=~M4 7v10c0 2.21 3.582 4 8 4s8-1.79 8-4V7M4 7c0 2.21 3.582 4 8 4s8-1.79 8-4M4 7c0-2.21 3.582-4 8-4s8 1.79 8 4m0 5c0 2.21-3.582 4-8 4s-8-1.79-8-4~></path>
      </svg>"
  else
  if (identifier =? "cloud") then
    html "<svg class=~w-8 h-8 text-white~ fill=~none~ stroke=~currentColor~ viewBox=~0 0 24 24~>
        <path stroke-linecap=~round~ stroke-linejoin=~round~ stroke-width=~2~ d=~M7 16a4 4 0 01-.88-7.903A5 5 0 1115.9 6L16 6a5 5 0 011 9.9M9 19l3 3m0 0l3-3m-3 3V10~></path>
      </svg>"
  else
  if (identifier =? "mobile") then
    html "<svg class=~w-8 h-8 text-white~ fill=~none~ stroke=~currentColor~ viewBox=~0 0 24 24~>
        <path stroke-linecap=~round~ stroke-linejoin=~round~ stroke-width=~2~ d=~M12 18h.01M8 21h8a2 2 0 002-2V5a2 2 0 00-2-2H8a2 2 0 00-2 2v14a2 2 0 002 2z~></path>
      </svg>"
  else
  if (identifier =? "management") || (identifier =? "analytics") then
    html "<svg class=~w-8 h-8 text-white~ fill=~none~ stroke=~currentColor~ viewBox=~0 0 24 24~>
        <path stroke-linecap=~round~ stroke-linejoin=~round~ stroke-width=~2~ d=~M9 19v-6a2 2 0 00-2-2H5a2 2 0 00-2 2v6a2 2 0 002 2h2a2 2 0 002-2zm0 0V9a2 2 0 012-2h2a2 2 0 012 2v10m-6 0a2 2 0 002 2h2a2 2 0 002-2m0 0V5a2 2 0 012-2h2a2 2 0 012 2v14a2 2 0 01-2 2h-2a2 2 0 01-2-2z~></path>
      </svg>"
  else
  if (identifier =? "research") || (identifier =? "ai") then
    html "<svg class=~w-8 h-8 text-white~ fill=~none~ stroke=~currentColor~ viewBox=~0 0 24 24~>
        <path stroke-linecap=~round~ stroke-linejoin=~round~ stroke-width=~2~ d=~M9.663 17h4.673M12 3v1m6.364 1.636l-.707.707M21 12h-1M4 12H3m3.343-5.657l-.707-.707m2.828 9.9a5 5 0 117.072 0l-.548.547A3.374 3.374 0 0014 18.469V19a2 2 0 11-4 0v-.531c0-.895-.356-1.754-.988-2.386l-.548-.547z~></path>
      </svg>"
  else
  if (identifier =? "communication") then
    html "<svg class=~w-8 h-8 text-white~ fill=~none~ stroke=~currentColor~ viewBox=~0 0 24 24~>
        <path stroke-linecap=~round~ stroke-linejoin=~round~ stroke-width=~2~ d=~M8 12h.01M12 12h.01M16 12h.01M21 12c0 4.418-4.03 8-9 8a9.863 9.863 0 01-4.255-.949L3 20l1.395-3.72C3.512 15.042 3 13.574 3 12c0-4.418 4.03-8 9-8s9 3.582 9 8z~></path>
      </svg>"
  else
  if (identifier =? "leadership") || (identifier =? "startup") then
    html "<svg class=~w-8 h-8 text-white~ fill=~none~ stroke=~currentColor~ viewBox=~0 0 24 24~>
        <path stroke-linecap=~round~ stroke-linejoin=~round~ stroke-width=~2~ d=~M13 10V3L4 14h7v7l9-11h-7z~></path>
      </svg>"
  else
  if (identifier =? "security") then
    html "<svg class=~w-8 h-8 text-white~ fill=~none~ stroke=~currentColor~ viewBox=~0 0 24 24~>
        <path stroke-linecap=~round~ stroke-linejoin=~round~ stroke-width=~2~ d=~M9 12l2 2 4-4m5.618-4.016A11.955 11.955 0 0112 2.944a11.955 11.955 0 01-8.618 3.04A12.02 12.02 0 003 9c0 5.591 3.824 10.29 9 11.622 5.176-1.332 9-6.03 9-11.622 0-1.042-.133-2.052-.382-3.016z~></path>
      </svg>"
  else
  if (identifier =? "blockchain") then
    html "<svg class=~w-8 h-8 text-white~ fill=~none~ stroke=~currentColor~ viewBox=~0 0 24 24~>
        <path stroke-linecap=~round~ stroke-linejoin=~round~ stroke-width=~2~ d=~M13.828 10.172a4 4 0 00-5.656 0l-4 4a4 4 0 105.656 5.656l1.102-1.101m-.758-4.899a4 4 0 005.656 0l4-4a4 4 0 00-5.656-5.656l-1.1 1.1~></path>
      </svg>"
  else
  if (identifier =? "gaming") then
    html "<svg class=~w-8 h-8 text-white~ fill=~none~ stroke=~currentColor~ viewBox=~0 0 24 24~>
        <path stroke-linecap=~round~ stroke-linejoin=~round~ stroke-width=~2~ d=~M14.828 14.828a4 4 0 01-5.656 0M9 10h1m4 0h1m-6 4h.01M21 12a9 9 0 11-18 0 9 9 0 0118 0z~></path>
      </svg>"
  else
  if (identifier =? "finance") then
    html "<svg class=~w-8 h-8 text-white~ fill=~none~ stroke=~currentColor~ viewBox=~0 0 24 24~>
        <path stroke-linecap=~round~ stroke-linejoin=~round~ stroke-width=~2~ d=~M12 8c-1.657 0-3 .895-3 2s1.343 2 3 2 3 .895 3 2-1.343 2-3 2m0-8c1.11 0 2.08.402 2.599 1M12 8V7m0 1v8m0 0v1m0-1c-1.11 0-2.08-.402-2.599-1~></path>
      </svg>"
  else
  if (identifier =? "education") then
    html "<svg class=~w-8 h-8 text-white~ fill=~none~ stroke=~currentColor~ viewBox=~0 0 24 24~>
        <path stroke-linecap=~round~ stroke-linejoin=~round~ stroke-width=~2~ d=~M12 6.253v13m0-13C10.832 5.477 9.246 5 7.5 5S4.168 5.477 3 6.253v13C4.168 18.477 5.754 18 7.5 18s3.332.477 4.5 1.253m0-13C13.168 5.477 14.754 5 16.5 5c1.746 0 3.332.477 4.5 1.253v13C19.832 18.477 18.246 18 16.5 18c-1.746 0-3.332.477-4.5 1.253~></path>
      </svg>"
  else
  if (identifier =? "marketing") then
    html "<svg class=~w-8 h-8 text-white~ fill=~none~ stroke=~currentColor~ viewBox=~0 0 24 24~>
        <path stroke-linecap=~round~ stroke-linejoin=~round~ stroke-width=~2~ d=~M11 5.882V19.24a1.76 1.76 0 01-3.417.592l-2.147-6.15M18 13a3 3 0 100-6M5.436 13.683A4.001 4.001 0 017 6h1.832c4.1 0 7.625-1.234 9.168-3v14c-1.543-1.766-5.067-3-9.168-3H7a3.988 3.988 0 01-1.564-.317z~></path>
      </svg>"
  else
  if (identifier =? "sales") then
    html "<svg class=~w-8 h-8 text-white~ fill=~none~ stroke=~currentColor~ viewBox=~0 0 24 24~>
        <path stroke-linecap=~round~ stroke-linejoin=~round~ stroke-width=~2~ d=~M16 11V7a4 4 0 00-8 0v4M5 9h14l1 12H4L5 9z~></path>
      </svg>"
  else
  if (identifier =? "consulting") then
    html "<svg class=~w-8 h-8 text-white~ fill=~none~ stroke=~currentColor~ viewBox=~0 0 24 24~>
        <path stroke-linecap=~round~ stroke-linejoin=~round~ stroke-width=~2~ d=~M8.228 9c.549-1.165 2.03-2 3.772-2 2.21 0 4 1.343 4 3 0 1.4-1.278 2.575-3.006 2.907-.542.104-.994.54-.994 1.093m0 3h.01M21 12a9 9 0 11-18 0 9 9 0 0118 0z~></path>
      </svg>"
  else
    nth (categoryIndex mod 5) defaultIcons "undefined".

(** The row loop of the projects section (source lines 637-689):
    [for (let i = 0; i < xs.length; i += 3) rows.push(row(i, xs.slice(i, i + 3)))].
    [fuel] bounds the number of rounds; [length xs] rounds are enough. *)
Fixpoint rowsLoop {A : Type} (row : nat -> list A -> string)
  (fuel i : nat) (xs : list A) : list string :=
  match fuel with
  | O => []
  | S fuel' =>
      if (i <? length xs)%nat
      then row i (slice i (i + 3) xs) :: rowsLoop row fuel' (i + 3) xs
      else []
  end.

(** The same loop for the skills cards (source lines 439-476), where writing
    a row may throw: the first throw ends the loop. *)
Fixpoint rowsLoopM {A : Type} (row : nat -> list A -> result string)
  (fuel i : nat) (xs : list A) : result (list string) :=
  match fuel with
  | O => Ok []
  | S fuel' =>
      if (i <? length xs)%nat
      then
        bind (row i (slice i (i + 3) xs)) (fun r =>
        bind (rowsLoopM row fuel' (i + 3) xs) (fun rows => Ok (r :: rows)))
      else Ok []
  end.

(** Equality of two optional string fields ([===], and the comparison a [Set]
    and [includes] make). *)
Definition optEqb (x y : option string) : bool :=
  match x, y with
  | Some a, Some b => a =? b
  | None, None => true
  | _, _ => false
  end.

(** [[...new Set(xs)]]: the distinct elements, each at its first place. *)
Fixpoint distinctGo (seen xs : list (option string)) : list (option string) :=
  match xs with
  | [] => []
  | x :: rest =>
      if existsb (optEqb x) seen then distinctGo seen rest
      else x :: distinctGo (x :: seen) rest
  end.

Definition distinct (xs : list (option string)) : list (option string) :=
  distinctGo [] xs.

(** [xs[i]] spliced into a template: an index outside the array reads
    [undefined]. *)
Definition at_ (xs : list string) (i : Z) : jsval :=
  if (i <? 0)%Z then JUndefined else ofOpt (nth_error xs (Z.to_nat i)).

(** The heading of the timeline (source lines 718-746). *)
Definition generateTimelineTitle (timelineData : list TimelineEntry.t) : string :=
  let types := distinct (map TimelineEntry.type timelineData) in
  if (length types =? 0)%nat then "Education, Experience & Research"
  else
    let typeOrder := ["education"; "experience"; "research"] in
    let orderedTypes :=
      filter (fun type => existsb (optEqb (Some type)) types) typeOrder in
    let typeNames :=
      map (fun type =>
             if type =? "education" then "Education"
             else if type =? "experience" then "Experience"
             else if type =? "research" then "Research"
             else type) orderedTypes in
    if (length typeNames =? 1)%nat then toString (at_ typeNames 0)
    else if (length typeNames =? 2)%nat then
      toString (at_ typeNames 0) ++ " & " ++ toString (at_ typeNames 1)
    else
      join ", " (removelast typeNames) ++ ", & "
        ++ toString (at_ typeNames (Z.of_nat (length typeNames) - 1)).

(** ** The renderers

    The source keeps the document and the values derived from it in
    module-level constants that every function reads; here they are the
    variable of a section and definitions over it. *)

Section Program.

Variable portfolioData : Doc.t.

(** Theme colours (source lines 33-38). *)
Definition themeColors : ThemeColors.t :=
  match Doc.themeColors portfolioData with
  | Some colors => colors
  | None => ThemeColors.mk None None None None None
  end.

Definition primaryColor : string := orElse (ThemeColors.primary themeColors) "#0B3D91".
Definition secondaryColor : string := orElse (ThemeColors.secondary themeColors) "#17A2B8".
Definition accentColor : string := orElse (ThemeColors.accent themeColors) "#F3F4F6".
Definition backgroundColor : string := orElse (ThemeColors.background themeColors) "#ffffff".
Definition textColor : string := orElse (ThemeColors.text themeColors) "#1f2937".

(** The section order (source line 41): an array that is present, even an
    empty one, is taken as it is. *)
Definition sectionOrder : list string :=
  match Doc.sectionOrder portfolioData with
  | Some order => order
  | None => ["hero"; "about"; "skills"; "projects"; "timeline"; "contact"]
  end.

Definition dynamicCSS : string :=
  "
  :root {
    --primary-theme: " ++ primaryColor ++ ";
    --secondary-theme: " ++ secondaryColor ++ ";
    --accent-theme: " ++ accentColor ++ ";
    --bg-theme: " ++ backgroundColor ++ ";
    --text-theme: " ++ textColor ++ ";
  }
  
  body {
    font-family: -apple-system, BlinkMacSystemFont, 'Segoe UI', 'Roboto', 'Oxygen', 'Ubuntu', 'Cantarell', 'Fira Sans', 'Droid Sans', 'Helvetica Neue', sans-serif;
    -webkit-font-smoothing: antialiased;
    -moz-osx-font-smoothing: grayscale;
    margin: 0;
    padding: 0;
  }
  
  html {
    scroll-behavior: smooth;
  }
  
  /* Card styles - matching shadcn/ui */
  .card {
    border-radius: 0.5rem;
    border: 1px solid #e5e7eb;
    background-color: white;
  }
  
  .card-content {
    padding: 1.5rem;
  }
  
  /* Badge styles - matching shadcn/ui */
  .badge {
    display: inline-flex;
    align-items: center;
    border-radius: 9999px;
    padding: 0.25rem 0.75rem;
    font-size: 0.75rem;
    font-weight: 600;
    transition: all 0.2s;
  }
  
  .badge-secondary {
    background-color: rgba(107, 114, 128, 0.1);
    color: rgb(107, 114, 128);
  }
  
  /* Skill Card Icon Colors */
  .skill-icon {
    width: 4rem;
    height: 4rem;
    border-radius: 9999px;
    display: flex;
    align-items: center;
    justify-center;
    margin: 0 auto 1rem;
  }
  
  /* Skills Carousel Animation */
  @keyframes scroll {
    from {
      transform: translateX(0);
    }
    to {
      transform: translateX(-50%);
    }
  }
  
  .skills-carousel {
    animation: scroll 60s linear infinite;
  }
  
  /* Timeline styles */
  .timeline-line {
    position: absolute;
    left: 50%;
    transform: translateX(-50%);
    width: 0.25rem;
    height: 100%;
    background-color: var(--secondary-theme);
    border-radius: 9999px;
  }
  
  .timeline-dot {
    width: 1rem;
    height: 1rem;
    background-color: #17A2B8;
    border-radius: 9999px;
    border: 4px solid white;
    box-shadow: 0 10px 15px -3px rgba(0, 0, 0, 0.1);
  }
  
  /* Hover effects */
  .hover-scale:hover {
    transform: scale(1.05);
  }
  
  .hover-translate:hover {
    transform: translateY(-4px);
  }
  
  .transition-all {
    transition: all 0.3s ease;
  }
  
  /* Line clamp */
  .line-clamp-4 {
    display: -webkit-box;
    -webkit-line-clamp: 4;
    -webkit-box-orient: vertical;  
    overflow: hidden;
  }
".

(** Optional chains into the contact and links objects. *)
Definition contactEmail : option string := chain (Doc.contact portfolioData) Contact.email.
Definition contactLinkedin : option string := chain (Doc.contact portfolioData) Contact.linkedin.
Definition contactPhone : option string := chain (Doc.contact portfolioData) Contact.phone.
Definition contactAreasOfInterest : list string :=
  listOf (chain (Doc.contact portfolioData) Contact.areasOfInterest).
Definition linksGithub : option string := chain (Doc.links portfolioData) Links.github.

(** The condition under which the references page exists (source lines 225
    and 1337, the same expression). *)
Definition hasReferencesPage : bool :=
  match Doc.referencesUrl portfolioData with
  | Some referencesUrl =>
      truthy (JStr referencesUrl) && negb (trim referencesUrl =? "")
  | None => false
  end
  || nonEmpty (Doc.references portfolioData).

(** [generateHeroSection] (source lines 273-332). *)
Definition generateHeroSection : string :=
  html "
    <section id=~hero~ class=~min-h-screen flex items-center justify-center text-white relative~ style=~background: linear-gradient(135deg, " ++ primaryColor ++ ", " ++ secondaryColor ++ html ");~>
        <div class=~max-w-6xl mx-auto px-4 sm:px-6 lg:px-8~>
            <div class=~grid lg:grid-cols-2 gap-12 items-center~>
                <!-- Headshot - LEFT SIDE -->
                <div class=~flex justify-center lg:justify-start order-2 lg:order-1~>
                    <div class=~opacity-100~>
                        <div class=~relative~>
                            <div class=~w-80 h-auto md:w-96 md:h-auto rounded-2xl overflow-hidden border-4 shadow-2xl~ style=~border-color: rgba(255, 255, 255, 0.2);~>
                                " ++ (if truthyS (Doc.headshotImage portfolioData) then html "
                                    <img src=~" ++ escapeHtml (ofOpt (Doc.headshotImage portfolioData)) ++ html "~ 
                                         alt=~" ++ escapeHtml (ofOpt (Doc.name portfolioData)) ++ html " - Professional headshot~ 
                                         class=~w-full h-full object-contain~>
                                " else html "
                                    <div class=~w-full h-full rounded-2xl flex flex-col items-center justify-center text-white/70~ style=~background-color: rgba(255, 255, 255, 0.1); border-color: rgba(255, 255, 255, 0.3);~>
                                        <svg class=~w-20 h-20 mb-2~ fill=~currentColor~ viewBox=~0 0 20 20~>
                                            <path fill-rule=~evenodd~ d=~M4 3a2 2 0 00-2 2v10a2 2 0 002 2h12a2 2 0 002-2V5a2 2 0 00-2-2H4zm12 12H4l4-8 3 6 2-4 3 6z~ clip-rule=~evenodd~></path>
                                        </svg>
                                        <span class=~text-sm font-medium~>Add Headshot</span>
                                    </div>
                                ") ++ html "
                            </div>
                            <div class=~absolute inset-0 rounded-2xl blur-xl -z-10 scale-110~ style=~background: linear-gradient(to bottom right, rgba(23, 162, 184, 0.3), transparent);~></div>
                        </div>
                    </div>
                </div>

                <!-- Text Content - RIGHT SIDE -->
                <div class=~text-center lg:text-left order-1 lg:order-2~>
                    <h1 class=~text-4xl md:text-6xl lg:text-7xl font-bold mb-6 leading-tight~>
                        " ++ escapeHtml (JStr (orElse (Doc.name portfolioData) "Your Name")) ++ html "
                    </h1>
                    <h2 class=~text-xl md:text-2xl lg:text-3xl font-light mb-8~ style=~color: " ++ accentColor ++ html ";~>
                        " ++ escapeHtml (JStr (orElse (Doc.title portfolioData) "Your Professional Title")) ++ html "
                    </h2>
                    <p class=~text-lg md:text-xl lg:text-2xl mb-12 leading-relaxed max-w-2xl~ style=~color: " ++ accentColor ++ html ";~>
                        " ++ escapeHtml (JStr (orElse (Doc.bio portfolioData) "Add your professional bio here to introduce yourself and highlight your expertise.")) ++ html "
                    </p>
                    <div class=~flex flex-col sm:flex-row gap-4 justify-center lg:justify-start~>
                        <a href=~#projects~ 
                           class=~inline-flex items-center justify-center text-white h-11 px-8 text-lg font-semibold rounded-lg transition-all duration-300 hover:scale-105 shadow-lg~ 
                           style=~background-color: " ++ secondaryColor ++ html ";~
                           onmouseenter=~this.style.backgroundColor='" ++ primaryColor ++ html "'~
                           onmouseleave=~this.style.backgroundColor='" ++ secondaryColor ++ html "'~>
                            View My Projects
                        </a>
                    </div>
                </div>
            </div>
        </div>
        <!-- Scroll indicator -->
        <div class=~absolute bottom-8 left-1/2 transform -translate-x-1/2 animate-bounce~>
            <svg class=~w-8 h-8~ style=~color: rgba(255, 255, 255, 0.7);~ fill=~none~ stroke=~currentColor~ viewBox=~0 0 24 24~>
                <path stroke-linecap=~round~ stroke-linejoin=~round~ stroke-width=~2~ d=~M19 9l-7 7-7-7~></path>
            </svg>
        </div>
    </section>
  ".

(** One badge of the carousel (source lines 398-403). *)
Definition carouselBadge (skill : string) : string :=
  html "
                        <span class=~badge px-4 py-2 text-sm font-medium transition-all duration-300 hover:scale-105 flex-shrink-0~ 
                              style=~background-color: " ++ secondaryColor ++ "10; color: " ++ secondaryColor ++ html ";~>
                            " ++ escapeHtml (JStr skill) ++ "
                        </span>
                    ".

(** The markup around the badges (source lines 392-397 and 404-408). *)
Definition carouselHead : string :=
  html "
    <div class=~text-center mt-8~>
        <h3 class=~text-2xl font-semibold mb-8~ style=~color: " ++ primaryColor ++ html ";~>Skills</h3>
        <div class=~-mx-4 sm:-mx-6 lg:-mx-8~>
            <div class=~skills-carousel-container relative overflow-hidden bg-gray-50/50 rounded-lg py-4~>
                <div class=~skills-carousel flex gap-3 whitespace-nowrap~ style=~width: max-content;~>
                    ".

Definition carouselFoot : string :=
  "
                </div>
            </div>
        </div>
    </div>
  ".

(** [generateSkillsCarousel] (source lines 376-409). *)
Definition generateSkillsCarousel : string :=
  match chain (Doc.skills portfolioData) Skills.skills with
  | None => ""
  | Some skillsMap =>
      let allSkills := valuesFlat skillsMap in
      if (length allSkills =? 0)%nat then ""
      else
        let displaySkills := (allSkills ++ allSkills ++ allSkills)%list in
        carouselHead ++ join "" (map carouselBadge displaySkills) ++ carouselFoot
  end.

(** [portfolioData.skills.skills?.[category.id] || []] (source line 421). *)
Definition skillsOf (sk : Skills.t) (category : Category.t) : member :=
  orEmpty (chain (Skills.skills sk) (getMember (propertyKey (Category.id category)))).

(** The categories the filter keeps (source lines 420-424). *)
Definition categoriesWithSkills (sk : Skills.t) (categories : list Category.t)
  : list Category.t :=
  filter (fun category => hasPositiveLength (skillsOf sk category)) categories.

(** One skill of a category card (source lines 462-467). *)
Definition skillItem (skill : string) : string :=
  html "
                                  <div class=~flex items-center~>
                                      <div class=~w-2 h-2 rounded-full mr-3 flex-shrink-0~ style=~background-color: " ++ secondaryColor ++ html ";~></div>
                                      <span class=~text-gray-700 font-medium text-sm leading-tight~>" ++ escapeHtml (JStr skill) ++ "</span>
                                  </div>
                              ".

(** The markup of one category card around its skills (source lines
    448-472). *)
Definition categoryCardMarkup (isPartialRow : bool) (category : Category.t)
  (globalIndex : nat) (items : list string) : string :=
  html "
              <div class=~" ++ (if isPartialRow then "w-80" else "w-full") ++ html "~>
                  <div class=~bg-white rounded-lg border-0 shadow-lg hover:shadow-xl transition-shadow duration-300 h-full flex flex-col~>
                      <div class=~p-8 flex flex-col h-full w-full~>
                          <div class=~text-center mb-6~>
                              <div class=~w-16 h-16 rounded-full flex items-center justify-center mx-auto mb-4~ style=~background-color: " ++ primaryColor ++ html ";~>
                                  " ++ getCategoryIcon (Category.icon category) (Category.name category) globalIndex ++ html "
                              </div>
                              <h3 class=~text-xl font-bold mb-4~ style=~color: " ++ primaryColor ++ html ";~>
                                  " ++ escapeHtml (ofOpt (Category.name category)) ++ html "
                              </h3>
                          </div>
                          <div class=~space-y-3 flex-1~>
                              " ++ join "" items ++ "
                          </div>
                      </div>
                  </div>
              </div>
            ".

(** One category card (source lines 446-473); [globalIndex] is [i + idx], the
    place of the category among the categories the filter kept. Line 447
    reads [portfolioData.skills.skills[category.id] || []] with no [?.], which
    throws when the mapping is absent; [skills.map] throws when the member is
    not an array. *)
Definition categoryCard (sk : Skills.t) (isPartialRow : bool)
  (category : Category.t) (globalIndex : nat) : result string :=
  match Skills.skills sk with
  | None =>
      TypeError ("Cannot read properties of undefined (reading '"
                 ++ propertyKey (Category.id category) ++ "')")
  | Some mapping =>
      let skills := orEmpty (getMember (propertyKey (Category.id category)) mapping) in
      bind (mapSkills skillItem skills) (fun items =>
      Ok (categoryCardMarkup isPartialRow category globalIndex items))
  end.

(** The markup of one row around its cards (source lines 444-475). *)
Definition skillsRowMarkup (isPartialRow : bool) (cards : list string) : string :=
  html "
      <div class=~" ++ (if isPartialRow then "flex justify-center gap-8 mb-8" else "grid grid-cols-1 md:grid-cols-2 lg:grid-cols-3 gap-8 mb-8") ++ html "~>
          " ++ join "" cards ++ "
      </div>
    ".

(** One round of the loop (source lines 440-475): a row is partial when it
    holds fewer than three categories; the first card that throws ends the
    row. *)
Definition skillsRow (sk : Skills.t) (i : nat) (rowCategories : list Category.t)
  : result string :=
  let isPartialRow := (length rowCategories <? 3)%nat in
  bind (mapiM (categoryCard sk isPartialRow) i rowCategories) (fun cards =>
  Ok (skillsRowMarkup isPartialRow cards)).

(** The notice shown when no category has a skill (source lines 429-433). *)
Definition noSkillsNotice : string :=
  html "
      <div class=~text-center text-gray-500 py-8~>
          <p>No skills added yet. Add some skills in the editor!</p>
      </div>
    ".

(** The markup around the rows (source lines 478-482). *)
Definition skillsCardsHead : string :=
  html "
    <div class=~flex flex-col items-center~>
        ".

Definition skillsCardsFoot : string :=
  "
    </div>
  ".

(** [generateSkillsCards] (source lines 411-483). *)
Definition generateSkillsCards : result string :=
  match Doc.skills portfolioData with
  | None => Ok ""
  | Some sk =>
      match Skills.categories sk with
      | None => Ok ""
      | Some categories =>
          let categoriesWithSkills := categoriesWithSkills sk categories in
          if (length categoriesWithSkills =? 0)%nat then Ok noSkillsNotice
          else
            bind (rowsLoopM (skillsRow sk) (length categoriesWithSkills) 0
                    categoriesWithSkills) (fun rows =>
            Ok (skillsCardsHead ++ join LF rows ++ skillsCardsFoot))
      end
  end.

(** The skills test of the about section (source lines 342-351). *)
Definition skillsDisplayMode : string :=
  orElse (Doc.skillsDisplayMode portfolioData) "card".

Definition hasSkills : bool :=
  match Doc.skills portfolioData with
  | None => false
  | Some sk => nonEmpty (Skills.categories sk) || nonEmpty (Skills.skills sk)
  end.

(** What the about section embeds under its skills comment (source line
    370). *)
Definition skillsContent : result string :=
  if hasSkills then
    (if skillsDisplayMode =? "rotating" then Ok generateSkillsCarousel
     else generateSkillsCards)
  else Ok "<!-- No skills data -->".

Definition aboutParagraph (paragraph : string) : string :=
  html "
                        <p class=~text-lg md:text-xl text-gray-700 leading-relaxed mb-6~>
                            " ++ escapeHtml (JStr paragraph) ++ "
                        </p>
                    ".

(** [generateAboutSection] (source lines 334-374): a throw of the skills
    renderer leaves the function. *)
Definition generateAboutSection : result string :=
  if negb (includes "about" sectionOrder) then Ok ""
  else
    let aboutText :=
      orElse (Doc.aboutText portfolioData)
        "Add your about text here to tell your story and showcase your personality." in
    let paragraphs := split (LF ++ LF) aboutText in
    bind skillsContent (fun skills =>
    Ok (html "
    <section id=~about~ class=~py-20 bg-white~>
        <div class=~px-4 sm:px-6 lg:px-8~>
            <div class=~text-center mb-16~>
                <h2 class=~text-4xl md:text-5xl font-bold mb-6~ style=~color: " ++ primaryColor ++ html ";~>About Me</h2>
                <div class=~max-w-4xl mx-auto~>
                    " ++ join "" (map aboutParagraph paragraphs) ++ "
                </div>
            </div>
            
            <!-- Skills Section -->
            " ++ skills ++ "
        </div>
    </section>
  ")).

(** One project card of the main page (source lines 644-686). *)
Definition projectCard (isPartialRow : bool) (project : Project.t) : string :=
  html "
            <div class=~" ++ (if isPartialRow then "w-80" else "w-full") ++ html "~>
                <div class=~group card border-0 shadow-lg hover:shadow-xl transition-all duration-300 hover:-translate-y-1 overflow-hidden h-full~>
                    <div class=~h-48 overflow-hidden flex items-center justify-center " ++ (if optIs (Project.imageBg project) "white" then "bg-white" else if optIs (Project.imageBg project) "black" then "bg-black" else "bg-gray-100") ++ html "~>
                        " ++ (if truthyS (Project.image project) then html "
                            <img src=~" ++ escapeHtml (ofOpt (Project.image project)) ++ html "~ alt=~" ++ escapeHtml (ofOpt (Project.title project)) ++ html "~ class=~w-full h-full object-" ++ orElse (Project.imageStyle project) "cover" ++ html " transition-transform duration-300 group-hover:scale-105~>
                        " else html "
                            <svg class=~w-12 h-12 text-gray-400~ fill=~currentColor~ viewBox=~0 0 20 20~>
                                <path fill-rule=~evenodd~ d=~M4 3a2 2 0 00-2 2v10a2 2 0 002 2h12a2 2 0 002-2V5a2 2 0 00-2-2H4zm12 12H4l4-8 3 6 2-4 3 6z~ clip-rule=~evenodd~></path>
                            </svg>
                        ") ++ html "
                    </div>
                    <div class=~card-content p-6 flex flex-col h-full~>
                        <h3 class=~text-xl font-bold mb-3 group-hover:text-[var(--secondary-theme)] transition-colors duration-300~ style=~color: var(--primary-theme);~>
                            " ++ escapeHtml (ofOpt (Project.title project)) ++ html "
                        </h3>
                        <p class=~text-gray-600 text-sm leading-relaxed mb-4 line-clamp-4 flex-grow~>
                            " ++ escapeHtml (JStr (orElse (Project.summary project) (orElse (Project.description project) ""))) ++ "
                        </p>
                        " ++ (if nonEmpty (Project.skills project) then html "
                            <div class=~flex flex-wrap gap-2 mb-4~>
                                " ++ join "" (map (fun skill => html "
                                    <span class=~badge badge-secondary px-3 py-1~ style=~background-color: " ++ secondaryColor ++ "10; color: " ++ secondaryColor ++ html ";~>
                                        " ++ escapeHtml (JStr skill) ++ "
                                    </span>
                                ") (slice 0 3 (listOf (Project.skills project)))) ++ "
                                " ++ (if (3 <? length (listOf (Project.skills project)))%nat then html "
                                    <span class=~badge badge-secondary px-3 py-1 bg-gray-100 text-gray-600~>
                                        +" ++ natToString (length (listOf (Project.skills project)) - 3) ++ " more
                                    </span>
                                " else "") ++ "
                            </div>
                        " else "") ++ html "
                        <div class=~flex items-center mt-auto~ style=~color: var(--primary-theme);~>
                            <span class=~text-sm font-semibold~>View Project</span>
                            <svg class=~w-4 h-4 ml-2 transform group-hover:translate-x-1 transition-transform duration-300~ fill=~none~ stroke=~currentColor~ viewBox=~0 0 24 24~>
                                <path stroke-linecap=~round~ stroke-linejoin=~round~ stroke-width=~2~ d=~M14 5l7 7m0 0l-7 7m7-7H3~></path>
                            </svg>
                        </div>
                    </div>
                </div>
            </div>
          ".

(** One row of project cards (source lines 639-688). *)
Definition projectsRow (i : nat) (rowProjects : list Project.t) : string :=
  let isPartialRow := (length rowProjects <? 3)%nat in
  html "
      <div class=~" ++ (if isPartialRow then "flex justify-center gap-8 mb-8" else "grid grid-cols-1 md:grid-cols-2 lg:grid-cols-3 gap-8 mb-8") ++ html "~>
          " ++ join "" (map (projectCard isPartialRow) rowProjects) ++ "
      </div>
    ".

(** [generateProjectsSection] (source lines 633-712). *)
Definition generateProjectsSection : string :=
  if negb (includes "projects" sectionOrder)
     || negb (nonEmpty (Doc.projects portfolioData))
  then ""
  else
    let projects := listOf (Doc.projects portfolioData) in
    let rows := rowsLoop projectsRow (length projects) 0 projects in
    html "
    <section id=~projects~ class=~py-20 bg-gray-50~>
        <div class=~max-w-7xl mx-auto px-4 sm:px-6 lg:px-8~>
            <div class=~text-center mb-16~>
                <h2 class=~text-4xl md:text-5xl font-bold mb-6~ style=~color: " ++ primaryColor ++ html ";~>Featured Projects</h2>
                <p class=~text-lg text-gray-600 max-w-3xl mx-auto~>
                    " ++ escapeHtml (JStr (orElse (Doc.projectsDescription portfolioData) "Explore some of my recent work and personal projects that showcase my skills and passion for development.")) ++ "
                </p>
            </div>
            " ++ join LF rows ++ html "
            <div class=~text-center mt-16~>
                <p class=~text-gray-600 mb-6~>
                    Interested in learning more about my work or think I could be a good fit for your team?
                </p>
                <a href=~#contact~ class=~inline-block px-8 py-3 rounded-lg transition-all duration-300 hover:scale-105 text-white~ style=~background-color: " ++ primaryColor ++ html ";~>
                    Get In Touch
                </a>
            </div>
        </div>
    </section>
  ".

(** [item.type === s]. *)
Definition typeIs (item : TimelineEntry.t) (s : string) : bool :=
  optIs (TimelineEntry.type item) s.

(** One entry of the timeline (source lines 795-820). *)
Definition timelineItem (item : TimelineEntry.t) (index : nat) : string :=
  let badgeColor :=
    if typeIs item "education" then primaryColor
    else if typeIs item "research" then "#8b5cf6" else "#0ea5e9" in
  html "
                        <div class=~flex items-center mb-12 " ++ (if (index mod 2 =? 0)%nat then "flex-row" else "flex-row-reverse") ++ html "~>
                            <div class=~w-1/2 " ++ (if (index mod 2 =? 0)%nat then "pr-8 text-right" else "pl-8 text-left") ++ html "~>
                                <div class=~card border-0 shadow-lg hover:shadow-xl transition-shadow duration-300~>
                                    <div class=~card-content p-6~>
                                        <div class=~flex items-center mb-2~>
                                            <span class=~badge text-white mr-3~ style=~background-color: " ++ badgeColor ++ html ";~>
                                                " ++ (if typeIs item "education" then "Education" else if typeIs item "research" then "Research" else "Experience") ++ html "
                                            </span>
                                            <span class=~text-sm font-semibold text-gray-500~>" ++ escapeHtml (TimelineEntry.year item) ++ html "</span>
                                        </div>
                                        <h4 class=~text-lg font-bold mb-2~ style=~color: " ++ primaryColor ++ html ";~>" ++ escapeHtml (ofOpt (TimelineEntry.title item)) ++ html "</h4>
                                        <p class=~font-semibold mb-3~ style=~color: " ++ secondaryColor ++ html ";~>" ++ escapeHtml (ofOpt (TimelineEntry.organization item)) ++ "</p>
                                        " ++ (if truthyS (TimelineEntry.description item) then html "<p class=~text-gray-600 text-sm leading-relaxed~>" ++ escapeHtml (ofOpt (TimelineEntry.description item)) ++ "</p>" else "") ++ html "
                                    </div>
                                </div>
                            </div>
                            <div class=~relative z-10~>
                                <div class=~timeline-dot~></div>
                            </div>
                            <div class=~w-1/2~></div>
                        </div>
                      ".

(** [generateTimelineSection] (source lines 714-826). *)
Definition generateTimelineSection : string :=
  if negb (includes "timeline" sectionOrder)
     || negb (nonEmpty (Doc.timeline portfolioData))
  then ""
  else
    let timeline := listOf (Doc.timeline portfolioData) in
    let timelineTitle := generateTimelineTitle timeline in
    html "
    <section id=~timeline~ class=~py-20 bg-white~>
        <div class=~max-w-7xl mx-auto px-4 sm:px-6 lg:px-8~>
            <div class=~text-center mb-16~>
                <h2 class=~text-4xl md:text-5xl font-bold mb-6~ style=~color: " ++ primaryColor ++ html ";~>Resume</h2>
                <p class=~text-lg text-gray-600 max-w-3xl mx-auto mb-8~>
                    " ++ (if nonEmpty (Doc.references portfolioData) then "Download my complete resume and references or explore my educational background and professional experience below." else "Download my complete resume or explore my educational background and professional experience below.") ++ "
                </p>
                " ++ (if truthyS (Doc.resumeUrl portfolioData) || truthyS (Doc.referencesUrl portfolioData) then html "
                    <div class=~flex gap-4 justify-center mb-8~>
                        " ++ (if truthyS (Doc.resumeUrl portfolioData) then html "
                            <a href=~" ++ escapeHtml (ofOpt (Doc.resumeUrl portfolioData)) ++ html "~ target=~_blank~ rel=~noopener noreferrer~>
                                <button class=~inline-flex items-center justify-center gap-2 whitespace-nowrap h-11 px-8 py-3 rounded-lg shadow-lg border bg-transparent transition-all duration-300 hover:scale-105 text-sm font-medium~ 
                                        style=~border-color: " ++ secondaryColor ++ "; color: " ++ secondaryColor ++ html ";~
                                        onmouseenter=~this.style.backgroundColor='" ++ secondaryColor ++ html "'; this.style.color='white';~
                                        onmouseleave=~this.style.backgroundColor='transparent'; this.style.color='" ++ secondaryColor ++ html "';~>
                                    <svg class=~w-5 h-5~ fill=~none~ stroke=~currentColor~ viewBox=~0 0 24 24~>
                                        <path stroke-linecap=~round~ stroke-linejoin=~round~ stroke-width=~2~ d=~M4 16v1a3 3 0 003 3h10a3 3 0 003-3v-1m-4-4l-4 4m0 0l-4-4m4 4V4~></path>
                                    </svg>
                                    Download Resume PDF
                                </button>
                            </a>
                        " else "") ++ "
                        " ++ (if truthyS (Doc.referencesUrl portfolioData) then html "
                            <a href=~" ++ escapeHtml (ofOpt (Doc.referencesUrl portfolioData)) ++ html "~ target=~_blank~ rel=~noopener noreferrer~>
                                <button class=~inline-flex items-center justify-center gap-2 whitespace-nowrap h-11 px-8 py-3 rounded-lg shadow-lg border bg-transparent transition-all duration-300 hover:scale-105 text-sm font-medium~ 
                                        style=~border-color: " ++ secondaryColor ++ "; color: " ++ secondaryColor ++ html ";~
                                        onmouseenter=~this.style.backgroundColor='" ++ secondaryColor ++ html "'; this.style.color='white';~
                                        onmouseleave=~this.style.backgroundColor='transparent'; this.style.color='" ++ secondaryColor ++ html "';~>
                                    <svg class=~w-5 h-5~ fill=~none~ stroke=~currentColor~ viewBox=~0 0 24 24~>
                                        <path stroke-linecap=~round~ stroke-linejoin=~round~ stroke-width=~2~ d=~M4 16v1a3 3 0 003 3h10a3 3 0 003-3v-1m-4-4l-4 4m0 0l-4-4m4 4V4~></path>
                                    </svg>
                                    Download References PDF
                                </button>
                            </a>
                        " else "") ++ "
                    </div>
                " else "") ++ html "
            </div>
            <div class=~max-w-4xl mx-auto~>
                <h3 class=~text-2xl font-bold mb-8 text-center~ style=~color: " ++ primaryColor ++ html ";~>" ++ escapeHtml (JStr timelineTitle) ++ html "</h3>
                <div class=~relative~>
                    <div class=~timeline-line~></div>
                    " ++ join "" (mapi timelineItem 0 timeline) ++ "
                </div>
            </div>
        </div>
    </section>
  ".

(** [generateContactSection] (source lines 828-947). *)
Definition hasEmail : bool := truthyS contactEmail.
Definition hasLinkedin : bool := truthyS contactLinkedin.
Definition hasPhone : bool := truthyS contactPhone.
Definition hasGithub : bool := truthyS linksGithub.
Definition hasAreasOfInterest : bool :=
  nonEmpty (chain (Doc.contact portfolioData) Contact.areasOfInterest).

Definition generateContactSection : string :=
  if negb (includes "contact" sectionOrder) then ""
  else
    html "
    <section id=~contact~ class=~py-20 bg-white~>
        <div class=~max-w-7xl mx-auto px-4 sm:px-6 lg:px-8~>
            <div class=~text-center mb-16~>
                <h2 class=~text-4xl md:text-5xl font-bold mb-6~ style=~color: " ++ primaryColor ++ html ";~>Get In Touch</h2>
                <p class=~text-lg text-gray-600 max-w-3xl mx-auto~>
                    " ++ escapeHtml (JStr (orElse (Doc.contactIntro portfolioData) "I'm always interested in discussing new opportunities or answering questions about my work. Feel free to reach out!")) ++ html "
                </p>
            </div>
            <div class=~max-w-3xl mx-auto~>
                <div class=~flex flex-wrap md:flex-nowrap justify-center gap-6 text-center~>
                    " ++ (if hasEmail then html "
                        <div class=~flex flex-col items-center w-56~>
                            <div class=~w-16 h-16 rounded-full flex items-center justify-center mb-4~ style=~background-color: " ++ primaryColor ++ html ";~>
                                <svg class=~w-8 h-8 text-white~ fill=~none~ stroke=~currentColor~ viewBox=~0 0 24 24~>
                                    <path stroke-linecap=~round~ stroke-linejoin=~round~ stroke-width=~2~ d=~M3 8l7.89 5.26a2 2 0 002.22 0L21 8M5 19h14a2 2 0 002-2V7a2 2 0 00-2-2H5a2 2 0 00-2 2v10a2 2 0 002 2z~></path>
                                </svg>
                            </div>
                            <h4 class=~font-semibold text-gray-900 mb-2~>Email</h4>
                            <a href=~mailto:" ++ escapeHtml (ofOpt contactEmail) ++ html "~ 
                               class=~transition-colors~ 
                               style=~color: " ++ secondaryColor ++ html ";~
                               onmouseenter=~this.style.color='" ++ primaryColor ++ html "'~
                               onmouseleave=~this.style.color='" ++ secondaryColor ++ html "'~>
                                " ++ escapeHtml (ofOpt contactEmail) ++ "
                            </a>
                        </div>
                    " else "") ++ "
                    " ++ (if hasLinkedin then html "
                        <div class=~flex flex-col items-center w-56~>
                            <div class=~w-16 h-16 rounded-full flex items-center justify-center mb-4~ style=~background-color: " ++ primaryColor ++ html ";~>
                                <svg class=~w-8 h-8 text-white~ fill=~none~ stroke=~currentColor~ viewBox=~0 0 24 24~>
                                    <path stroke-linecap=~round~ stroke-linejoin=~round~ stroke-width=~2~ d=~M16 8a6 6 0 016 6v7h-4v-7a2 2 0 00-2-2 2 2 0 00-2 2v7h-4v-7a6 6 0 016-6zM2 9h4v12H2z~></path>
                                    <circle cx=~4~ cy=~4~ r=~2~ stroke-linecap=~round~ stroke-linejoin=~round~ stroke-width=~2~></circle>
                                </svg>
                            </div>
                            <h4 class=~font-semibold text-gray-900 mb-2~>LinkedIn</h4>
                            <a href=~" ++ escapeHtml (ofOpt contactLinkedin) ++ html "~ 
                               target=~_blank~ 
                               rel=~noopener noreferrer~
                               class=~transition-colors~ 
                               style=~color: " ++ secondaryColor ++ html ";~
                               onmouseenter=~this.style.color='" ++ primaryColor ++ html "'~
                               onmouseleave=~this.style.color='" ++ secondaryColor ++ html "'~>
                                " ++ escapeHtml (JStr (linkedinDisplay (orElse contactLinkedin ""))) ++ "
                            </a>
                        </div>
                    " else "") ++ "
                    " ++ (if hasPhone then html "
                        <div class=~flex flex-col items-center w-56~>
                            <div class=~w-16 h-16 rounded-full flex items-center justify-center mb-4~ style=~background-color: " ++ primaryColor ++ html ";~>
                                <svg class=~w-8 h-8 text-white~ fill=~none~ stroke=~currentColor~ viewBox=~0 0 24 24~>
                                    <path stroke-linecap=~round~ stroke-linejoin=~round~ stroke-width=~2~ d=~M3 5a2 2 0 012-2h3.28a1 1 0 01.948.684l1.498 4.493a1 1 0 01-.502 1.21l-2.257 1.13a11.042 11.042 0 005.516 5.516l1.13-2.257a1 1 0 011.21-.502l4.493 1.498a1 1 0 01.684.949V19a2 2 0 01-2 2h-1C9.716 21 3 14.284 3 6V5z~></path>
                                </svg>
                            </div>
                            <h4 class=~font-semibold text-gray-900 mb-2~>Phone</h4>
                            <a href=~tel:" ++ escapeHtml (ofOpt contactPhone) ++ html "~ 
                               class=~transition-colors~ 
                               style=~color: " ++ secondaryColor ++ html ";~
                               onmouseenter=~this.style.color='" ++ primaryColor ++ html "'~
                               onmouseleave=~this.style.color='" ++ secondaryColor ++ html "'~>
                                " ++ escapeHtml (ofOpt contactPhone) ++ "
                            </a>
                        </div>
                    " else "") ++ "
                    " ++ (if hasGithub then html "
                        <div class=~flex flex-col items-center w-56~>
                            <div class=~w-16 h-16 rounded-full flex items-center justify-center mb-4~ style=~background-color: " ++ primaryColor ++ html ";~>
                                <svg class=~w-8 h-8 text-white~ fill=~currentColor~ viewBox=~0 0 20 20~>
                                    <path fill-rule=~evenodd~ d=~M10 0C4.477 0 0 4.484 0 10.017c0 4.425 2.865 8.18 6.839 9.504.5.092.682-.217.682-.483 0-.237-.008-.868-.013-1.703-2.782.605-3.369-1.343-3.369-1.343-.454-1.158-1.11-1.466-1.11-1.466-.908-.62.069-.608.069-.608 1.003.07 1.531 1.032 1.531 1.032.892 1.53 2.341 1.088 2.91.832.092-.647.35-1.088.636-1.338-2.22-.253-4.555-1.113-4.555-4.951 0-1.093.39-1.988 1.029-2.688-.103-.253-.446-1.272.098-2.65 0 0 .84-.27 2.75 1.026A9.564 9.564 0 0110 4.844c.85.004 1.705.115 2.504.337 1.909-1.296 2.747-1.027 2.747-1.027.546 1.379.203 2.398.1 2.651.64.7 1.028 1.595 1.028 2.688 0 3.848-2.339 4.695-4.566 4.942.359.31.678.921.678 1.856 0 1.338-.012 2.419-.012 2.747 0 .268.18.58.688.482A10.019 10.019 0 0020 10.017C20 4.484 15.522 0 10 0z~ clip-rule=~evenodd~></path>
                                </svg>
                            </div>
                            <h4 class=~font-semibold text-gray-900 mb-2~>GitHub</h4>
                            <a href=~" ++ escapeHtml (ofOpt linksGithub) ++ html "~ 
                               target=~_blank~ 
                               rel=~noopener noreferrer~
                               class=~transition-colors~ 
                               style=~color: " ++ secondaryColor ++ html ";~
                               onmouseenter=~this.style.color='" ++ primaryColor ++ html "'~
                               onmouseleave=~this.style.color='" ++ secondaryColor ++ html "'~>
                                " ++ escapeHtml (JStr (githubDisplay (orElse linksGithub ""))) ++ "
                            </a>
                        </div>
                    " else "") ++ "
                </div>
                
                " ++ (if hasAreasOfInterest then html "
                    <div class=~mt-12 text-center~>
                        <h4 class=~font-semibold text-gray-900 mb-4~>Areas of Interest</h4>
                        <div class=~flex flex-wrap justify-center gap-2~>
                            " ++ join "" (map (fun interest => html "
                                <span class=~px-3 py-1 rounded-full text-sm font-medium transition-colors~ 
                                      style=~background-color: " ++ secondaryColor ++ "10; color: " ++ secondaryColor ++ html ";~>
                                    " ++ escapeHtml (JStr interest) ++ "
                                </span>
                            ") contactAreasOfInterest) ++ "
                        </div>
                    </div>
                " else "") ++ "
            </div>
        </div>
    </section>
  ".

(** [generateFooter] (source lines 949-1016). *)
Definition footerText : string :=
  if nonEmpty (Doc.footerDescriptors portfolioData) then
    join " | "
      (filter (fun d => truthy (JStr d))
         (map (fun d => escapeHtml (JStr (trim d)))
            (listOf (Doc.footerDescriptors portfolioData))))
  else escapeHtml (JStr (orElse (Doc.title portfolioData) "")).

Definition generateFooter : string :=
  html "
    <footer class=~text-white py-12~ style=~background-color: " ++ primaryColor ++ html ";~>
        <div class=~max-w-7xl mx-auto px-4 sm:px-6 lg:px-8~>
            <div class=~text-center~>
                <h3 class=~text-2xl font-bold mb-4~>" ++ escapeHtml (JStr (orElse (Doc.name portfolioData) "")) ++ html "</h3>
                <p class=~mb-6~ style=~color: " ++ accentColor ++ html ";~>
                    " ++ footerText ++ html "
                </p>
                <div class=~flex justify-center space-x-6~>
                    " ++ (if hasEmail then html "
                        <a href=~mailto:" ++ escapeHtml (ofOpt contactEmail) ++ html "~ 
                           class=~transition-colors~ 
                           style=~color: " ++ accentColor ++ html ";~
                           onmouseenter=~this.style.color='white'~
                           onmouseleave=~this.style.color='" ++ accentColor ++ html "'~>
                            <svg class=~w-6 h-6~ fill=~none~ stroke=~currentColor~ viewBox=~0 0 24 24~>
                                <path stroke-linecap=~round~ stroke-linejoin=~round~ stroke-width=~2~ d=~M3 8l7.89 5.26a2 2 0 002.22 0L21 8M5 19h14a2 2 0 002-2V7a2 2 0 00-2-2H5a2 2 0 00-2 2v10a2 2 0 002 2z~></path>
                            </svg>
                        </a>
                    " else "") ++ "
                    " ++ (if hasLinkedin then html "
                        <a href=~" ++ escapeHtml (ofOpt contactLinkedin) ++ html "~ 
                           target=~_blank~ 
                           rel=~noopener noreferrer~
                           class=~transition-colors~ 
                           style=~color: " ++ accentColor ++ html ";~
                           onmouseenter=~this.style.color='white'~
                           onmouseleave=~this.style.color='" ++ accentColor ++ html "'~>
                            <svg class=~w-6 h-6~ fill=~none~ stroke=~currentColor~ viewBox=~0 0 24 24~>
                                <path stroke-linecap=~round~ stroke-linejoin=~round~ stroke-width=~2~ d=~M16 8a6 6 0 016 6v7h-4v-7a2 2 0 00-2-2 2 2 0 00-2 2v7h-4v-7a6 6 0 016-6zM2 9h4v12H2z~></path>
                                <circle cx=~4~ cy=~4~ r=~2~ stroke-linecap=~round~ stroke-linejoin=~round~ stroke-width=~2~></circle>
                            </svg>
                        </a>
                    " else "") ++ "
                    " ++ (if hasGithub then html "
                        <a href=~" ++ escapeHtml (ofOpt linksGithub) ++ html "~ 
                           target=~_blank~ 
                           rel=~noopener noreferrer~
                           class=~transition-colors~ 
                           style=~color: " ++ accentColor ++ html ";~
                           onmouseenter=~this.style.color='white'~
                           onmouseleave=~this.style.color='" ++ accentColor ++ html "'~>
                            <svg class=~w-6 h-6~ fill=~currentColor~ viewBox=~0 0 20 20~>
                                <path fill-rule=~evenodd~ d=~M10 0C4.477 0 0 4.484 0 10.017c0 4.425 2.865 8.18 6.839 9.504.5.092.682-.217.682-.483 0-.237-.008-.868-.013-1.703-2.782.605-3.369-1.343-3.369-1.343-.454-1.158-1.11-1.466-1.11-1.466-.908-.62.069-.608.069-.608 1.003.07 1.531 1.032 1.531 1.032.892 1.53 2.341 1.088 2.91.832.092-.647.35-1.088.636-1.338-2.22-.253-4.555-1.113-4.555-4.951 0-1.093.39-1.988 1.029-2.688-.103-.253-.446-1.272.098-2.65 0 0 .84-.27 2.75 1.026A9.564 9.564 0 0110 4.844c.85.004 1.705.115 2.504.337 1.909-1.296 2.747-1.027 2.747-1.027.546 1.379.203 2.398.1 2.651.64.7 1.028 1.595 1.028 2.688 0 3.848-2.339 4.695-4.566 4.942.359.31.678.921.678 1.856 0 1.338-.012 2.419-.012 2.747 0 .268.18.58.688.482A10.019 10.019 0 0020 10.017C20 4.484 15.522 0 10 0z~ clip-rule=~evenodd~></path>
                            </svg>
                        </a>
                    " else "") ++ html "
                </div>
                <div class=~mt-8 pt-8~ style=~border-top: 1px solid " ++ secondaryColor ++ html ";~>
                    <p class=~text-sm~ style=~color: " ++ accentColor ++ html ";~>
                        " ++ copyrightSign ++ " 2025 " ++ escapeHtml (JStr (orElse (Doc.name portfolioData) "")) ++ ". All rights reserved. Built with Next.js and Tailwind CSS.
                    </p>
                </div>
            </div>
        </div>
    </footer>
  ".

(** The dispatch on a section identifier (source lines 162-178). *)
Definition sectionFragment (sectionId : string) : result string :=
  if sectionId =? "hero" then Ok generateHeroSection
  else if sectionId =? "about" then generateAboutSection
  else if sectionId =? "skills" then Ok ""
  else if sectionId =? "projects" then Ok generateProjectsSection
  else if sectionId =? "timeline" then Ok generateTimelineSection
  else if sectionId =? "contact" then Ok generateContactSection
  else Ok "".

(** The page around the joined fragments (source lines 181-270). *)
Definition pageMarkup (sections : string) : string :=
  html "<!DOCTYPE html>
<html lang=~en~>
<head>
    <meta charset=~UTF-8~>
    <meta name=~viewport~ content=~width=device-width, initial-scale=1.0~>
    <title>" ++ escapeHtml (JStr (orElse (Doc.name portfolioData) "Portfolio")) ++ html "</title>
    <script src=~https://cdn.tailwindcss.com~></script>
    <style>" ++ dynamicCSS ++ html "</style>
</head>
<body>
    <!-- Navigation -->
    <nav class=~fixed top-0 w-full bg-white/90 backdrop-blur-sm border-b border-gray-100 z-50~>
        <div class=~max-w-7xl mx-auto px-4 sm:px-6 lg:px-8~>
            <div class=~flex justify-between items-center h-16~>
                <button 
                    onclick=~window.scrollTo({ top: 0, behavior: 'smooth' })~
                    class=~font-bold text-xl transition-colors cursor-pointer~
                    style=~color: " ++ primaryColor ++ html "; border: none; background: none;~
                    onmouseenter=~this.style.color='" ++ secondaryColor ++ html "'~
                    onmouseleave=~this.style.color='" ++ primaryColor ++ html "'~>
                    " ++ escapeHtml (JStr (orElse (Doc.name portfolioData) "Portfolio")) ++ html "
                </button>
                <div class=~hidden md:flex space-x-8~>
                    <a href=~#about~ 
                       class=~text-gray-700 transition-colors~
                       style=~color: #374151;~
                       onmouseenter=~this.style.color='" ++ primaryColor ++ html "'~
                       onmouseleave=~this.style.color='#374151'~>
                        About
                    </a>
                    <a href=~#projects~ 
                       class=~text-gray-700 transition-colors~
                       style=~color: #374151;~
                       onmouseenter=~this.style.color='" ++ primaryColor ++ html "'~
                       onmouseleave=~this.style.color='#374151'~>
                        Projects
                    </a>
                    <a href=~#timeline~ 
                       class=~text-gray-700 transition-colors~
                       style=~color: #374151;~
                       onmouseenter=~this.style.color='" ++ primaryColor ++ html "'~
                       onmouseleave=~this.style.color='#374151'~>
                        Resume
                    </a>
                    " ++ (if hasReferencesPage then html "
                        <a href=~references.html~ 
                           class=~text-gray-700 transition-colors~
                           style=~color: #374151;~
                           onmouseenter=~this.style.color='" ++ primaryColor ++ html "'~
                           onmouseleave=~this.style.color='#374151'~>
                            References
                        </a>
                    " else "") ++ html "
                    <a href=~#contact~ 
                       class=~text-gray-700 transition-colors~
                       style=~color: #374151;~
                       onmouseenter=~this.style.color='" ++ primaryColor ++ html "'~
                       onmouseleave=~this.style.color='#374151'~>
                        Contact
                    </a>
                </div>
            </div>
        </div>
    </nav>
    
    <!-- Main Content -->
    <main class=~min-h-screen~>
        " ++ sections ++ "
    </main>
    
    <!-- Footer -->
    " ++ generateFooter ++ html "
    
    <script>
        // Smooth scrolling
        document.querySelectorAll('a[href^=~#~]').forEach(anchor => {
            anchor.addEventListener('click', function (e) {
                e.preventDefault();
                const target = document.querySelector(this.getAttribute('href'));
                if (target) {
                    target.scrollIntoView({
                        behavior: 'smooth',
                        block: 'start'
                    });
                }
            });
        });
    </script>
</body>
</html>".

(** [generateCompleteHTML] (source lines 160-271): the fragments are written
    in the order of [sectionOrder], the first throw ending the map, and joined
    by line feeds. *)
Definition generateCompleteHTML : result string :=
  bind (mapM sectionFragment sectionOrder) (fun fragments =>
  let sections := join LF fragments in
  Ok (pageMarkup sections)).

(** One reference card (source lines 1096-1158): [ref.name.split] throws when
    the reference has no [name]. *)
Definition referenceCard (ref : Reference.t) : result string :=
  match Reference.name ref with
  | None => TypeError "Cannot read properties of undefined (reading 'split')"
  | Some name =>
      let initials := join "" (map firstChar (split " " name)) in
      Ok (html "
                        <div class=~bg-white rounded-lg border-0 shadow-lg hover:shadow-xl transition-shadow duration-300~>
                            <div class=~p-8~>
                                <div class=~text-center mb-6~>
                                    <div class=~w-16 h-16 rounded-full flex items-center justify-center mx-auto mb-4~ style=~background-color: " ++ primaryColor ++ html ";~>
                                        <span class=~text-white font-bold text-xl~>" ++ escapeHtml (JStr initials) ++ html "</span>
                                    </div>
                                    <h3 class=~text-xl font-bold mb-2~ style=~color: " ++ primaryColor ++ html ";~>" ++ escapeHtml (ofOpt (Reference.name ref)) ++ html "</h3>
                                    <p class=~font-semibold mb-1~ style=~color: " ++ secondaryColor ++ html ";~>" ++ escapeHtml (ofOpt (Reference.title ref)) ++ html "</p>
                                    <p class=~text-gray-600 font-medium mb-2~>" ++ escapeHtml (ofOpt (Reference.company ref)) ++ html "</p>
                                    <p class=~text-sm text-gray-500 italic~>" ++ escapeHtml (JStr (orElse (Reference.relationship ref) "")) ++ html "</p>
                                </div>

                                <p class=~text-gray-700 text-sm leading-relaxed mb-6~>" ++ escapeHtml (JStr (orElse (Reference.description ref) (orElse (Reference.testimonial ref) ""))) ++ html "</p>

                                <div class=~space-y-3~>
                                    <div class=~flex items-center text-sm~>
                                        <svg class=~w-4 h-4 mr-3~ style=~color: " ++ secondaryColor ++ html ";~ fill=~none~ stroke=~currentColor~ viewBox=~0 0 24 24~>
                                            <path stroke-linecap=~round~ stroke-linejoin=~round~ stroke-width=~2~ d=~M3 8l7.89 5.26a2 2 0 002.22 0L21 8M5 19h14a2 2 0 002-2V7a2 2 0 00-2-2H5a2 2 0 00-2 2v10a2 2 0 002 2z~></path>
                                        </svg>
                                        <a href=~mailto:" ++ escapeHtml (ofOpt (Reference.email ref)) ++ html "~ 
                                           class=~text-gray-700 transition-colors~
                                           onmouseenter=~this.style.color='" ++ secondaryColor ++ html "'~
                                           onmouseleave=~this.style.color='#374151'~>
                                            " ++ escapeHtml (ofOpt (Reference.email ref)) ++ "
                                        </a>
                                    </div>
                                    " ++ (if truthyS (Reference.phone ref) then html "
                                        <div class=~flex items-center text-sm~>
                                            <svg class=~w-4 h-4 mr-3~ style=~color: " ++ secondaryColor ++ html ";~ fill=~none~ stroke=~currentColor~ viewBox=~0 0 24 24~>
                                                <path stroke-linecap=~round~ stroke-linejoin=~round~ stroke-width=~2~ d=~M3 5a2 2 0 012-2h3.28a1 1 0 01.948.684l1.498 4.493a1 1 0 01-.502 1.21l-2.257 1.13a11.042 11.042 0 005.516 5.516l1.13-2.257a1 1 0 011.21-.502l4.493 1.498a1 1 0 01.684.949V19a2 2 0 01-2 2h-1C9.716 21 3 14.284 3 6V5z~></path>
                                            </svg>
                                            <a href=~tel:" ++ escapeHtml (ofOpt (Reference.phone ref)) ++ html "~ 
                                               class=~text-gray-700 transition-colors~
                                               onmouseenter=~this.style.color='" ++ secondaryColor ++ html "'~
                                               onmouseleave=~this.style.color='#374151'~>
                                                " ++ escapeHtml (ofOpt (Reference.phone ref)) ++ "
                                            </a>
                                        </div>
                                    " else "") ++ "
                                    " ++ (if truthyS (Reference.linkedin ref) then html "
                                        <div class=~flex items-center text-sm~>
                                            <svg class=~w-4 h-4 mr-3~ style=~color: " ++ secondaryColor ++ html ";~ fill=~none~ stroke=~currentColor~ viewBox=~0 0 24 24~>
                                                <path stroke-linecap=~round~ stroke-linejoin=~round~ stroke-width=~2~ d=~M16 8a6 6 0 016 6v7h-4v-7a2 2 0 00-2-2 2 2 0 00-2 2v7h-4v-7a6 6 0 016-6zM2 9h4v12H2z~></path>
                                                <circle cx=~4~ cy=~4~ r=~2~ stroke-linecap=~round~ stroke-linejoin=~round~ stroke-width=~2~></circle>
                                            </svg>
                                            <a href=~https://" ++ escapeHtml (ofOpt (Reference.linkedin ref)) ++ html "~ 
                                               target=~_blank~ 
                                               rel=~noopener noreferrer~
                                               class=~text-gray-700 transition-colors~
                                               onmouseenter=~this.style.color='" ++ secondaryColor ++ html "'~
                                               onmouseleave=~this.style.color='#374151'~>
                                                " ++ escapeHtml (ofOpt (Reference.linkedin ref)) ++ "
                                            </a>
                                        </div>
                                    " else "") ++ "
                                </div>
                            </div>
                        </div>
                    ")
  end.

(** [generateReferencesHTML] (source lines 1019-1226). Its theme constants
    repeat the module-level ones. [portfolioData.references.map] throws when
    the document has no [references]. *)
Definition generateReferencesHTML : result string :=
  match Doc.references portfolioData with
  | None => TypeError "Cannot read properties of undefined (reading 'map')"
  | Some references =>
      bind (mapM referenceCard references) (fun cards =>
      Ok (html "<!DOCTYPE html>
<html lang=~en~>
<head>
    <meta charset=~UTF-8~>
    <meta name=~viewport~ content=~width=device-width, initial-scale=1.0~>
    <title>References - " ++ escapeHtml (ofOpt (Doc.name portfolioData)) ++ html "</title>
    <script src=~https://cdn.tailwindcss.com~></script>
    <style>
        body { 
            font-family: -apple-system, BlinkMacSystemFont, 'Segoe UI', 'Roboto', 'Oxygen', 'Ubuntu', 'Cantarell', 'Fira Sans', 'Droid Sans', 'Helvetica Neue', sans-serif;
            -webkit-font-smoothing: antialiased;
            -moz-osx-font-smoothing: grayscale;
        }
    </style>
</head>
<body>
    <!-- Navigation -->
    <nav class=~fixed top-0 w-full bg-white/90 backdrop-blur-sm border-b border-gray-100 z-50~>
        <div class=~max-w-7xl mx-auto px-4 sm:px-6 lg:px-8~>
            <div class=~flex justify-between items-center h-16~>
                <a href=~index.html~ 
                   class=~font-bold text-xl transition-colors cursor-pointer~
                   style=~color: " ++ primaryColor ++ html ";~
                   onmouseenter=~this.style.color='" ++ secondaryColor ++ html "'~
                   onmouseleave=~this.style.color='" ++ primaryColor ++ html "'~>
                    " ++ escapeHtml (ofOpt (Doc.name portfolioData)) ++ html "
                </a>
                <div class=~hidden md:flex space-x-8~>
                    <a href=~index.html#about~ class=~text-gray-700 transition-colors~ onmouseenter=~this.style.color='" ++ primaryColor ++ html "'~ onmouseleave=~this.style.color='#374151'~>About</a>
                    <a href=~index.html#projects~ class=~text-gray-700 transition-colors~ onmouseenter=~this.style.color='" ++ primaryColor ++ html "'~ onmouseleave=~this.style.color='#374151'~>Projects</a>
                    <a href=~index.html#timeline~ class=~text-gray-700 transition-colors~ onmouseenter=~this.style.color='" ++ primaryColor ++ html "'~ onmouseleave=~this.style.color='#374151'~>Resume</a>
                    <span class=~font-semibold~ style=~color: " ++ primaryColor ++ html ";~>References</span>
                    <a href=~index.html#contact~ class=~text-gray-700 transition-colors~ onmouseenter=~this.style.color='" ++ primaryColor ++ html "'~ onmouseleave=~this.style.color='#374151'~>Contact</a>
                </div>
            </div>
        </div>
    </nav>

    <!-- Header Section -->
    <section class=~pt-24 pb-12 text-white~ style=~background: linear-gradient(135deg, " ++ primaryColor ++ ", " ++ secondaryColor ++ html ");~>
        <div class=~max-w-7xl mx-auto px-4 sm:px-6 lg:px-8~>
            <div class=~text-center~>
                <a href=~index.html~ class=~inline-flex items-center text-blue-200 hover:text-white transition-colors mb-6~>
                    <svg class=~w-5 h-5 mr-2~ fill=~none~ stroke=~currentColor~ viewBox=~0 0 24 24~>
                        <path stroke-linecap=~round~ stroke-linejoin=~round~ stroke-width=~2~ d=~M19 12H5M12 19l-7-7 7-7~></path>
                    </svg>
                    Back to Portfolio
                </a>
                <h1 class=~text-4xl md:text-5xl font-bold mb-6~>Professional References</h1>
                <p class=~text-lg md:text-xl text-blue-100 max-w-3xl mx-auto mb-8~>
                    Below are professional references who can speak to my technical skills, work ethic, and contributions in academic and industry settings.
                </p>
                " ++ (if truthyS (Doc.referencesUrl portfolioData) then html "
                    <a href=~" ++ escapeHtml (ofOpt (Doc.referencesUrl portfolioData)) ++ html "~ download=~References.pdf~ target=~_blank~ rel=~noopener noreferrer~>
                        <button class=~inline-flex items-center justify-center bg-white text-sm font-medium h-11 px-8 rounded-lg transition-all duration-300 hover:scale-105 shadow-lg hover:bg-gray-100~
                                style=~color: " ++ primaryColor ++ html ";~>
                            <svg class=~w-5 h-5 mr-2~ fill=~none~ stroke=~currentColor~ viewBox=~0 0 24 24~>
                                <path stroke-linecap=~round~ stroke-linejoin=~round~ stroke-width=~2~ d=~M4 16v1a3 3 0 003 3h10a3 3 0 003-3v-1m-4-4l-4 4m0 0l-4-4m4 4V4~></path>
                            </svg>
                            Download References PDF
                        </button>
                    </a>
                " else "") ++ html "
            </div>
        </div>
    </section>

    <!-- References Section -->
    <section class=~py-20 bg-gray-50~>
        <div class=~max-w-7xl mx-auto px-4 sm:px-6 lg:px-8~>
            <div class=~grid md:grid-cols-2 lg:grid-cols-3 gap-8~>
                " ++ join "" cards ++ html "
            </div>

            <div class=~text-center mt-16~>
                <p class=~text-gray-600 mb-6 max-w-2xl mx-auto~>
                    All references have given permission to be contacted regarding my professional qualifications. Please feel free to reach out to them directly or contact me if you need additional references.
                </p>
                <a href=~index.html#contact~>
                    <button class=~inline-flex items-center justify-center text-white h-11 px-8 rounded-lg transition-all duration-300 hover:scale-105~
                            style=~background-color: " ++ primaryColor ++ html ";~
                            onmouseenter=~this.style.backgroundColor='" ++ secondaryColor ++ html "'~
                            onmouseleave=~this.style.backgroundColor='" ++ primaryColor ++ html "'~>
                        Contact Me
                    </button>
                </a>
            </div>
        </div>
    </section>

    <!-- Footer -->
    <footer class=~text-white py-12~ style=~background-color: " ++ primaryColor ++ html ";~>
        <div class=~max-w-7xl mx-auto px-4 sm:px-6 lg:px-8~>
            <div class=~text-center~>
                <h3 class=~text-2xl font-bold mb-4~>" ++ escapeHtml (ofOpt (Doc.name portfolioData)) ++ html "</h3>
                <p class=~mb-6~ style=~color: " ++ accentColor ++ html ";~>" ++ escapeHtml (JStr (orElse (Doc.title portfolioData) "")) ++ html "</p>
                <div class=~flex justify-center space-x-6~>
                    " ++ (if truthyS contactEmail then html "
                        <a href=~mailto:" ++ escapeHtml (ofOpt contactEmail) ++ html "~ 
                           class=~transition-colors~
                           style=~color: " ++ accentColor ++ html ";~
                           onmouseenter=~this.style.color='white'~
                           onmouseleave=~this.style.color='" ++ accentColor ++ html "'~>
                            <svg class=~w-6 h-6~ fill=~none~ stroke=~currentColor~ viewBox=~0 0 24 24~>
                                <path stroke-linecap=~round~ stroke-linejoin=~round~ stroke-width=~2~ d=~M3 8l7.89 5.26a2 2 0 002.22 0L21 8M5 19h14a2 2 0 002-2V7a2 2 0 00-2-2H5a2 2 0 00-2 2v10a2 2 0 002 2z~></path>
                            </svg>
                        </a>
                    " else "") ++ "
                    " ++ (if truthyS contactPhone then html "
                        <a href=~tel:" ++ escapeHtml (ofOpt contactPhone) ++ html "~ 
                           class=~transition-colors~
                           style=~color: " ++ accentColor ++ html ";~
                           onmouseenter=~this.style.color='white'~
                           onmouseleave=~this.style.color='" ++ accentColor ++ html "'~>
                            <svg class=~w-6 h-6~ fill=~none~ stroke=~currentColor~ viewBox=~0 0 24 24~>
                                <path stroke-linecap=~round~ stroke-linejoin=~round~ stroke-width=~2~ d=~M3 5a2 2 0 012-2h3.28a1 1 0 01.948.684l1.498 4.493a1 1 0 01-.502 1.21l-2.257 1.13a11.042 11.042 0 005.516 5.516l1.13-2.257a1 1 0 011.21-.502l4.493 1.498a1 1 0 01.684.949V19a2 2 0 01-2 2h-1C9.716 21 3 14.284 3 6V5z~></path>
                            </svg>
                        </a>
                    " else "") ++ "
                    " ++ (if truthyS contactLinkedin then html "
                        <a href=~https://" ++ escapeHtml (ofOpt contactLinkedin) ++ html "~ 
                           target=~_blank~ 
                           rel=~noopener noreferrer~
                           class=~transition-colors~
                           style=~color: " ++ accentColor ++ html ";~
                           onmouseenter=~this.style.color='white'~
                           onmouseleave=~this.style.color='" ++ accentColor ++ html "'~>
                            <svg class=~w-6 h-6~ fill=~none~ stroke=~currentColor~ viewBox=~0 0 24 24~>
                                <path stroke-linecap=~round~ stroke-linejoin=~round~ stroke-width=~2~ d=~M16 8a6 6 0 016 6v7h-4v-7a2 2 0 00-2-2 2 2 0 00-2 2v7h-4v-7a6 6 0 016-6zM2 9h4v12H2z~></path>
                                <circle cx=~4~ cy=~4~ r=~2~ stroke-linecap=~round~ stroke-linejoin=~round~ stroke-width=~2~></circle>
                            </svg>
                        </a>
                    " else "") ++ "
                </div>
            </div>
        </div>
    </footer>
</body>
</html>"))
  end.

(** One card of the projects page (source lines 1295-1311). *)
Definition projectsPageCard (project : Project.t) : string :=
  html "
                    <div class=~bg-white rounded-lg border-0 shadow-lg hover:shadow-xl transition-shadow duration-300~>
                        <div class=~p-8~>
                            <h3 class=~text-xl font-bold mb-2~ style=~color: " ++ primaryColor ++ html ";~>" ++ escapeHtml (ofOpt (Project.title project)) ++ html "</h3>
                            <p class=~text-gray-600 mb-4~>" ++ escapeHtml (ofOpt (Project.description project)) ++ "</p>
                            " ++ (if nonEmpty (Project.technologies project) then html "
                                <div class=~flex flex-wrap gap-2 mb-4~>
                                    " ++ join "" (map (fun tech => html "<span class=~px-2 py-1 text-xs rounded-full~ style=~background-color: " ++ accentColor ++ "; color: " ++ primaryColor ++ html ";~>" ++ escapeHtml (JStr tech) ++ "</span>") (listOf (Project.technologies project))) ++ "
                                </div>
                            " else "") ++ html "
                            <div class=~flex gap-2~>
                                " ++ (if truthyS (Project.githubUrl project) then html "<a href=~" ++ escapeHtml (ofOpt (Project.githubUrl project)) ++ html "~ target=~_blank~ class=~px-4 py-2 text-sm rounded-lg~ style=~background-color: " ++ primaryColor ++ html "; color: white;~>GitHub</a>" else "") ++ "
                                " ++ (if truthyS (Project.liveUrl project) then html "<a href=~" ++ escapeHtml (ofOpt (Project.liveUrl project)) ++ html "~ target=~_blank~ class=~px-4 py-2 text-sm rounded-lg border~ style=~border-color: " ++ primaryColor ++ "; color: " ++ primaryColor ++ html ";~>Live Demo</a>" else "") ++ "
                            </div>
                        </div>
                    </div>
                ".

(** [generateProjectsHTML] (source lines 1229-1327). *)
Definition generateProjectsHTML : result string :=
  match Doc.projects portfolioData with
  | None => TypeError "Cannot read properties of undefined (reading 'map')"
  | Some projects =>
      Ok (html "<!DOCTYPE html>
<html lang=~en~>
<head>
    <meta charset=~UTF-8~>
    <meta name=~viewport~ content=~width=device-width, initial-scale=1.0~>
    <title>Projects - " ++ escapeHtml (ofOpt (Doc.name portfolioData)) ++ html "</title>
    <script src=~https://cdn.tailwindcss.com~></script>
    <style>
        body { 
            font-family: -apple-system, BlinkMacSystemFont, 'Segoe UI', 'Roboto', 'Oxygen', 'Ubuntu', 'Cantarell', 'Fira Sans', 'Droid Sans', 'Helvetica Neue', sans-serif;
            -webkit-font-smoothing: antialiased;
            -moz-osx-font-smoothing: grayscale;
        }
    </style>
</head>
<body>
    <!-- Navigation -->
    <nav class=~fixed top-0 w-full bg-white/90 backdrop-blur-sm border-b border-gray-100 z-50~>
        <div class=~max-w-7xl mx-auto px-4 sm:px-6 lg:px-8~>
            <div class=~flex justify-between items-center h-16~>
                <a href=~index.html~ 
                   class=~font-bold text-xl transition-colors cursor-pointer~
                   style=~color: " ++ primaryColor ++ html ";~
                   onmouseenter=~this.style.color='" ++ secondaryColor ++ html "'~
                   onmouseleave=~this.style.color='" ++ primaryColor ++ html "'~>
                    " ++ escapeHtml (ofOpt (Doc.name portfolioData)) ++ html "
                </a>
                <div class=~hidden md:flex space-x-8~>
                    <a href=~index.html#about~ class=~text-gray-700 transition-colors~ onmouseenter=~this.style.color='" ++ primaryColor ++ html "'~ onmouseleave=~this.style.color='#374151'~>About</a>
                    <span class=~font-semibold~ style=~color: " ++ primaryColor ++ html ";~>Projects</span>
                    <a href=~index.html#timeline~ class=~text-gray-700 transition-colors~ onmouseenter=~this.style.color='" ++ primaryColor ++ html "'~ onmouseleave=~this.style.color='#374151'~>Resume</a>
                    <a href=~references.html~ class=~text-gray-700 transition-colors~ onmouseenter=~this.style.color='" ++ primaryColor ++ html "'~ onmouseleave=~this.style.color='#374151'~>References</a>
                    <a href=~index.html#contact~ class=~text-gray-700 transition-colors~ onmouseenter=~this.style.color='" ++ primaryColor ++ html "'~ onmouseleave=~this.style.color='#374151'~>Contact</a>
                </div>
            </div>
        </div>
    </nav>

    <!-- Header Section -->
    <section class=~pt-24 pb-12 text-white~ style=~background: linear-gradient(135deg, " ++ primaryColor ++ ", " ++ secondaryColor ++ html ");~>
        <div class=~max-w-7xl mx-auto px-4 sm:px-6 lg:px-8~>
            <div class=~text-center~>
                <a href=~index.html~ class=~inline-flex items-center text-blue-200 hover:text-white transition-colors mb-6~>
                    <svg class=~w-5 h-5 mr-2~ fill=~none~ stroke=~currentColor~ viewBox=~0 0 24 24~>
                        <path stroke-linecap=~round~ stroke-linejoin=~round~ stroke-width=~2~ d=~M19 12H5M12 19l-7-7 7-7~></path>
                    </svg>
                    Back to Portfolio
                </a>
                <h1 class=~text-4xl md:text-5xl font-bold mb-6~>My Projects</h1>
                <p class=~text-lg md:text-xl text-blue-100 max-w-3xl mx-auto mb-8~>
                    " ++ escapeHtml (JStr (orElse (Doc.projectsDescription portfolioData) "Explore my recent work and projects")) ++ html "
                </p>
            </div>
        </div>
    </section>

    <!-- Projects Section -->
    <section class=~py-20 bg-gray-50~>
        <div class=~max-w-7xl mx-auto px-4 sm:px-6 lg:px-8~>
            <div class=~grid md:grid-cols-2 lg:grid-cols-3 gap-8~>
                " ++ join "" (map projectsPageCard projects) ++ html "
            </div>
        </div>
    </section>

    <!-- Footer -->
    <footer class=~text-white py-12~ style=~background-color: " ++ primaryColor ++ html ";~>
        <div class=~max-w-7xl mx-auto px-4 sm:px-6 lg:px-8~>
            <div class=~text-center~>
                <h3 class=~text-2xl font-bold mb-4~>" ++ escapeHtml (ofOpt (Doc.name portfolioData)) ++ html "</h3>
                <p class=~mb-6~ style=~color: " ++ accentColor ++ html ";~>" ++ escapeHtml (JStr (orElse (Doc.title portfolioData) "")) ++ "</p>
            </div>
        </div>
    </footer>
</body>
</html>")
  end.

(** ** The driver (source lines 1329-1353)

    A run writes files in order; a thrown error is not caught, so it ends the
    run and the later writes do not happen. File names are relative to the
    working directory. *)
Record Run : Type := mkRun {
  written : list (string * string);
  uncaught : option string
}.

Definition writeProjects (files : list (string * string)) : Run :=
  if nonEmpty (Doc.projects portfolioData) then
    match generateProjectsHTML with
    | TypeError message => mkRun files (Some message)
    | Ok projectsContent =>
        mkRun (files ++ [("projects.html", projectsContent)])%list None
    end
  else mkRun files None.

Definition main : Run :=
  match generateCompleteHTML with
  | TypeError message => mkRun [] (Some message)
  | Ok htmlContent =>
      let files := [("index.html", htmlContent)] in
      if hasReferencesPage then
        match generateReferencesHTML with
        | TypeError message => mkRun files (Some message)
        | Ok referencesContent =>
            writeProjects (files ++ [("references.html", referencesContent)])%list
        end
      else writeProjects files
  end.

End Program.

(** ** Definitions used to state the properties *)

(** A string made of white space only (the empty string included). *)
Fixpoint allWhitespace (s : string) : bool :=
  match s with
  | EmptyString => true
  | String a s' => isWhitespace a && allWhitespace s'
  end.

(** Removing a leading prefix, as the specification words the link texts:
    the string is changed only when it starts with the prefix. *)
Definition stripPrefix (p s : string) : string :=
  if startsWith p s then dropS (String.length p) s else s.

Definition specLinkedinText (linkedin : string) : string :=
  stripPrefix "linkedin.com/in/" (stripPrefix "https://" linkedin).

Definition specGithubText (github : string) : string :=
  stripPrefix "github.com/"
    (stripPrefix "http://" (stripPrefix "https://" github)).

(** [r] is [s] with the first occurrence of [pat] removed: [s] is
    [a ++ pat ++ b] with [a] as short as can be, and [r] is [a ++ b]; when
    [pat] does not occur in [s], [r] is [s]. *)
Definition firstRemoved (pat s r : string) : Prop :=
  ((forall a b, s <> a ++ pat ++ b) /\ r = s)
  \/ exists a b,
       s = a ++ pat ++ b
       /\ (forall a' b', s = a' ++ pat ++ b' -> String.length a <= String.length a')
       /\ r = a ++ b.

(** The same document with a given LinkedIn address, and with a given GitHub
    address; nothing else is changed. *)
Definition withLinkedin (d : Doc.t) (linkedin : string) : Doc.t :=
  Doc.mk (Doc.name d) (Doc.title d) (Doc.bio d) (Doc.themeColors d)
    (Doc.sectionOrder d) (Doc.aboutText d) (Doc.skills d)
    (Doc.skillsDisplayMode d) (Doc.projects d) (Doc.timeline d)
    (Some (Contact.mk (contactEmail d) (Some linkedin) (contactPhone d)
             (chain (Doc.contact d) Contact.areasOfInterest)))
    (Doc.links d) (Doc.resumeUrl d) (Doc.referencesUrl d) (Doc.references d)
    (Doc.footerDescriptors d) (Doc.projectsDescription d) (Doc.contactIntro d)
    (Doc.headshotImage d).

Definition withGithub (d : Doc.t) (github : string) : Doc.t :=
  Doc.mk (Doc.name d) (Doc.title d) (Doc.bio d) (Doc.themeColors d)
    (Doc.sectionOrder d) (Doc.aboutText d) (Doc.skills d)
    (Doc.skillsDisplayMode d) (Doc.projects d) (Doc.timeline d)
    (Doc.contact d) (Some (Links.mk (Some github)))
    (Doc.resumeUrl d) (Doc.referencesUrl d) (Doc.references d)
    (Doc.footerDescriptors d) (Doc.projectsDescription d) (Doc.contactIntro d)
    (Doc.headshotImage d).

(** The heading of the timeline as the specification defines it: the types of
    the preferred order that occur in the timeline, by their display names,
    joined by the rule for one, two and three names; the fallback title when
    none occurs. *)
Definition preferredOrder : list string := ["education"; "experience"; "research"].

Definition displayName (type : string) : string :=
  if type =? "education" then "Education"
  else if type =? "experience" then "Experience"
  else if type =? "research" then "Research"
  else type.

Definition typesPresent (timeline : list TimelineEntry.t) : list string :=
  filter (fun type => existsb (fun item => optIs (TimelineEntry.type item) type) timeline)
    preferredOrder.

Definition fallbackTitle : string := "Education, Experience & Research".

Definition referenceTimelineTitle (timeline : list TimelineEntry.t) : string :=
  match map displayName (typesPresent timeline) with
  | [a] => a
  | [a; b] => a ++ " & " ++ b
  | [a; b; c] => a ++ ", " ++ b ++ ", & " ++ c
  | _ => fallbackTitle
  end.

(** A document with no field at all. *)
Definition emptyDoc : Doc.t :=
  Doc.mk None None None None None None None None None None
    None None None None None None None None None.

(** A timeline entry of a given type. *)
Definition entryOfType (type : string) : TimelineEntry.t :=
  TimelineEntry.mk (Some type) (JStr "2020") (Some "Title") (Some "Organization") None.

(** The same document with other skills data. *)
Definition withSkills (d : Doc.t) (sk : option Skills.t) (mode : option string)
  : Doc.t :=
  Doc.mk (Doc.name d) (Doc.title d) (Doc.bio d) (Doc.themeColors d)
    (Doc.sectionOrder d) (Doc.aboutText d) sk mode (Doc.projects d)
    (Doc.timeline d) (Doc.contact d) (Doc.links d) (Doc.resumeUrl d)
    (Doc.referencesUrl d) (Doc.references d) (Doc.footerDescriptors d)
    (Doc.projectsDescription d) (Doc.contactIntro d) (Doc.headshotImage d).

(** The same document with another section order. *)
Definition withSectionOrder (d : Doc.t) (order : list string) : Doc.t :=
  Doc.mk (Doc.name d) (Doc.title d) (Doc.bio d) (Doc.themeColors d)
    (Some order) (Doc.aboutText d) (Doc.skills d) (Doc.skillsDisplayMode d)
    (Doc.projects d) (Doc.timeline d) (Doc.contact d) (Doc.links d)
    (Doc.resumeUrl d) (Doc.referencesUrl d) (Doc.references d)
    (Doc.footerDescriptors d) (Doc.projectsDescription d) (Doc.contactIntro d)
    (Doc.headshotImage d).

(** The section identifiers the dispatch knows. *)
Definition recognizedSections : list string :=
  ["hero"; "about"; "skills"; "projects"; "timeline"; "contact"].

(** How often [pat] occurs in [s]. *)
Fixpoint occurrences (pat s : string) : nat :=
  (if startsWith pat s then 1 else 0)
  + match s with
    | EmptyString => 0
    | String _ s' => occurrences pat s'
    end.

(** A document whose only timeline entry has a type outside the preferred
    order. *)
Definition volunteerDoc : Doc.t :=
  Doc.mk (Some "Ann") None None None None None None None None
    (Some [entryOfType "volunteer"]) None None None None None None None None None.

(** Skills data in which one category has skills. *)
Definition someSkills : Skills.t :=
  Skills.mk (Some [Category.mk (Some "lang") (Some "Languages") None])
    (Some [("lang", ["Rust"; "Go"])]).

(** A document with skills data whose section order names [skills] and not
    [about]. *)
Definition skillsWithoutAboutDoc : Doc.t :=
  Doc.mk (Some "Ann") None None None (Some ["hero"; "skills"; "contact"]) None
    (Some someSkills) None None None None None None None None None None None None.

(** The skills of the skills mapping flattened in the order of the mapping:
    entry after entry and, within one entry, in the order of its list; empty
    when the mapping is absent. *)
Fixpoint flattenMapping (m : list (string * list string)) : list string :=
  match m with
  | [] => []
  | (_, skills) :: rest => (skills ++ flattenMapping rest)%list
  end.

Definition flattenedSkills (d : Doc.t) : list string :=
  match chain (Doc.skills d) Skills.skills with
  | Some skillsMap => flattenMapping skillsMap
  | None => []
  end.

(** The skills associated with a category, as the specification words the
    association: the list the mapping holds under the key equal to the id of
    the category (an absent id read as a property key), no skill when there is
    no such key or no mapping. *)
Definition associatedSkills (sk : Skills.t) (category : Category.t)
  : list string :=
  listOf (chain (Skills.skills sk) (lookup (propertyKey (Category.id category)))).

(** Whether a category has at least one associated skill. *)
Definition hasAssociatedSkills (sk : Skills.t) (category : Category.t) : bool :=
  (0 <? length (associatedSkills sk category))%nat.

(** Whether the property read [mapping[category.id]] yields a member that
    every object inherits instead of an entry of the mapping: the id, read as
    a property key, names such a member and is not a key of the mapping. *)
Definition readsInherited (sk : Skills.t) (category : Category.t) : bool :=
  match Skills.skills sk with
  | Some m =>
      match lookup (propertyKey (Category.id category)) m,
            objectPrototype (propertyKey (Category.id category)) with
      | None, Some _ => true
      | _, _ => false
      end
  | None => false
  end.

(** Whether the card of a category cannot be written: what its id reads in
    the mapping is a method with a positive [length], which the filter keeps
    and which has no [map]. *)
Definition cardThrows (sk : Skills.t) (category : Category.t) : bool :=
  match skillsOf sk category with
  | Method arity => (0 <? arity)%nat
  | Listed _ | Prototype => false
  end.

(** The names of the methods with a positive [length] that every object
    inherits. *)
Definition inheritedMethods : list string :=
  ["constructor"; "__defineGetter__"; "__defineSetter__"; "hasOwnProperty";
   "__lookupGetter__"; "__lookupSetter__"; "isPrototypeOf";
   "propertyIsEnumerable"].

(** The card of a category, written with its associated skills. *)
Definition cardOf (d : Doc.t) (sk : Skills.t) (isPartialRow : bool)
  (category : Category.t) (globalIndex : nat) : string :=
  categoryCardMarkup d isPartialRow category globalIndex
    (map (skillItem d) (associatedSkills sk category)).

(** A row of cards: the cards of the categories of the row, the first of
    which stands at place [i] among the categories rendered, in the layout of
    a partial row or of a full one. *)
Definition rowOf (d : Doc.t) (sk : Skills.t) (isPartialRow : bool) (i : nat)
  (rowCategories : list Category.t) : string :=
  skillsRowMarkup isPartialRow (mapi (cardOf d sk isPartialRow) i rowCategories).

(** The flattened skills as the specification words them: the categories in
    the order of the [categories] sequence, each with its associated skills in
    their order. *)
Definition flattenedByCategory (d : Doc.t) : list string :=
  match Doc.skills d with
  | Some sk => flat_map (associatedSkills sk) (listOf (Skills.categories sk))
  | None => []
  end.

(** The same document with another [categories] sequence beside the mapping
    of [sk]. *)
Definition withCategories (d : Doc.t) (sk : Skills.t)
  (categories : list Category.t) : Doc.t :=
  withSkills d (Some (Skills.mk (Some categories) (Skills.skills sk)))
    (Doc.skillsDisplayMode d).

(** A document in card mode with a category that has a skill and a category
    whose id is [constructor], which the mapping does not list. *)
Definition inheritedKeySkills : Skills.t :=
  Skills.mk
    (Some [Category.mk (Some "lang") (Some "Languages") None;
           Category.mk (Some "constructor") (Some "Other") None])
    (Some [("lang", ["Rust"])]).

Definition inheritedKeyDoc : Doc.t :=
  withSkills emptyDoc (Some inheritedKeySkills) None.

(** Skills data in which the keys of the mapping are the ids of the
    categories, in the same order. *)
Definition keyedSkills : Skills.t :=
  Skills.mk
    (Some [Category.mk (Some "a") (Some "A") None;
           Category.mk (Some "b") (Some "B") None])
    (Some [("a", ["a1"]); ("b", ["b1"; "b2"])]).

Definition keyedDoc : Doc.t := withSkills emptyDoc (Some keyedSkills) (Some "rotating").

(** A document in rotating mode whose mapping lists its keys in another order
    than the [categories] sequence lists the categories. *)
Definition reorderedDoc : Doc.t :=
  withSkills emptyDoc
    (Some (Skills.mk
             (Some [Category.mk (Some "b") (Some "B") None;
                    Category.mk (Some "a") (Some "A") None])
             (Some [("a", ["x"]); ("b", ["y"])])))
    (Some "rotating").

(** Skills data in which no category has a skill. *)
Definition skillsWithoutEntries : Skills.t :=
  Skills.mk (Some [Category.mk (Some "lang") (Some "Languages") None]) (Some []).

Definition emptyCategoriesDoc : Doc.t :=
  withSkills emptyDoc (Some skillsWithoutEntries) None.

(** A document whose skills object has an empty list of categories and an
    empty mapping. *)
Definition noSkillsDataDoc : Doc.t :=
  withSkills emptyDoc (Some (Skills.mk (Some []) (Some []))) None.

(** A document with four categories that have skills and one that has none. *)
Definition fourCategoriesSkills : Skills.t :=
  Skills.mk
    (Some [Category.mk (Some "a") (Some "A") None;
           Category.mk (Some "b") (Some "B") None;
           Category.mk (Some "none") (Some "None") None;
           Category.mk (Some "c") (Some "C") None;
           Category.mk (Some "d") (Some "D") None])
    (Some [("a", ["a1"]); ("b", ["b1"; "b2"]); ("c", ["c1"]); ("d", ["d1"])]).

Definition fourCategoriesDoc : Doc.t :=
  withSkills emptyDoc (Some fourCategoriesSkills) None.

(** A document in rotating mode. *)
Definition rotatingDoc : Doc.t :=
  withSkills emptyDoc
    (Some (Skills.mk None (Some [("x", ["a"; "b"]); ("y", ["c"])])))
    (Some "rotating").

(** A document that names a references file and lists no reference. *)
Definition referencesUrlOnlyDoc : Doc.t :=
  Doc.mk (Some "Ann") None None None None None None None None None None None
    None (Some "references.pdf") None None None None None.

(** A document whose only reference has no name. *)
Definition namelessReferenceDoc : Doc.t :=
  Doc.mk (Some "Ann") None None None None None None None None None None None
    None None
    (Some [Reference.mk None (Some "Manager") (Some "Acme") None None None
             (Some "m@acme.example") None None])
    None None None None.

(** A document with one named reference. *)
Definition oneReferenceDoc : Doc.t :=
  Doc.mk (Some "Ann") None None None None None None None None None None None
    None None
    (Some [Reference.mk (Some "Grace  Hopper") (Some "Manager") (Some "Acme")
             None None None (Some "g@acme.example") None None])
    None None None None.

(** ** Definitions used to state the further properties *)

(** The text that stands for one character after escaping, by the table of
    [escapeHtml]. *)
Definition escapeChar (a : ascii) : string :=
  if Ascii.eqb a "&" then "&amp;"
  else if Ascii.eqb a "<" then "&lt;"
  else if Ascii.eqb a ">" then "&gt;"
  else if Ascii.eqb a dquote then "&quot;"
  else if Ascii.eqb a "'" then "&#39;"
  else String a EmptyString.

(** Every character replaced by its text, in one pass. *)
Fixpoint escapeEach (s : string) : string :=
  match s with
  | EmptyString => EmptyString
  | String a s' => escapeChar a ++ escapeEach s'
  end.

(** Whether the character [c] occurs in [s]. *)
Fixpoint occursIn (c : ascii) (s : string) : bool :=
  match s with
  | EmptyString => false
  | String a s' => Ascii.eqb a c || occursIn c s'
  end.

(** The same project with another list of skills, and with another image
    style. *)
Definition withProjectSkills (p : Project.t) (skills : option (list string))
  : Project.t :=
  Project.mk (Project.title p) (Project.summary p) (Project.description p)
    (Project.image p) (Project.imageBg p) (Project.imageStyle p) skills
    (Project.githubUrl p) (Project.liveUrl p) (Project.technologies p).

Definition withImageStyle (p : Project.t) (imageStyle : option string)
  : Project.t :=
  Project.mk (Project.title p) (Project.summary p) (Project.description p)
    (Project.image p) (Project.imageBg p) imageStyle (Project.skills p)
    (Project.githubUrl p) (Project.liveUrl p) (Project.technologies p).

(** The same timeline entry with another type. *)
Definition withType (item : TimelineEntry.t) (type : option string)
  : TimelineEntry.t :=
  TimelineEntry.mk type (TimelineEntry.year item) (TimelineEntry.title item)
    (TimelineEntry.organization item) (TimelineEntry.description item).

(** The same document with another contact object and other links. *)
Definition withContact (d : Doc.t) (contact : option Contact.t)
  (links : option Links.t) : Doc.t :=
  Doc.mk (Doc.name d) (Doc.title d) (Doc.bio d) (Doc.themeColors d)
    (Doc.sectionOrder d) (Doc.aboutText d) (Doc.skills d)
    (Doc.skillsDisplayMode d) (Doc.projects d) (Doc.timeline d) contact links
    (Doc.resumeUrl d) (Doc.referencesUrl d) (Doc.references d)
    (Doc.footerDescriptors d) (Doc.projectsDescription d) (Doc.contactIntro d)
    (Doc.headshotImage d).

(** The same document with other theme colours. *)
Definition withThemeColors (d : Doc.t) (colors : option ThemeColors.t) : Doc.t :=
  Doc.mk (Doc.name d) (Doc.title d) (Doc.bio d) colors
    (Doc.sectionOrder d) (Doc.aboutText d) (Doc.skills d)
    (Doc.skillsDisplayMode d) (Doc.projects d) (Doc.timeline d)
    (Doc.contact d) (Doc.links d) (Doc.resumeUrl d) (Doc.referencesUrl d)
    (Doc.references d) (Doc.footerDescriptors d) (Doc.projectsDescription d)
    (Doc.contactIntro d) (Doc.headshotImage d).

(** A project with a title and nothing else. *)
Definition projectTitled (title : string) : Project.t :=
  Project.mk (Some title) None None None None None None None None None.

(** A document with five projects. *)
Definition fiveProjectsDoc : Doc.t :=
  Doc.mk (Some "Ann") None None None None None None None
    (Some [projectTitled "one"; projectTitled "two"; projectTitled "three";
           projectTitled "four"; projectTitled "five"])
    None None None None None None None None None None.

(** A timeline of three entries. *)
Definition threeEntriesDoc : Doc.t :=
  Doc.mk (Some "Ann") None None None None None None None None
    (Some [entryOfType "research"; entryOfType "education"; entryOfType "volunteer"])
    None None None None None None None None None.

(** A document with a title whose footer descriptors are all blank. *)
Definition blankDescriptorsDoc : Doc.t :=
  Doc.mk (Some "Ann") (Some "Engineer") None None None None None None None None
    None None None None None (Some [" "; ""]) None None None.

(** The files a run wrote, by name. *)
Definition fileNames (r : Run) : list string := map fst (written r).

(** A project with an image. *)
Definition pictureProject : Project.t :=
  Project.mk (Some "one") None None (Some "one.png") None None None None None None.

(** A reference with a name and nothing else. *)
Definition referenceNamed (name : string) : Reference.t :=
  Reference.mk (Some name) None None None None None None None None.

(** A document in card mode whose skills have no list of categories. *)
Definition skillsWithoutCategoriesDoc : Doc.t :=
  withSkills emptyDoc (Some (Skills.mk None (Some [("x", ["a"])]))) None.

(** The same document with every text field of the document itself, and
    every theme colour, set to [text]. *)
Definition withTexts (d : Doc.t) (text : option string) : Doc.t :=
  Doc.mk text text text (Some (ThemeColors.mk text text text text text))
    (Doc.sectionOrder d) text (Doc.skills d) text (Doc.projects d)
    (Doc.timeline d) (Doc.contact d) (Doc.links d) text text (Doc.references d)
    (Doc.footerDescriptors d) text text text.

(** The same document with the text fields absent and no theme object. *)
Definition withoutTexts (d : Doc.t) : Doc.t :=
  Doc.mk None None None None
    (Doc.sectionOrder d) None (Doc.skills d) None (Doc.projects d)
    (Doc.timeline d) (Doc.contact d) (Doc.links d) None None (Doc.references d)
    (Doc.footerDescriptors d) None None None.

(** ** String lemmas *)

Lemma append_empty_r (s : string) : s ++ "" = s.
Proof. induction s as [|a s IH]; simpl; [reflexivity | now rewrite IH]. Qed.

Lemma append_assoc (a b c : string) : (a ++ b) ++ c = a ++ b ++ c.
Proof. induction a as [|x a IH]; simpl; [reflexivity | now rewrite IH]. Qed.

Lemma append_nonempty (a b : string) : a <> "" -> a ++ b <> "".
Proof. destruct a; [congruence | discriminate]. Qed.

Lemma literal_head_nonempty (a b : string) : a <> "" -> a ++ b = "" -> False.
Proof. intros Ha H. now apply (append_nonempty a b Ha). Qed.

Lemma startsWith_append (p s : string) : startsWith p (p ++ s) = true.
Proof.
  induction p as [|a p IH]; simpl; [reflexivity|].
  now rewrite Ascii.eqb_refl, IH.
Qed.

Lemma dropS_append (p s : string) : dropS (String.length p) (p ++ s) = s.
Proof. induction p as [|a p IH]; simpl; [reflexivity | exact IH]. Qed.

Lemma startsWith_decompose (p s : string) :
  startsWith p s = true -> s = p ++ dropS (String.length p) s.
Proof.
  revert s. induction p as [|a p IH]; intros s H; [reflexivity|].
  destruct s as [|b s]; [discriminate|].
  cbn [startsWith] in H. apply andb_true_iff in H as [Hab Hs].
  apply Ascii.eqb_eq in Hab. subst b.
  cbn [String.length dropS append]. f_equal. now apply IH.
Qed.

Lemma replaceFirst_prefix (p rest : string) :
  replaceFirst p "" (p ++ rest) = rest.
Proof.
  destruct p as [|a p].
  - destruct rest; reflexivity.
  - cbn [replaceFirst append].
    change (String a (p ++ rest)) with (String a p ++ rest).
    rewrite startsWith_append, dropS_append. reflexivity.
Qed.

Lemma replaceFirst_absent (p rep s : string) :
  includesS p s = false -> replaceFirst p rep s = s.
Proof.
  induction s as [|a s IH]; cbn [includesS replaceFirst].
  - destruct (startsWith p ""); [discriminate | reflexivity].
  - destruct (startsWith p (String a s)); [discriminate|].
    intros H. now rewrite (IH H).
Qed.

Lemma replaceG_absent (c : ascii) (rep s : string) :
  isWhitespace c = false -> allWhitespace s = true -> replaceG c rep s = s.
Proof.
  intros Hc. induction s as [|a s IH]; cbn [allWhitespace replaceG]; [reflexivity|].
  intros H. apply andb_true_iff in H as [Ha Hs].
  destruct (Ascii.eqb_spec a c) as [->|_].
  - congruence.
  - now rewrite (IH Hs).
Qed.

(** ** Finding a piece of a template *)

Lemma frame_here (t post : string) : t ++ post = "" ++ t ++ post.
Proof. reflexivity. Qed.

Lemma frame_step (c x pre t post : string) :
  x = pre ++ t ++ post -> c ++ x = (c ++ pre) ++ t ++ post.
Proof. intros ->. now rewrite append_assoc. Qed.

Lemma frame_nested (x rest pre t post : string) :
  x = pre ++ t ++ post -> x ++ rest = pre ++ t ++ post ++ rest.
Proof. intros ->. now rewrite !append_assoc. Qed.

(** Finds [t] among the operands of a concatenation, looking into an operand
    that is a concatenation itself. *)
Ltac frame :=
  first [ apply frame_here
        | eapply frame_nested; frame
        | eapply frame_step; frame ].

Lemma includes_In (x : string) (xs : list string) :
  includes x xs = true <-> In x xs.
Proof.
  unfold includes. rewrite existsb_exists. split.
  - intros [y [Hy E]]. apply String.eqb_eq in E. now subst.
  - intros H. exists x. split; [exact H | apply String.eqb_refl].
Qed.

Lemma startsWith_app_l (p a b : string) :
  startsWith p a = true -> startsWith p (a ++ b) = true.
Proof.
  revert a. induction p as [|x p IH]; intros a H; [reflexivity|].
  destruct a as [|y a]; [discriminate|].
  cbn [startsWith append] in *. apply andb_true_iff in H as [H1 H2].
  now rewrite H1, (IH a H2).
Qed.

Lemma includesS_app_l (p a b : string) :
  includesS p a = true -> includesS p (a ++ b) = true.
Proof.
  induction a as [|x a IH]; cbn [includesS].
  - destruct (startsWith p "") eqn:E; [|discriminate].
    intros _. destruct p; [|discriminate]. destruct b; reflexivity.
  - destruct (startsWith p (String x a)) eqn:E.
    + intros _. cbn [append]. change (String x (a ++ b)) with (String x a ++ b).
      destruct (String x a ++ b) eqn:E'; [discriminate|].
      rewrite <- E'. cbn [append includesS].
      change (String x (a ++ b)) with (String x a ++ b).
      now rewrite (startsWith_app_l p (String x a) b E).
    + intros H. cbn [append includesS].
      destruct (startsWith p (String x (a ++ b))); [reflexivity | now apply IH].
Qed.

Lemma includesS_app_r (p a b : string) :
  includesS p b = true -> includesS p (a ++ b) = true.
Proof.
  intros H. induction a as [|x a IH]; [exact H|].
  cbn [append includesS].
  destruct (startsWith p (String x (a ++ b))); [reflexivity | exact IH].
Qed.

(** Looks for a literal operand of a concatenation that holds the pattern. *)
Ltac contains :=
  first [ apply includesS_app_l; vm_compute; reflexivity
        | apply includesS_app_r; contains ].

(** ** The escaping utility *)

Lemma escapeHtml_falsy (v : jsval) : truthy v = false -> escapeHtml v = "".
Proof. intros H. unfold escapeHtml. now rewrite H. Qed.

Lemma escapeHtml_whitespace (s : string) :
  allWhitespace s = true -> escapeHtml (JStr s) = s.
Proof.
  intros H. unfold escapeHtml. cbn [truthy toString].
  destruct s as [|a s]; [reflexivity|].
  cbn [String.eqb negb].
  rewrite (replaceG_absent "&" _ _ eq_refl H).
  rewrite (replaceG_absent "<" _ _ eq_refl H).
  rewrite (replaceG_absent ">" _ _ eq_refl H).
  rewrite (replaceG_absent dquote _ _ eq_refl H).
  now rewrite (replaceG_absent "'" _ _ eq_refl H).
Qed.

(** C2, as the code has it: absent and falsy input (the empty string among
    it) is escaped to the empty string, and a string of white space only is
    returned as it is, white space included. *)
Theorem escapeHtml_empty_or_whitespace (v : jsval) :
  (truthy v = false -> escapeHtml v = "")
  /\ (forall s, v = JStr s -> allWhitespace s = true -> escapeHtml v = s).
Proof.
  split.
  - apply escapeHtml_falsy.
  - intros s -> H. now apply escapeHtml_whitespace.
Qed.

Lemma escapeHtml_empty_or_whitespace_witness :
  escapeHtml JUndefined = "" /\ escapeHtml JNull = "" /\ escapeHtml (JStr "") = ""
  /\ escapeHtml (JStr "  ") = "  ".
Proof.
  split; [|split; [|split]].
  - apply (proj1 (escapeHtml_empty_or_whitespace JUndefined)); reflexivity.
  - apply (proj1 (escapeHtml_empty_or_whitespace JNull)); reflexivity.
  - apply (proj1 (escapeHtml_empty_or_whitespace (JStr ""))); reflexivity.
  - apply (proj2 (escapeHtml_empty_or_whitespace (JStr "  ")) "  "); reflexivity.
Defined.

(** C2 as stated fails: a single space is a string of white space only, and
    escaping returns it unchanged, not the empty string. *)
Lemma escapeHtml_whitespace_counterexample :
  allWhitespace " " = true /\ escapeHtml (JStr " ") <> "".
Proof. split; [reflexivity | discriminate]. Qed.

(** ** The text of the contact links *)

Lemma startsWith_false_decompose (p s b : string) :
  startsWith p s = false -> s <> p ++ b.
Proof. intros H ->. now rewrite startsWith_append in H. Qed.

(** [replace] with a string pattern and an empty replacement removes the
    first occurrence of the pattern. *)
Lemma replaceFirst_firstRemoved (pat s : string) :
  firstRemoved pat s (replaceFirst pat "" s).
Proof.
  induction s as [|c s IH].
  - cbn [replaceFirst]. destruct (startsWith pat "") eqn:E.
    + right. exists "", "". destruct pat; [|discriminate].
      split; [reflexivity|]. split; [intros; apply Nat.le_0_l | reflexivity].
    + left. split; [|reflexivity]. intros a b H.
      destruct a; [|discriminate]. cbn [append] in H.
      now apply (startsWith_false_decompose _ _ b E).
  - cbn [replaceFirst]. destruct (startsWith pat (String c s)) eqn:E.
    + right. exists "", (dropS (String.length pat) (String c s)).
      split; [exact (startsWith_decompose _ _ E)|].
      split; [intros; apply Nat.le_0_l | reflexivity].
    + destruct IH as [[Hno Hr]|[a [b [Hs [Hmin Hr]]]]].
      * left. rewrite Hr. split; [|reflexivity]. intros a b H.
        destruct a as [|x a].
        -- now apply (startsWith_false_decompose _ _ b E).
        -- cbn [append] in H. injection H as _ H. now apply (Hno a b).
      * right. exists (String c a), b. rewrite Hr.
        split; [cbn [append]; now rewrite <- Hs|].
        split; [|reflexivity].
        intros a' b' H. destruct a' as [|x a'].
        -- exfalso. now apply (startsWith_false_decompose _ _ b' E).
        -- cbn [append] in H. injection H as _ H.
           cbn [String.length]. apply le_n_S. now apply (Hmin a' b').
Qed.

Lemma linkedinDisplay_prefix (rest : string) :
  linkedinDisplay ("https://linkedin.com/in/" ++ rest) = rest.
Proof.
  unfold linkedinDisplay.
  change ("https://linkedin.com/in/" ++ rest)
    with ("https://" ++ "linkedin.com/in/" ++ rest).
  now rewrite !replaceFirst_prefix.
Qed.

Lemma includesS_github_host (rest : string) :
  includesS "http://" rest = false ->
  includesS "http://" ("github.com/" ++ rest) = false.
Proof. intros H. cbn. exact H. Qed.

Lemma githubDisplay_prefix (rest : string) :
  includesS "http://" rest = false ->
  githubDisplay ("https://github.com/" ++ rest) = rest.
Proof.
  intros H. unfold githubDisplay.
  change ("https://github.com/" ++ rest)
    with ("https://" ++ "github.com/" ++ rest).
  rewrite replaceFirst_prefix.
  rewrite (replaceFirst_absent "http://") by now apply includesS_github_host.
  apply replaceFirst_prefix.
Qed.

(** Cutting a literal of a template in two. *)
Lemma frame_cut_end (lit l m x z : string) :
  lit = l ++ m -> x = z -> lit ++ x = l ++ m ++ z.
Proof. intros -> ->. apply append_assoc. Qed.

Lemma frame_cut_start (lit m l x : string) :
  lit = m ++ l -> lit ++ x = m ++ l ++ x.
Proof. intros ->. apply append_assoc. Qed.

Lemma frame_skip (c x pre t : string) : x = pre ++ t -> c ++ x = (c ++ pre) ++ t.
Proof. intros ->. now rewrite append_assoc. Qed.

Lemma frame_at (e x z : string) : x = z -> e ++ x = "" ++ e ++ z.
Proof. now intros ->. Qed.

(** Cuts the literal at the head of a concatenation before its ending [m],
    and after its beginning [close]. *)
Ltac cut_end m :=
  match goal with
  | |- ?lit ++ ?x = _ =>
      let n := eval vm_compute in (String.length lit - String.length m)%nat in
      let l := eval vm_compute in (substring 0 n lit) in
      apply (frame_cut_end lit l m x); [vm_compute; reflexivity|]
  end.

Ltac cut_start close :=
  match goal with
  | |- ?lit ++ ?x = _ =>
      let n := eval vm_compute in (String.length lit - String.length close)%nat in
      let l := eval vm_compute in (substring (String.length close) n lit) in
      apply (frame_cut_start lit close l x); vm_compute; reflexivity
  end.

(** Walks along a concatenation, an operand at a time, up to the operand
    that stands right before [e]. *)
Ltac seek_to e :=
  repeat match goal with
         | |- (_ ++ _) ++ _ = _ => refine (eq_trans (append_assoc _ _ _) _)
         | |- _ ++ ((_ ++ _) ++ _) = _ =>
             refine (eq_trans (f_equal (append _) (append_assoc _ _ _)) _)
         | |- _ ++ (e ++ _) = _ => fail 1
         | |- _ ++ _ = _ => eapply frame_skip
         end.

(** Reads a template as [pre ++ m ++ e1 ++ between ++ e2 ++ close ++ post]:
    [m] ends the literal before the operand [e1], [close] begins the literal
    after the operand [e2]. *)
Ltac seek_link m e1 e2 close :=
  seek_to e1; cut_end m; apply f_equal;
  seek_to e2; eapply frame_skip; apply frame_at;
  repeat match goal with
         | |- (_ ++ _) ++ _ = _ => refine (eq_trans (append_assoc _ _ _) _)
         end;
  cut_start close.

Lemma contact_section_linkedin (d : Doc.t) :
  In "contact" (sectionOrder d) ->
  exists pre attributes post, forall linkedin, linkedin <> "" ->
    generateContactSection (withLinkedin d linkedin)
    = pre ++ html "<a href=~" ++ escapeHtml (JStr linkedin) ++ attributes
      ++ escapeHtml (JStr (linkedinDisplay linkedin))
      ++ "
                            </a>" ++ post.
Proof.
  intros Hd. apply includes_In in Hd.
  do 3 eexists. intros linkedin Hne. apply String.eqb_neq in Hne.
  unfold generateContactSection.
  change (sectionOrder (withLinkedin d linkedin)) with (sectionOrder d).
  rewrite Hd. cbn [negb].
  change (primaryColor (withLinkedin d linkedin)) with (primaryColor d).
  change (secondaryColor (withLinkedin d linkedin)) with (secondaryColor d).
  change (Doc.contactIntro (withLinkedin d linkedin)) with (Doc.contactIntro d).
  change (hasEmail (withLinkedin d linkedin)) with (hasEmail d).
  change (contactEmail (withLinkedin d linkedin)) with (contactEmail d).
  change (hasPhone (withLinkedin d linkedin)) with (hasPhone d).
  change (contactPhone (withLinkedin d linkedin)) with (contactPhone d).
  change (hasGithub (withLinkedin d linkedin)) with (hasGithub d).
  change (linksGithub (withLinkedin d linkedin)) with (linksGithub d).
  change (hasAreasOfInterest (withLinkedin d linkedin)) with (hasAreasOfInterest d).
  change (contactAreasOfInterest (withLinkedin d linkedin))
    with (contactAreasOfInterest d).
  change (contactLinkedin (withLinkedin d linkedin)) with (Some linkedin).
  change (hasLinkedin (withLinkedin d linkedin)) with (negb (linkedin =? "")).
  cbn [ofOpt orElse]. rewrite Hne. cbn [negb].
  seek_link (html "<a href=~") (escapeHtml (JStr linkedin))
    (escapeHtml (JStr (linkedinDisplay linkedin))) "
                            </a>".
Qed.

Lemma contact_section_github (d : Doc.t) :
  In "contact" (sectionOrder d) ->
  exists pre attributes post, forall github, github <> "" ->
    generateContactSection (withGithub d github)
    = pre ++ html "<a href=~" ++ escapeHtml (JStr github) ++ attributes
      ++ escapeHtml (JStr (githubDisplay github))
      ++ "
                            </a>" ++ post.
Proof.
  intros Hd. apply includes_In in Hd.
  do 3 eexists. intros github Hne. apply String.eqb_neq in Hne.
  unfold generateContactSection.
  change (sectionOrder (withGithub d github)) with (sectionOrder d).
  rewrite Hd. cbn [negb].
  change (primaryColor (withGithub d github)) with (primaryColor d).
  change (secondaryColor (withGithub d github)) with (secondaryColor d).
  change (Doc.contactIntro (withGithub d github)) with (Doc.contactIntro d).
  change (hasEmail (withGithub d github)) with (hasEmail d).
  change (contactEmail (withGithub d github)) with (contactEmail d).
  change (hasLinkedin (withGithub d github)) with (hasLinkedin d).
  change (contactLinkedin (withGithub d github)) with (contactLinkedin d).
  change (hasPhone (withGithub d github)) with (hasPhone d).
  change (contactPhone (withGithub d github)) with (contactPhone d).
  change (hasAreasOfInterest (withGithub d github)) with (hasAreasOfInterest d).
  change (contactAreasOfInterest (withGithub d github))
    with (contactAreasOfInterest d).
  change (linksGithub (withGithub d github)) with (Some github).
  change (hasGithub (withGithub d github)) with (negb (github =? "")).
  cbn [ofOpt orElse]. rewrite Hne. cbn [negb].
  seek_link (html "<a href=~") (escapeHtml (JStr github))
    (escapeHtml (JStr (githubDisplay github))) "
                            </a>".
Qed.

(** C10, as the code has it: each [replace] removes the first occurrence of
    its pattern, wherever it stands. For every LinkedIn value the text is the
    value with the first [https://] removed and then the first
    [linkedin.com/in/]; for every GitHub value, with the first [https://],
    then the first [http://], then the first [github.com/] removed. For a
    LinkedIn value that begins with [https://linkedin.com/in/] this is what
    follows that prefix, and so it is for a GitHub value that begins with
    [https://github.com/] and has no [http://] further on. In the contact
    section a value that is present stands escaped in the [href] of its link,
    and its text, escaped, is what the link element closes on: the markup
    around the two does not depend on the value. *)
Theorem link_text_first_occurrence :
  (forall linkedin, exists s,
      firstRemoved "https://" linkedin s
      /\ firstRemoved "linkedin.com/in/" s (linkedinDisplay linkedin))
  /\ (forall github, exists s t,
        firstRemoved "https://" github s
        /\ firstRemoved "http://" s t
        /\ firstRemoved "github.com/" t (githubDisplay github))
  /\ (forall rest, linkedinDisplay ("https://linkedin.com/in/" ++ rest) = rest)
  /\ (forall rest, includesS "http://" rest = false ->
        githubDisplay ("https://github.com/" ++ rest) = rest)
  /\ (forall d, In "contact" (sectionOrder d) ->
        (exists pre attributes post, forall linkedin, linkedin <> "" ->
            generateContactSection (withLinkedin d linkedin)
            = pre ++ html "<a href=~" ++ escapeHtml (JStr linkedin) ++ attributes
              ++ escapeHtml (JStr (linkedinDisplay linkedin))
              ++ "
                            </a>" ++ post)
        /\ (exists pre attributes post, forall github, github <> "" ->
              generateContactSection (withGithub d github)
              = pre ++ html "<a href=~" ++ escapeHtml (JStr github) ++ attributes
                ++ escapeHtml (JStr (githubDisplay github))
                ++ "
                            </a>" ++ post)).
Proof.
  split; [|split; [|split; [|split]]].
  - intros linkedin. eexists. split; apply replaceFirst_firstRemoved.
  - intros github. do 2 eexists.
    split; [|split]; apply replaceFirst_firstRemoved.
  - apply linkedinDisplay_prefix.
  - apply githubDisplay_prefix.
  - intros d Hd. split.
    + exact (contact_section_linkedin d Hd).
    + exact (contact_section_github d Hd).
Qed.

Lemma link_text_first_occurrence_witness :
  linkedinDisplay "https://linkedin.com/in/someone" = "someone"
  /\ githubDisplay "https://github.com/someone" = "someone"
  /\ exists pre attributes post,
       generateContactSection
         (withLinkedin emptyDoc "https://www.linkedin.com/in/bob")
       = pre ++ html "<a href=~"
         ++ escapeHtml (JStr "https://www.linkedin.com/in/bob") ++ attributes
         ++ escapeHtml (JStr (linkedinDisplay "https://www.linkedin.com/in/bob"))
         ++ "
                            </a>" ++ post.
Proof.
  split; [|split].
  - exact (proj1 (proj2 (proj2 link_text_first_occurrence)) "someone").
  - apply (proj1 (proj2 (proj2 (proj2 link_text_first_occurrence))) "someone").
    reflexivity.
  - destruct (proj1 (proj2 (proj2 (proj2 (proj2 link_text_first_occurrence)))
                       emptyDoc (or_intror (or_intror (or_intror (or_intror
                         (or_intror (or_introl eq_refl))))))))
      as [pre [attributes [post H]]].
    exists pre, attributes, post. apply H. discriminate.
Defined.

(** C10 as stated fails: for the usual address form with [www.], removing
    leading prefixes leaves [www.linkedin.com/in/bob], while the code shows
    [www.bob]. *)
Lemma link_text_prefix_counterexample :
  linkedinDisplay "https://www.linkedin.com/in/bob" = "www.bob"
  /\ specLinkedinText "https://www.linkedin.com/in/bob" = "www.linkedin.com/in/bob"
  /\ linkedinDisplay "https://www.linkedin.com/in/bob"
     <> specLinkedinText "https://www.linkedin.com/in/bob".
Proof. split; [reflexivity|]. split; [reflexivity | discriminate]. Qed.
(** ** The heading of the timeline *)

Lemma existsb_distinctGo (p : option string) (seen xs : list (option string)) :
  existsb (optEqb p) (distinctGo seen xs) || existsb (optEqb p) seen
  = existsb (optEqb p) xs || existsb (optEqb p) seen.
Proof.
  revert seen. induction xs as [|x xs IH]; intros seen; [reflexivity|].
  cbn [distinctGo existsb].
  destruct (existsb (optEqb x) seen) eqn:Hx.
  - rewrite IH. destruct (optEqb p x) eqn:Hpx; [|reflexivity].
    assert (existsb (optEqb p) seen = true) as ->.
    { apply existsb_exists in Hx as [y [Hy Hxy]].
      apply existsb_exists. exists y. split; [exact Hy|].
      destruct p as [p|], x as [x|], y as [y|]; cbn in *; try discriminate; auto.
      apply String.eqb_eq in Hpx, Hxy. subst. apply String.eqb_refl. }
    now rewrite !orb_true_r.
  - cbn [existsb]. specialize (IH (x :: seen)). cbn [existsb] in IH.
    destruct (optEqb p x); cbn [orb].
    + reflexivity.
    + rewrite !orb_false_l in IH. exact IH.
Qed.

Lemma existsb_distinct (p : option string) (xs : list (option string)) :
  existsb (optEqb p) (distinct xs) = existsb (optEqb p) xs.
Proof.
  pose proof (existsb_distinctGo p [] xs) as H. cbn [existsb] in H.
  now rewrite !orb_false_r in H.
Qed.

Lemma existsb_type (type : string) (timeline : list TimelineEntry.t) :
  existsb (optEqb (Some type)) (map TimelineEntry.type timeline)
  = existsb (fun item => optIs (TimelineEntry.type item) type) timeline.
Proof.
  induction timeline as [|item tl IH]; [reflexivity|].
  cbn [map existsb]. rewrite IH. f_equal.
  unfold optIs. destruct (TimelineEntry.type item) as [x|]; cbn; [|reflexivity].
  apply String.eqb_sym.
Qed.

Lemma distinct_nonempty (xs : list (option string)) :
  xs <> [] -> (length (distinct xs) =? 0)%nat = false.
Proof. destruct xs as [|x xs]; [congruence | reflexivity]. Qed.

(** The part of C1 that holds: whenever a type of the preferred order occurs,
    the heading is the one the specification defines. *)
Lemma generateTimelineTitle_reference (timeline : list TimelineEntry.t) :
  typesPresent timeline <> [] ->
  generateTimelineTitle timeline = referenceTimelineTitle timeline.
Proof.
  intros Hpresent.
  assert (timeline <> []) as Hne by (intros ->; now apply Hpresent).
  unfold generateTimelineTitle, referenceTimelineTitle.
  rewrite distinct_nonempty by (destruct timeline; [congruence | discriminate]).
  revert Hpresent. unfold typesPresent, preferredOrder.
  cbn [filter]. rewrite !existsb_distinct, !existsb_type.
  destruct (existsb _ timeline); destruct (existsb _ timeline);
    destruct (existsb _ timeline); intros Hpresent;
    try reflexivity; now contradiction Hpresent.
Qed.

(** Where C1 fails: a timeline that is not empty and holds no type of the
    preferred order gets neither the fallback title nor a title at all. *)
Lemma generateTimelineTitle_unrecognized (timeline : list TimelineEntry.t) :
  timeline <> [] -> typesPresent timeline = [] ->
  generateTimelineTitle timeline = ", & undefined".
Proof.
  intros Hne. unfold generateTimelineTitle.
  rewrite distinct_nonempty by (destruct timeline; [congruence | discriminate]).
  unfold typesPresent, preferredOrder.
  cbn [filter]. rewrite !existsb_distinct, !existsb_type.
  destruct (existsb _ timeline); destruct (existsb _ timeline);
    destruct (existsb _ timeline); intros Hnone;
    try discriminate; reflexivity.
Qed.

(** C1 fails on the code: for a timeline whose only entry has the type
    [volunteer], the title is [", & undefined"], not the fallback title, and
    that text, escaped, is the heading of the rendered section. *)
Theorem timeline_heading_unrecognized_type :
  generateTimelineTitle [entryOfType "volunteer"] = ", & undefined"
  /\ generateTimelineTitle [entryOfType "volunteer"] <> fallbackTitle
  /\ includesS
       (html "<h3 class=~text-2xl font-bold mb-8 text-center~ style=~color: #0B3D91;~>, &amp; undefined</h3>")
       (generateTimelineSection volunteerDoc) = true.
Proof.
  split; [reflexivity|]. split; [discriminate|]. vm_compute. reflexivity.
Qed.

(** The heading of the rendered timeline section is the escaped title. *)
Lemma timeline_section_heading (d : Doc.t) (timeline : list TimelineEntry.t) :
  In "timeline" (sectionOrder d) ->
  Doc.timeline d = Some timeline -> timeline <> [] ->
  exists pre post,
    generateTimelineSection d
    = pre ++ escapeHtml (JStr (generateTimelineTitle timeline)) ++ post.
Proof.
  intros Hd E Hne. apply includes_In in Hd.
  unfold generateTimelineSection. rewrite Hd, E. cbn [negb orb listOf].
  destruct timeline as [|item rest]; [congruence|].
  cbn [nonEmpty negb]. cbv zeta.
  do 2 eexists. frame.
Qed.

(** ** Fragments in the order of [sectionOrder] *)

Lemma join_cons (sep x : string) (xs : list string) :
  join sep (x :: xs) = x ++ join "" (map (fun y => sep ++ y) xs).
Proof.
  revert x. induction xs as [|y ys IH]; intros x.
  - cbn. now rewrite append_empty_r.
  - change (join sep (x :: y :: ys)) with (x ++ sep ++ join sep (y :: ys)).
    rewrite IH. cbn [map].
    destruct ys as [|z zs].
    + cbn. now rewrite !append_empty_r.
    + change (join "" ((sep ++ y) :: map (fun y0 => sep ++ y0) (z :: zs)))
        with ((sep ++ y) ++ "" ++ join "" (map (fun y0 => sep ++ y0) (z :: zs))).
      cbn [append]. now rewrite append_assoc.
Qed.

Lemma join_empty_cons (x : string) (xs : list string) :
  join "" (x :: xs) = x ++ join "" xs.
Proof.
  destruct xs as [|y ys]; cbn; [now rewrite append_empty_r | reflexivity].
Qed.

Lemma join_split (sep : string) (before : list string) (x : string)
  (after : list string) :
  join sep (before ++ x :: after)%list
  = join "" (map (fun y => y ++ sep) before) ++ x
    ++ join "" (map (fun y => sep ++ y) after).
Proof.
  induction before as [|b before IH].
  - cbn [app map join append]. apply join_cons.
  - cbn [app map]. rewrite join_empty_cons, append_assoc, append_assoc, <- IH.
    destruct (before ++ x :: after)%list eqn:E.
    + now destruct before.
    + reflexivity.
Qed.

Lemma sectionFragment_unrecognized (d : Doc.t) (id : string) :
  ~ In id recognizedSections -> sectionFragment d id = Ok "".
Proof.
  intros H. unfold sectionFragment.
  repeat match goal with
  | |- context [String.eqb id ?s] =>
      destruct (String.eqb_spec id s) as [->|_];
      [exfalso; apply H; cbn; tauto|]
  end.
  reflexivity.
Qed.

(** A map that may throw returns exactly when every call returns, with the
    results in the order of the calls. *)
Lemma mapM_Forall2 {A B : Type} (f : A -> result B) (xs : list A) (ys : list B) :
  mapM f xs = Ok ys <-> Forall2 (fun x y => f x = Ok y) xs ys.
Proof.
  revert ys. induction xs as [|x xs IH]; intros ys; cbn [mapM].
  - split.
    + intros H. injection H as <-. constructor.
    + intros H. inversion H. reflexivity.
  - split.
    + destruct (f x) as [y|m] eqn:Ex; [|discriminate]. cbn [bind].
      destruct (mapM f xs) as [zs|m] eqn:Exs; [|discriminate]. cbn [bind].
      intros H. injection H as <-. constructor; [exact Ex | now apply IH].
    + intros H. inversion H as [|? y ? zs Ex Hrest]; subst.
      apply IH in Hrest. rewrite Ex, Hrest. reflexivity.
Qed.

Lemma pageMarkup_frame (d : Doc.t) :
  exists pre post, forall sections, pageMarkup d sections = pre ++ sections ++ post.
Proof. do 2 eexists. intros sections. unfold pageMarkup. frame. Qed.

Lemma Ok_inj {A : Type} (a b : A) : Ok a = Ok b -> a = b.
Proof. intros H. now injection H. Qed.

Lemma generateAboutSection_marker (d : Doc.t) (fragment : string) :
  generateAboutSection d = Ok fragment ->
  fragment = "" \/ startsWith (html "
    <section id=~about~") fragment = true.
Proof.
  unfold generateAboutSection.
  destruct (includes "about" (sectionOrder d)); cbn [negb].
  - cbv zeta. destruct (skillsContent d) as [skills|m]; [|discriminate].
    cbn [bind]. intros H. apply Ok_inj in H. subst fragment. right.
    apply startsWith_app_l. vm_compute. reflexivity.
  - intros H. apply Ok_inj in H. now left.
Qed.

(** The main page is written exactly when the about section, if the section
    order asks for it, is. *)
Lemma generateCompleteHTML_returns (d : Doc.t) :
  (exists page, generateCompleteHTML d = Ok page)
  <-> (In "about" (sectionOrder d) ->
       exists fragment, generateAboutSection d = Ok fragment).
Proof.
  unfold generateCompleteHTML.
  assert ((exists fragments, mapM (sectionFragment d) (sectionOrder d) = Ok fragments)
          <-> (In "about" (sectionOrder d) ->
               exists fragment, generateAboutSection d = Ok fragment)) as H.
  { induction (sectionOrder d) as [|id order IH]; cbn [mapM].
    - split; [intros _ [] | intros _; now exists []].
    - split.
      + intros [fragments H] Hin.
        destruct (sectionFragment d id) as [f|m] eqn:Ef; [|discriminate].
        cbn [bind] in H.
        destruct (mapM (sectionFragment d) order) as [fs|m] eqn:Efs; [|discriminate].
        destruct Hin as [->|Hin].
        * exists f. exact Ef.
        * apply (proj1 IH); [now exists fs | exact Hin].
      + intros H.
        assert (exists f, sectionFragment d id = Ok f) as [f Ef].
        { destruct (String.eqb_spec id "about") as [->|Hne].
          - apply H. now left.
          - unfold sectionFragment. apply String.eqb_neq in Hne. rewrite Hne.
            repeat match goal with
                   | |- context [if ?b then _ else _] => destruct b
                   end; eauto. }
        destruct (proj2 IH) as [fs Efs]; [intros Hin; apply H; now right|].
        rewrite Ef, Efs. cbn [bind]. eauto. }
  split.
  - intros [page Hpage]. apply H.
    destruct (mapM (sectionFragment d) (sectionOrder d)) as [fs|m];
      [eauto | discriminate].
  - intros Habout. apply H in Habout as [fs Efs]. rewrite Efs. cbn [bind]. eauto.
Qed.

(** C4: the dispatch sends every recognised identifier to its own renderer,
    [skills] and every identifier outside the recognised set to the empty
    fragment, without an error; a fragment that is not empty opens the
    section of its identifier. Whatever the section order, the main page is
    its fixed markup around the fragments of the identifiers, taken in the
    order of the section order, one for each entry (an identifier that occurs
    twice contributes twice), joined by line feeds: the fragment of an entry
    stands after those of the entries before it, each followed by a line
    feed, and before those of the entries after it, each preceded by one.
    The page is written exactly when every fragment is, that is, when the
    about section, if asked for, is. *)
Theorem sections_follow_order (d : Doc.t) :
  (sectionFragment d "hero" = Ok (generateHeroSection d)
   /\ sectionFragment d "about" = generateAboutSection d
   /\ sectionFragment d "skills" = Ok ""
   /\ sectionFragment d "projects" = Ok (generateProjectsSection d)
   /\ sectionFragment d "timeline" = Ok (generateTimelineSection d)
   /\ sectionFragment d "contact" = Ok (generateContactSection d)
   /\ forall id, ~ In id recognizedSections -> sectionFragment d id = Ok "")
  /\ (startsWith (html "
    <section id=~hero~") (generateHeroSection d) = true
      /\ (forall fragment, generateAboutSection d = Ok fragment ->
            fragment = "" \/ startsWith (html "
    <section id=~about~") fragment = true)
      /\ (generateProjectsSection d = "" \/ startsWith (html "
    <section id=~projects~") (generateProjectsSection d) = true)
      /\ (generateTimelineSection d = "" \/ startsWith (html "
    <section id=~timeline~") (generateTimelineSection d) = true)
      /\ (generateContactSection d = "" \/ startsWith (html "
    <section id=~contact~") (generateContactSection d) = true))
  /\ (forall fragments,
        Forall2 (fun id fragment => sectionFragment d id = Ok fragment)
          (sectionOrder d) fragments ->
        generateCompleteHTML d = Ok (pageMarkup d (join LF fragments)))
  /\ (exists pre post,
        (forall sections, pageMarkup d sections = pre ++ sections ++ post)
        /\ forall before id after fragmentsBefore fragment fragmentsAfter,
             sectionOrder d = (before ++ id :: after)%list ->
             Forall2 (fun i f => sectionFragment d i = Ok f) before fragmentsBefore ->
             sectionFragment d id = Ok fragment ->
             Forall2 (fun i f => sectionFragment d i = Ok f) after fragmentsAfter ->
             generateCompleteHTML d
             = Ok (pre
                   ++ (join "" (map (fun f => f ++ LF) fragmentsBefore)
                       ++ fragment
                       ++ join "" (map (fun f => LF ++ f) fragmentsAfter))
                   ++ post))
  /\ ((exists page, generateCompleteHTML d = Ok page)
      <-> (In "about" (sectionOrder d) ->
           exists fragment, generateAboutSection d = Ok fragment)).
Proof.
  split; [|split; [|split; [|split]]].
  - repeat (split; [reflexivity|]). apply sectionFragment_unrecognized.
  - split; [|split; [|split; [|split]]].
    + unfold generateHeroSection. apply startsWith_app_l. vm_compute. reflexivity.
    + apply generateAboutSection_marker.
    + unfold generateProjectsSection.
      destruct (negb (includes "projects" (sectionOrder d))
                || negb (nonEmpty (Doc.projects d))); [now left | right].
      cbv zeta. apply startsWith_app_l. vm_compute. reflexivity.
    + unfold generateTimelineSection.
      destruct (negb (includes "timeline" (sectionOrder d))
                || negb (nonEmpty (Doc.timeline d))); [now left | right].
      cbv zeta. apply startsWith_app_l. vm_compute. reflexivity.
    + unfold generateContactSection.
      destruct (negb (includes "contact" (sectionOrder d))); [now left | right].
      apply startsWith_app_l. vm_compute. reflexivity.
  - intros fragments H. apply mapM_Forall2 in H.
    unfold generateCompleteHTML. rewrite H. reflexivity.
  - destruct (pageMarkup_frame d) as [pre [post Hframe]].
    exists pre, post. split; [exact Hframe|].
    intros before id after fb f fa E Hb Hf Ha.
    assert (mapM (sectionFragment d) (sectionOrder d) = Ok (fb ++ f :: fa)%list)
      as Hall.
    { rewrite E. apply mapM_Forall2. apply Forall2_app; [exact Hb|].
      constructor; [exact Hf | exact Ha]. }
    unfold generateCompleteHTML. rewrite Hall. cbn [bind]. cbv zeta.
    now rewrite Hframe, join_split.
  - apply generateCompleteHTML_returns.
Qed.

Lemma sections_follow_order_witness :
  generateCompleteHTML (withSectionOrder emptyDoc ["contact"; "blog"; "hero"; "contact"])
  = Ok (pageMarkup (withSectionOrder emptyDoc ["contact"; "blog"; "hero"; "contact"])
          (join LF
             [generateContactSection (withSectionOrder emptyDoc ["contact"; "blog"; "hero"; "contact"]);
              "";
              generateHeroSection (withSectionOrder emptyDoc ["contact"; "blog"; "hero"; "contact"]);
              generateContactSection (withSectionOrder emptyDoc ["contact"; "blog"; "hero"; "contact"])]))
  /\ sectionFragment emptyDoc "blog" = Ok "".
Proof.
  split.
  - apply (proj1 (proj2 (proj2 (sections_follow_order
             (withSectionOrder emptyDoc ["contact"; "blog"; "hero"; "contact"]))))).
    repeat constructor.
  - apply (proj2 (proj2 (proj2 (proj2 (proj2 (proj2 (proj1
             (sections_follow_order emptyDoc)))))))).
    cbn. intros H. repeat (destruct H as [H|H]; [discriminate|]). exact H.
Defined.
(** ** Skills inside the about section *)

Lemma sectionFragment_withSkills (d : Doc.t) (id : string)
  (sk : option Skills.t) (mode : option string) :
  id <> "about" ->
  sectionFragment (withSkills d sk mode) id = sectionFragment d id.
Proof.
  intros H. unfold sectionFragment.
  destruct (String.eqb_spec id "about") as [->|_]; [congruence|].
  reflexivity.
Qed.

Lemma sectionFragment_returns (d : Doc.t) (id : string) :
  id <> "about" -> exists fragment, sectionFragment d id = Ok fragment.
Proof.
  intros H. unfold sectionFragment. apply String.eqb_neq in H. rewrite H.
  repeat match goal with
         | |- context [if ?b then _ else _] => destruct b
         end; eauto.
Qed.

(** The about section is a frame, which does not depend on the skills data,
    around the skills content; a throw of the skills content is a throw of
    the section. *)
Lemma about_frames_skills (d : Doc.t) :
  In "about" (sectionOrder d) ->
  exists pre post, forall sk mode,
    (forall content, skillsContent (withSkills d sk mode) = Ok content ->
       generateAboutSection (withSkills d sk mode) = Ok (pre ++ content ++ post))
    /\ (forall message, skillsContent (withSkills d sk mode) = TypeError message ->
          generateAboutSection (withSkills d sk mode) = TypeError message).
Proof.
  intros H. apply includes_In in H.
  do 2 eexists. intros sk mode.
  unfold generateAboutSection.
  change (sectionOrder (withSkills d sk mode)) with (sectionOrder d).
  rewrite H. cbn [negb].
  change (primaryColor (withSkills d sk mode)) with (primaryColor d).
  change (Doc.aboutText (withSkills d sk mode)) with (Doc.aboutText d).
  cbv zeta.
  split.
  - intros content ->. cbn [bind]. f_equal. frame.
  - intros message ->. reflexivity.
Qed.

(** The fragments of a section order joined by line feeds, read as a frame
    around what the [about] fragments hold between [pre] and [post]: [other]
    gives the fragments of the other identifiers. *)
Lemma join_about_frames (other : string -> string) (pre post : string)
  (order : list string) :
  exists frames,
    length frames = S (count_occ string_dec order "about")
    /\ forall content,
         join LF (map (fun id => if id =? "about" then pre ++ content ++ post
                                 else other id) order)
         = join content frames.
Proof.
  induction order as [|id order IH].
  - exists [""]. split; reflexivity.
  - destruct IH as [frames [Hlen Hjoin]].
    destruct frames as [|f0 fr]; [discriminate|].
    set (sep := match order with [] => "" | _ :: _ => LF end).
    assert (forall content x,
              join LF (x :: map (fun id => if id =? "about"
                                           then pre ++ content ++ post
                                           else other id) order)
              = x ++ sep ++ join content (f0 :: fr)) as Hcons.
    { intros content x. rewrite <- Hjoin. subst sep.
      destruct order as [|y ys]; cbn [map join];
        [now rewrite append_empty_r | reflexivity]. }
    cbn [count_occ map].
    destruct (string_dec id "about") as [->|Hne].
    + exists (pre :: (post ++ sep ++ f0) :: fr). split.
      * cbn [length] in *. now rewrite Hlen.
      * intros content. cbn [String.eqb Ascii.eqb Bool.eqb].
        rewrite Hcons.
        change (join content (pre :: (post ++ sep ++ f0) :: fr))
          with (pre ++ content ++ join content ((post ++ sep ++ f0) :: fr)).
        rewrite !append_assoc. f_equal. f_equal.
        destruct fr as [|f1 fr]; cbn [join]; now rewrite ?append_assoc.
    + exists ((other id ++ sep ++ f0) :: fr). split.
      * cbn [length] in *. exact Hlen.
      * intros content. apply String.eqb_neq in Hne. rewrite Hne.
        rewrite Hcons.
        destruct fr as [|f1 fr]; cbn [join]; now rewrite ?append_assoc.
Qed.

Lemma join_frames_before (pre f0 : string) (fr : list string) (content : string) :
  join content ((pre ++ f0) :: fr) = pre ++ join content (f0 :: fr).
Proof. destruct fr as [|f1 fr]; cbn [join]; now rewrite ?append_assoc. Qed.

Lemma join_frames_after (post : string) (frames : list string) :
  frames <> [] ->
  exists frames',
    length frames' = length frames
    /\ forall content, join content frames' = join content frames ++ post.
Proof.
  induction frames as [|f0 fr IH]; [congruence|]. intros _.
  destruct fr as [|f1 fr].
  - exists [f0 ++ post]. split; reflexivity.
  - destruct IH as [frames' [Hlen Hjoin]]; [discriminate|].
    destruct frames' as [|g0 gr]; [discriminate|].
    exists (f0 :: g0 :: gr). split.
    + cbn [length] in *. now rewrite Hlen.
    + intros content.
      change (join content (f0 :: g0 :: gr))
        with (f0 ++ content ++ join content (g0 :: gr)).
      rewrite Hjoin.
      change (join content (f0 :: f1 :: fr))
        with (f0 ++ content ++ join content (f1 :: fr)).
      now rewrite !append_assoc.
Qed.

(** The fragment of a section other than [about]. *)
Lemma mapM_fragments (d : Doc.t) (order : list string) :
  exists other : string -> string,
    (forall id, id <> "about" -> sectionFragment d id = Ok (other id))
    /\ (~ In "about" order ->
        mapM (sectionFragment d) order = Ok (map other order)).
Proof.
  exists (fun id => match sectionFragment d id with Ok f => f | TypeError _ => "" end).
  assert (forall id, id <> "about" ->
            sectionFragment d id
            = Ok match sectionFragment d id with Ok f => f | TypeError _ => "" end)
    as Hother.
  { intros id Hid. destruct (sectionFragment_returns d id Hid) as [f ->].
    reflexivity. }
  split; [exact Hother|].
  induction order as [|id order IH]; intros Hno; [reflexivity|].
  cbn [mapM map]. rewrite (Hother id) by (intros ->; apply Hno; now left).
  cbn [bind]. rewrite IH by (intros H; apply Hno; now right). reflexivity.
Qed.

(** The fragments of a section order, given what the about section is. *)
Lemma mapM_fragments_about (d : Doc.t) (other : string -> string)
  (order : list string) :
  (forall id, id <> "about" -> sectionFragment d id = Ok (other id)) ->
  (forall about, generateAboutSection d = Ok about ->
     mapM (sectionFragment d) order
     = Ok (map (fun id => if id =? "about" then about else other id) order))
  /\ (forall message, generateAboutSection d = TypeError message ->
        In "about" order ->
        mapM (sectionFragment d) order = TypeError message).
Proof.
  intros Hother. split.
  - intros about Habout. induction order as [|id order IH]; [reflexivity|].
    cbn [mapM map]. rewrite IH.
    destruct (String.eqb_spec id "about") as [->|Hne].
    + change (sectionFragment d "about") with (generateAboutSection d).
      rewrite Habout. reflexivity.
    + rewrite (Hother id Hne). reflexivity.
  - intros message Habout. induction order as [|id order IH]; [intros []|].
    intros Hin. cbn [mapM].
    destruct (String.eqb_spec id "about") as [->|Hne].
    + change (sectionFragment d "about") with (generateAboutSection d).
      rewrite Habout. reflexivity.
    + rewrite (Hother id Hne). cbn [bind].
      destruct Hin as [->|Hin]; [congruence|]. rewrite (IH Hin). reflexivity.
Qed.

(** The main page is a frame, which does not depend on the skills data, with
    one hole for each [about] of the section order, and the skills content
    in each hole. *)
Lemma page_frames_skills (d : Doc.t) :
  exists frames,
    length frames = S (count_occ string_dec (sectionOrder d) "about")
    /\ forall sk mode,
         (forall content, skillsContent (withSkills d sk mode) = Ok content ->
            generateCompleteHTML (withSkills d sk mode) = Ok (join content frames))
         /\ (forall message,
               skillsContent (withSkills d sk mode) = TypeError message ->
               In "about" (sectionOrder d) ->
               generateCompleteHTML (withSkills d sk mode) = TypeError message)
         /\ (~ In "about" (sectionOrder d) ->
             generateCompleteHTML (withSkills d sk mode) = generateCompleteHTML d).
Proof.
  destruct (mapM_fragments d (sectionOrder d)) as [other [Hother Hnone]].
  destruct (pageMarkup_frame d) as [pagePre [pagePost Hpage]].
  assert (forall sk mode id, id <> "about" ->
            sectionFragment (withSkills d sk mode) id = Ok (other id)) as Hother'.
  { intros sk mode id Hid. rewrite sectionFragment_withSkills by exact Hid.
    now apply Hother. }
  assert (forall sk mode sections,
            pageMarkup (withSkills d sk mode) sections
            = pagePre ++ sections ++ pagePost) as Hpage'.
  { intros sk mode sections. rewrite <- Hpage. reflexivity. }
  destruct (in_dec string_dec "about" (sectionOrder d)) as [Hin|Hno].
  - destruct (about_frames_skills d Hin) as [pre [post Habout]].
    destruct (join_about_frames other pre post (sectionOrder d))
      as [frames [Hlen Hjoin]].
    destruct frames as [|f0 fr]; [discriminate|].
    destruct (join_frames_after pagePost (f0 :: fr)) as [frames' [Hlen' Hjoin']];
      [discriminate|].
    destruct frames' as [|g0 gr]; [discriminate|].
    exists ((pagePre ++ g0) :: gr). split.
    { cbn [length] in *. congruence. }
    intros sk mode. split; [|split].
    + intros content Hc.
      destruct (mapM_fragments_about (withSkills d sk mode) other (sectionOrder d)
                  (Hother' sk mode)) as [Hok _].
      unfold generateCompleteHTML.
      change (sectionOrder (withSkills d sk mode)) with (sectionOrder d).
      rewrite (Hok _ (proj1 (Habout sk mode) content Hc)). cbn [bind]. cbv zeta.
      rewrite Hpage', Hjoin, join_frames_before, Hjoin'. reflexivity.
    + intros message Hc _.
      destruct (mapM_fragments_about (withSkills d sk mode) other (sectionOrder d)
                  (Hother' sk mode)) as [_ Hthrow].
      unfold generateCompleteHTML.
      change (sectionOrder (withSkills d sk mode)) with (sectionOrder d).
      rewrite (Hthrow _ (proj2 (Habout sk mode) message Hc) Hin). reflexivity.
    + intros H. contradiction.
  - exists [pagePre ++ join LF (map other (sectionOrder d)) ++ pagePost].
    split.
    { cbn [length]. f_equal. symmetry. now apply count_occ_not_In. }
    assert (forall sk mode,
              generateCompleteHTML (withSkills d sk mode)
              = Ok (pagePre ++ join LF (map other (sectionOrder d)) ++ pagePost))
      as Hall.
    { intros sk mode.
      destruct (mapM_fragments (withSkills d sk mode) (sectionOrder d))
        as [other' [Hother'' Hnone']].
      unfold generateCompleteHTML.
      change (sectionOrder (withSkills d sk mode)) with (sectionOrder d).
      rewrite (Hnone' Hno). cbn [bind]. cbv zeta. rewrite Hpage'.
      f_equal. f_equal. f_equal. f_equal. apply map_ext_in. intros id Hid.
      assert (id <> "about") as Hne by (intros ->; contradiction).
      pose proof (Hother'' id Hne) as H1. rewrite (Hother' sk mode id Hne) in H1.
      now injection H1. }
    intros sk mode. split; [|split].
    + intros content _. apply Hall.
    + intros message _ Hin. contradiction.
    + intros _. rewrite Hall. unfold generateCompleteHTML.
      rewrite (Hnone Hno). cbn [bind]. cbv zeta. now rewrite Hpage.
Qed.

(** C5, as the code has it: the identifier [skills] yields the empty fragment
    at every place, and no fragment but that of [about] depends on the skills
    data. The fragment of [about] is a frame, which does not depend on the
    skills data, around the skills content. The main page is a frame, which
    does not depend on the skills data either, with one hole for each [about]
    of the section order and the skills content in each hole: once when
    [about] occurs once, and nowhere when [about] is not in the section
    order, where the page is the same whatever the skills data. *)
Theorem skills_rendered_inside_about (d : Doc.t) :
  sectionFragment d "skills" = Ok ""
  /\ (forall id sk mode, id <> "about" ->
        sectionFragment (withSkills d sk mode) id = sectionFragment d id)
  /\ (In "about" (sectionOrder d) ->
      exists pre post, forall sk mode,
        (forall content, skillsContent (withSkills d sk mode) = Ok content ->
           sectionFragment (withSkills d sk mode) "about"
           = Ok (pre ++ content ++ post))
        /\ (forall message,
              skillsContent (withSkills d sk mode) = TypeError message ->
              sectionFragment (withSkills d sk mode) "about" = TypeError message))
  /\ (exists frames,
        length frames = S (count_occ string_dec (sectionOrder d) "about")
        /\ forall sk mode,
             (forall content, skillsContent (withSkills d sk mode) = Ok content ->
                generateCompleteHTML (withSkills d sk mode)
                = Ok (join content frames))
             /\ (forall message,
                   skillsContent (withSkills d sk mode) = TypeError message ->
                   In "about" (sectionOrder d) ->
                   generateCompleteHTML (withSkills d sk mode) = TypeError message)
             /\ (~ In "about" (sectionOrder d) ->
                 generateCompleteHTML (withSkills d sk mode)
                 = generateCompleteHTML d)).
Proof.
  split; [reflexivity|].
  split; [intros id sk mode; apply sectionFragment_withSkills|].
  split; [apply about_frames_skills | apply page_frames_skills].
Qed.

Lemma skills_rendered_inside_about_witness :
  sectionFragment (withSkills skillsWithoutAboutDoc None None) "hero"
  = sectionFragment skillsWithoutAboutDoc "hero"
  /\ (exists pre post,
        sectionFragment (withSkills emptyDoc (Some someSkills) (Some "rotating")) "about"
        = Ok (pre ++ generateSkillsCarousel
                       (withSkills emptyDoc (Some someSkills) (Some "rotating"))
              ++ post))
  /\ exists pre post,
       generateCompleteHTML (withSkills emptyDoc (Some someSkills) (Some "rotating"))
       = Ok (pre ++ generateSkillsCarousel
                      (withSkills emptyDoc (Some someSkills) (Some "rotating"))
             ++ post).
Proof.
  split; [|split].
  - apply (proj1 (proj2 (skills_rendered_inside_about skillsWithoutAboutDoc))).
    discriminate.
  - destruct (proj1 (proj2 (proj2 (skills_rendered_inside_about emptyDoc))))
      as [pre [post H]]; [cbn; tauto|].
    exists pre, post.
    apply (proj1 (H (Some someSkills) (Some "rotating"))). reflexivity.
  - destruct (proj2 (proj2 (proj2 (skills_rendered_inside_about emptyDoc))))
      as [frames [Hlen H]].
    destruct frames as [|pre [|post [|f frames]]]; try discriminate Hlen.
    exists pre, post.
    apply (proj1 (H (Some someSkills) (Some "rotating"))). reflexivity.
Defined.

(** C5 as stated fails: with skills data present and [skills] in the section
    order but [about] not in it, the skills content, which is not empty, does
    not occur on the main page, so it does not appear exactly once. *)
Lemma skills_once_counterexample :
  In "skills" (sectionOrder skillsWithoutAboutDoc)
  /\ hasSkills skillsWithoutAboutDoc = true
  /\ match skillsContent skillsWithoutAboutDoc,
           generateCompleteHTML skillsWithoutAboutDoc with
     | Ok content, Ok page =>
         content <> "" /\ occurrences content page = 0
         /\ occurrences content page <> 1
     | _, _ => False
     end.
Proof.
  split; [cbn; tauto|]. split; [reflexivity|].
  vm_compute. split; [discriminate|]. split; [reflexivity | discriminate].
Qed.
(** ** The skills carousel *)

Ltac Zify.zify_post_hook ::= Z.to_euclidean_division_equations.

Lemma valuesFlat_flattenMapping (m : list (string * list string)) :
  valuesFlat m = flattenMapping m.
Proof.
  unfold valuesFlat. induction m as [|[k v] m IH]; [reflexivity|].
  cbn [map concat flattenMapping snd]. now rewrite IH.
Qed.

Lemma generateSkillsCarousel_eq (d : Doc.t) :
  generateSkillsCarousel d
  = match flattenedSkills d with
    | [] => ""
    | _ :: _ =>
        carouselHead d
        ++ join "" (map (carouselBadge d)
                      (flattenedSkills d ++ flattenedSkills d ++ flattenedSkills d)%list)
        ++ carouselFoot
    end.
Proof.
  unfold generateSkillsCarousel, flattenedSkills.
  destruct (chain (Doc.skills d) Skills.skills) as [m|]; [|reflexivity].
  rewrite valuesFlat_flattenMapping.
  destruct (flattenMapping m); reflexivity.
Qed.

Lemma carouselHead_nonempty (d : Doc.t) : carouselHead d <> "".
Proof. unfold carouselHead. apply append_nonempty. discriminate. Qed.

Lemma generateSkillsCarousel_empty (d : Doc.t) :
  generateSkillsCarousel d = "" <-> flattenedSkills d = [].
Proof.
  rewrite generateSkillsCarousel_eq. destruct (flattenedSkills d) as [|s l].
  - tauto.
  - split; [|discriminate]. intros H. exfalso. revert H.
    apply literal_head_nonempty, carouselHead_nonempty.
Qed.

Lemma carouselBadge_skill (d : Doc.t) :
  exists opening closing,
    includesS (html "<span class=~badge") opening = true
    /\ includesS "</span>" closing = true
    /\ forall skill,
         carouselBadge d skill = opening ++ escapeHtml (JStr skill) ++ closing.
Proof.
  do 2 eexists. split; [|split].
  3: { intros skill. unfold carouselBadge. frame. }
  - contains.
  - vm_compute. reflexivity.
Qed.

(** With distinct keys, an entry of the mapping is what its key reads. *)
Lemma lookup_In (m : list (string * list string)) (k : string) (v : list string) :
  NoDup (map fst m) -> In (k, v) m -> lookup k m = Some v.
Proof.
  induction m as [|[k' v'] m IH]; intros Hnd Hin; [contradiction|].
  cbn [map fst] in Hnd. inversion Hnd as [|? ? Hk' Hrest]; subst.
  cbn [lookup]. destruct Hin as [E|Hin].
  - injection E as -> ->. now rewrite String.eqb_refl.
  - destruct (String.eqb_spec k' k) as [->|_]; [|now apply IH].
    exfalso. apply Hk'. apply in_map_iff. now exists (k, v).
Qed.

Lemma flat_map_entries (full m : list (string * list string))
  (categories : list Category.t) :
  map fst m = map (fun c => propertyKey (Category.id c)) categories ->
  (forall k v, In (k, v) m -> lookup k full = Some v) ->
  flat_map (fun c => listOf (lookup (propertyKey (Category.id c)) full)) categories
  = flattenMapping m.
Proof.
  revert categories. induction m as [|[k v] m IH]; intros categories Hkeys Hall.
  - destruct categories; [reflexivity | discriminate].
  - destruct categories as [|c categories]; [discriminate|].
    cbn [map fst] in Hkeys. injection Hkeys as Hk Hkeys.
    cbn [flat_map flattenMapping]. rewrite <- Hk.
    rewrite (Hall k v) by now left. cbn [listOf]. f_equal.
    apply IH; [exact Hkeys|]. intros k' v' Hin. apply Hall. now right.
Qed.

(** When the keys of the mapping are the ids of the categories, in the order
    of the categories, the mapping lists the skills in the order of the
    categories. *)
Lemma flattenedSkills_byCategory (d : Doc.t) (sk : Skills.t)
  (categories : list Category.t) (m : list (string * list string)) :
  Doc.skills d = Some sk -> Skills.categories sk = Some categories ->
  Skills.skills sk = Some m ->
  map fst m = map (fun c => propertyKey (Category.id c)) categories ->
  NoDup (map fst m) ->
  flattenedSkills d = flattenedByCategory d.
Proof.
  intros E1 E2 E3 Hkeys Hnd.
  unfold flattenedSkills, flattenedByCategory, associatedSkills.
  rewrite E1. cbn [chain]. rewrite E2, E3. cbn [listOf chain].
  symmetry. apply flat_map_entries; [exact Hkeys|].
  intros k v. now apply lookup_In.
Qed.

(** C8, as the code has it: in rotating mode the badges rendered are those of
    the skills of the mapping, flattened in the order of the mapping, written
    three times over: one badge for each, in that order, each holding its
    skill, escaped, inside a [span] of class [badge]. The [categories]
    sequence is not read; the order is that of the categories when the keys of
    the mapping are the ids of the categories in the order of the categories.
    The carousel is the empty string exactly when there is no skill to
    flatten, and the about section embeds the carousel in rotating mode when
    skills data is present. *)
Theorem carousel_triples_flattened_skills (d : Doc.t) :
  (flattenedSkills d <> [] ->
   generateSkillsCarousel d
   = carouselHead d
     ++ join "" (map (carouselBadge d)
                   (flattenedSkills d ++ flattenedSkills d ++ flattenedSkills d)%list)
     ++ carouselFoot)
  /\ (exists opening closing,
        includesS (html "<span class=~badge") opening = true
        /\ includesS "</span>" closing = true
        /\ forall skill,
             carouselBadge d skill = opening ++ escapeHtml (JStr skill) ++ closing)
  /\ (forall sk categories m,
        Doc.skills d = Some sk -> Skills.categories sk = Some categories ->
        Skills.skills sk = Some m ->
        map fst m = map (fun c => propertyKey (Category.id c)) categories ->
        NoDup (map fst m) ->
        flattenedSkills d = flattenedByCategory d)
  /\ (generateSkillsCarousel d = "" <-> flattenedSkills d = [])
  /\ (hasSkills d = true -> skillsDisplayMode d = "rotating" ->
      skillsContent d = Ok (generateSkillsCarousel d)).
Proof.
  split; [|split; [|split; [|split]]].
  - intros E. rewrite generateSkillsCarousel_eq.
    destruct (flattenedSkills d); [congruence | reflexivity].
  - apply carouselBadge_skill.
  - intros sk categories m. apply flattenedSkills_byCategory.
  - apply generateSkillsCarousel_empty.
  - intros H1 H2. unfold skillsContent. now rewrite H1, H2.
Qed.

Lemma carousel_triples_flattened_skills_witness :
  generateSkillsCarousel rotatingDoc
  = carouselHead rotatingDoc
    ++ join "" (map (carouselBadge rotatingDoc)
                  ["a"; "b"; "c"; "a"; "b"; "c"; "a"; "b"; "c"])
    ++ carouselFoot
  /\ flattenedSkills keyedDoc = flattenedByCategory keyedDoc
  /\ skillsContent rotatingDoc = Ok (generateSkillsCarousel rotatingDoc).
Proof.
  split; [|split].
  - apply (proj1 (carousel_triples_flattened_skills rotatingDoc)).
    discriminate.
  - apply (proj1 (proj2 (proj2 (carousel_triples_flattened_skills keyedDoc)))
             keyedSkills
             [Category.mk (Some "a") (Some "A") None;
              Category.mk (Some "b") (Some "B") None]
             [("a", ["a1"]); ("b", ["b1"; "b2"])]);
      try reflexivity.
    repeat constructor; cbn; intuition discriminate.
  - apply (proj2 (proj2 (proj2 (proj2 (carousel_triples_flattened_skills rotatingDoc)))));
      reflexivity.
Defined.

(** C8 as stated fails: the mapping lists the key [a] before the key [b], the
    [categories] sequence lists the category [b] before the category [a]; the
    skills flattened in the order of the categories are [y; x], and the
    carousel shows [x; y] three times over. *)
Lemma carousel_order_counterexample :
  skillsDisplayMode reorderedDoc = "rotating"
  /\ flattenedByCategory reorderedDoc = ["y"; "x"]
  /\ generateSkillsCarousel reorderedDoc
     = carouselHead reorderedDoc
       ++ join "" (map (carouselBadge reorderedDoc) ["x"; "y"; "x"; "y"; "x"; "y"])
       ++ carouselFoot
  /\ generateSkillsCarousel reorderedDoc
     <> carouselHead reorderedDoc
        ++ join "" (map (carouselBadge reorderedDoc)
                      (flattenedByCategory reorderedDoc
                       ++ flattenedByCategory reorderedDoc
                       ++ flattenedByCategory reorderedDoc)%list)
        ++ carouselFoot.
Proof.
  split; [reflexivity|]. split; [reflexivity|]. split; [reflexivity|].
  vm_compute. discriminate.
Qed.
(** ** The skills cards *)

Lemma noSkillsNotice_nonempty : noSkillsNotice <> "".
Proof. discriminate. Qed.

Lemma skillsCardsHead_nonempty : skillsCardsHead <> "".
Proof. discriminate. Qed.

(** A category that does not read an inherited member reads its associated
    skills. *)
Lemma skillsOf_associated (sk : Skills.t) (c : Category.t) :
  readsInherited sk c = false -> skillsOf sk c = Listed (associatedSkills sk c).
Proof.
  unfold readsInherited, skillsOf, associatedSkills, getMember.
  destruct (Skills.skills sk) as [m|]; cbn [chain orEmpty listOf]; [|reflexivity].
  destruct (lookup (propertyKey (Category.id c)) m); [reflexivity|].
  destruct (objectPrototype (propertyKey (Category.id c))); [discriminate|].
  reflexivity.
Qed.

Lemma categoriesWithSkills_associated (sk : Skills.t)
  (categories : list Category.t) :
  Forall (fun c => readsInherited sk c = false) categories ->
  categoriesWithSkills sk categories
  = filter (hasAssociatedSkills sk) categories.
Proof.
  intros H. unfold categoriesWithSkills. apply filter_ext_in. intros c Hc.
  rewrite Forall_forall in H. rewrite (skillsOf_associated sk c (H c Hc)).
  reflexivity.
Qed.

Lemma associatedSkills_mapping (sk : Skills.t) (c : Category.t) :
  hasAssociatedSkills sk c = true -> exists m, Skills.skills sk = Some m.
Proof.
  unfold hasAssociatedSkills, associatedSkills.
  destruct (Skills.skills sk) as [m|]; [eauto | discriminate].
Qed.

(** The card of a category that has associated skills and does not read an
    inherited member is written, with those skills. *)
Lemma categoryCard_associated (d : Doc.t) (sk : Skills.t) (isPartialRow : bool)
  (c : Category.t) (globalIndex : nat) :
  readsInherited sk c = false -> hasAssociatedSkills sk c = true ->
  categoryCard d sk isPartialRow c globalIndex
  = Ok (cardOf d sk isPartialRow c globalIndex).
Proof.
  intros Hplain Hhas. destruct (associatedSkills_mapping sk c Hhas) as [m Em].
  pose proof (skillsOf_associated sk c Hplain) as Hs.
  unfold skillsOf in Hs. rewrite Em in Hs. cbn [chain] in Hs.
  unfold categoryCard, cardOf. rewrite Em. cbv zeta. rewrite Hs. reflexivity.
Qed.

Lemma mapiM_ok {A B : Type} (f : A -> nat -> result B) (g : A -> nat -> B)
  (i : nat) (xs : list A) :
  (forall x j, In x xs -> f x j = Ok (g x j)) ->
  mapiM f i xs = Ok (mapi g i xs).
Proof.
  revert i. induction xs as [|x xs IH]; intros i H; [reflexivity|].
  cbn [mapiM mapi]. rewrite (H x i) by now left. cbn [bind].
  rewrite IH by (intros y j Hy; apply H; now right). reflexivity.
Qed.

Lemma In_slice {A : Type} (i j : nat) (xs : list A) (x : A) :
  In x (slice i j xs) -> In x xs.
Proof.
  unfold slice. intros H.
  assert (In x (skipn i xs)) as H'.
  { rewrite <- (firstn_skipn (j - i) (skipn i xs)). apply in_or_app. now left. }
  rewrite <- (firstn_skipn i xs). apply in_or_app. now right.
Qed.

Lemma rowsLoopM_ok {A : Type} (row : nat -> list A -> result string)
  (row' : nat -> list A -> string) (fuel i : nat) (xs : list A) :
  (forall j r, (forall x, In x r -> In x xs) -> row j r = Ok (row' j r)) ->
  rowsLoopM row fuel i xs = Ok (rowsLoop row' fuel i xs).
Proof.
  intros H. revert i. induction fuel as [|fuel IH]; intros i; [reflexivity|].
  cbn [rowsLoopM rowsLoop]. destruct (i <? length xs)%nat; [|reflexivity].
  rewrite H by (intros x; apply In_slice). cbn [bind]. rewrite IH. reflexivity.
Qed.

(** What the cards renderer returns when no category reads an inherited
    member: the notice, or the rows of the categories that have associated
    skills. *)
Lemma generateSkillsCards_associated (d : Doc.t) (sk : Skills.t)
  (categories : list Category.t) :
  Doc.skills d = Some sk -> Skills.categories sk = Some categories ->
  Forall (fun c => readsInherited sk c = false) categories ->
  generateSkillsCards d
  = match filter (hasAssociatedSkills sk) categories with
    | [] => Ok noSkillsNotice
    | _ :: _ =>
        Ok (skillsCardsHead
            ++ join LF (rowsLoop (fun i r => rowOf d sk (length r <? 3)%nat i r)
                          (length (filter (hasAssociatedSkills sk) categories)) 0
                          (filter (hasAssociatedSkills sk) categories))
            ++ skillsCardsFoot)
    end.
Proof.
  intros E1 E2 Hplain. unfold generateSkillsCards. rewrite E1, E2. cbv zeta.
  rewrite (categoriesWithSkills_associated sk categories Hplain).
  destruct (filter (hasAssociatedSkills sk) categories) as [|c kept] eqn:Ek;
    [reflexivity|].
  cbn [length Nat.eqb]. rewrite <- Ek.
  rewrite (rowsLoopM_ok _ (fun i r => rowOf d sk (length r <? 3)%nat i r)).
  - reflexivity.
  - intros j r Hr. unfold skillsRow, rowOf. cbv zeta.
    rewrite (mapiM_ok _ (cardOf d sk (length r <? 3)%nat)); [reflexivity|].
    intros x g Hx. apply Hr in Hx. apply filter_In in Hx as [Hx Hhas].
    rewrite Forall_forall in Hplain.
    apply categoryCard_associated; [now apply Hplain | exact Hhas].
Qed.

Lemma filter_filter_same {A : Type} (p : A -> bool) (xs : list A) :
  filter p (filter p xs) = filter p xs.
Proof.
  induction xs as [|x xs IH]; [reflexivity|]. cbn [filter].
  destruct (p x) eqn:E; [|exact IH]. cbn [filter]. now rewrite E, IH.
Qed.

(** Leaving out the categories that have no associated skill does not change
    what the renderer returns. *)
Lemma generateSkillsCards_excluded (d : Doc.t) (sk : Skills.t)
  (categories : list Category.t) :
  Doc.skills d = Some sk -> Skills.categories sk = Some categories ->
  Forall (fun c => readsInherited sk c = false) categories ->
  generateSkillsCards d
  = generateSkillsCards
      (withCategories d sk (filter (hasAssociatedSkills sk) categories)).
Proof.
  intros E1 E2 Hplain.
  rewrite (generateSkillsCards_associated d sk categories E1 E2 Hplain).
  rewrite (generateSkillsCards_associated
             (withCategories d sk (filter (hasAssociatedSkills sk) categories))
             (Skills.mk (Some (filter (hasAssociatedSkills sk) categories))
                (Skills.skills sk))
             (filter (hasAssociatedSkills sk) categories) eq_refl eq_refl).
  - change (hasAssociatedSkills
              (Skills.mk (Some (filter (hasAssociatedSkills sk) categories))
                 (Skills.skills sk)))
      with (hasAssociatedSkills sk).
    rewrite filter_filter_same. reflexivity.
  - rewrite Forall_forall in *. intros c Hc. apply filter_In in Hc as [Hc _].
    exact (Hplain c Hc).
Qed.

Lemma generateSkillsCards_empty (d : Doc.t) :
  generateSkillsCards d = Ok ""
  <-> Doc.skills d = None
      \/ exists sk, Doc.skills d = Some sk /\ Skills.categories sk = None.
Proof.
  unfold generateSkillsCards.
  destruct (Doc.skills d) as [sk|]; [|tauto].
  destruct (Skills.categories sk) as [categories|] eqn:E2.
  - cbv zeta. split.
    + destruct (length (categoriesWithSkills sk categories) =? 0)%nat.
      * intros H. apply Ok_inj in H. now apply noSkillsNotice_nonempty in H.
      * destruct (rowsLoopM _ _ _ _) as [rows|m]; [|discriminate].
        cbn [bind]. intros H. apply Ok_inj in H.
        now apply (append_nonempty _ _ skillsCardsHead_nonempty) in H.
    + intros [H|[sk' [H1 H2]]]; [discriminate|].
      injection H1 as <-. congruence.
  - split; [|reflexivity]. intros _. right. now exists sk.
Qed.

(** The about section holds the skills content between markup. *)
Lemma about_embeds (d : Doc.t) (content : string) :
  In "about" (sectionOrder d) -> skillsContent d = Ok content ->
  exists pre post, generateAboutSection d = Ok (pre ++ content ++ post).
Proof.
  intros H Hc. apply includes_In in H.
  unfold generateAboutSection. rewrite H, Hc. cbn [negb bind]. cbv zeta.
  do 2 eexists. f_equal. frame.
Qed.

(** C3, as the code has it, for the categories whose id does not read a
    member that every object inherits. In card mode a category without an
    associated skill is left out: the renderer returns what it returns for
    the document without that category. When the categories are present and
    none has an associated skill, the renderer returns the notice that no
    skills were added, which is not empty; the about section then holds that
    notice if there is a category or the mapping has a key, and the comment
    that there is no skills data if there is neither, as it does when the
    skills object is absent. The renderer returns the empty string only when
    the skills object or its categories are absent. *)
Theorem skills_cards_without_skills (d : Doc.t) :
  (forall sk categories,
     Doc.skills d = Some sk -> Skills.categories sk = Some categories ->
     Forall (fun c => readsInherited sk c = false) categories ->
     generateSkillsCards d
     = generateSkillsCards
         (withCategories d sk (filter (hasAssociatedSkills sk) categories))
     /\ (filter (hasAssociatedSkills sk) categories = [] ->
         generateSkillsCards d = Ok noSkillsNotice
         /\ (In "about" (sectionOrder d) -> skillsDisplayMode d <> "rotating" ->
             (categories <> [] \/ nonEmpty (Skills.skills sk) = true ->
              exists pre post,
                generateAboutSection d = Ok (pre ++ noSkillsNotice ++ post))
             /\ (categories = [] -> nonEmpty (Skills.skills sk) = false ->
                 exists pre post,
                   generateAboutSection d
                   = Ok (pre ++ "<!-- No skills data -->" ++ post)))))
  /\ (Doc.skills d = None -> In "about" (sectionOrder d) ->
      exists pre post,
        generateAboutSection d = Ok (pre ++ "<!-- No skills data -->" ++ post))
  /\ noSkillsNotice <> ""
  /\ includesS "No skills added yet. Add some skills in the editor!"
       noSkillsNotice = true
  /\ (generateSkillsCards d = Ok ""
      <-> Doc.skills d = None
          \/ exists sk, Doc.skills d = Some sk /\ Skills.categories sk = None).
Proof.
  split; [|split; [|split; [|split]]].
  - intros sk categories E1 E2 Hplain.
    split; [now apply generateSkillsCards_excluded|].
    intros Hnone.
    assert (generateSkillsCards d = Ok noSkillsNotice) as Hcards.
    { rewrite (generateSkillsCards_associated d sk categories E1 E2 Hplain).
      now rewrite Hnone. }
    split; [exact Hcards|].
    intros Habout Hmode. apply String.eqb_neq in Hmode. split.
    + intros Hdata. apply about_embeds; [exact Habout|].
      unfold skillsContent, hasSkills. rewrite E1, E2, Hmode.
      destruct Hdata as [Hne|Hkeys].
      * destruct categories; [congruence|]. exact Hcards.
      * rewrite Hkeys, orb_true_r. exact Hcards.
    + intros -> Hkeys. apply about_embeds; [exact Habout|].
      unfold skillsContent, hasSkills. rewrite E1, E2, Hkeys. reflexivity.
  - intros E Habout. apply about_embeds; [exact Habout|].
    unfold skillsContent, hasSkills. now rewrite E.
  - apply noSkillsNotice_nonempty.
  - vm_compute. reflexivity.
  - apply generateSkillsCards_empty.
Qed.

Lemma skills_cards_without_skills_witness :
  generateSkillsCards emptyCategoriesDoc = Ok noSkillsNotice
  /\ (exists pre post,
        generateAboutSection emptyCategoriesDoc
        = Ok (pre ++ noSkillsNotice ++ post))
  /\ (exists pre post,
        generateAboutSection noSkillsDataDoc
        = Ok (pre ++ "<!-- No skills data -->" ++ post))
  /\ exists pre post,
       generateAboutSection emptyDoc
       = Ok (pre ++ "<!-- No skills data -->" ++ post).
Proof.
  assert (In "about" (sectionOrder emptyDoc)) as Habout by (cbn; tauto).
  destruct (proj1 (skills_cards_without_skills emptyCategoriesDoc)
              skillsWithoutEntries
              [Category.mk (Some "lang") (Some "Languages") None]
              eq_refl eq_refl) as [_ Hlang]; [repeat constructor|].
  destruct (Hlang eq_refl) as [Hcards Hsection].
  destruct (proj1 (skills_cards_without_skills noSkillsDataDoc)
              (Skills.mk (Some []) (Some [])) [] eq_refl eq_refl)
    as [_ Hnone]; [constructor|].
  destruct (Hnone eq_refl) as [_ Hsection'].
  split; [exact Hcards|]. split; [|split].
  - apply (Hsection Habout); [discriminate|]. left. discriminate.
  - apply (Hsection' Habout); [discriminate | reflexivity | reflexivity].
  - apply (proj1 (proj2 (skills_cards_without_skills emptyDoc)));
      [reflexivity | exact Habout].
Defined.

(** C3 as stated fails: skills data is present, the only category has no
    associated skill, and the about section holds the notice, not the empty
    string. *)
Lemma skills_cards_empty_counterexample :
  hasSkills emptyCategoriesDoc = true
  /\ skillsDisplayMode emptyCategoriesDoc = "card"
  /\ associatedSkills skillsWithoutEntries
       (Category.mk (Some "lang") (Some "Languages") None) = []
  /\ skillsContent emptyCategoriesDoc = Ok noSkillsNotice
  /\ noSkillsNotice <> "".
Proof. repeat split. discriminate. Qed.
(** ** Rows of three *)

Lemma slice_length {A : Type} (i : nat) (xs : list A) :
  length (slice i (i + 3) xs) = Nat.min 3 (length xs - i).
Proof.
  unfold slice. rewrite length_firstn, length_skipn.
  replace (i + 3 - i) with 3 by lia. reflexivity.
Qed.

Lemma rowsLoop_length {A : Type} (row : nat -> list A -> string)
  (fuel i : nat) (xs : list A) :
  length (rowsLoop row fuel i xs) = Nat.min fuel ((length xs - i + 2) / 3).
Proof.
  revert i. induction fuel as [|fuel IH]; intros i; [reflexivity|].
  cbn [rowsLoop]. destruct (Nat.ltb_spec i (length xs)) as [H|H].
  - cbn [length]. rewrite IH. lia.
  - cbn [length]. lia.
Qed.

Lemma rowsLoop_nth {A : Type} (row : nat -> list A -> string)
  (fuel i : nat) (xs : list A) (k : nat) :
  k < fuel -> i + 3 * k < length xs ->
  nth_error (rowsLoop row fuel i xs) k
  = Some (row (i + 3 * k) (slice (i + 3 * k) (i + 3 * k + 3) xs)).
Proof.
  revert i k. induction fuel as [|fuel IH]; intros i k Hk Hi; [lia|].
  cbn [rowsLoop]. destruct (Nat.ltb_spec i (length xs)) as [H|H]; [|lia].
  destruct k as [|k].
  - cbn [nth_error]. replace (i + 3 * 0) with i by lia. reflexivity.
  - cbn [nth_error]. rewrite IH by lia.
    replace (i + 3 + 3 * k) with (i + 3 * S k) by lia. reflexivity.
Qed.

Lemma slice_skipn {A : Type} (i j : nat) (xs : list A) :
  slice i (i + 3) (skipn j xs) = slice (j + i) (j + i + 3) xs.
Proof.
  unfold slice. rewrite skipn_skipn.
  replace (i + 3 - i) with 3 by lia. replace (j + i + 3 - (j + i)) with 3 by lia.
  now rewrite (Nat.add_comm i j).
Qed.

Lemma concat_slices_from {A : Type} (n : nat) (xs : list A) :
  length xs <= 3 * n ->
  concat (map (fun k => slice (3 * k) (3 * k + 3) xs) (seq 0 n)) = xs.
Proof.
  revert xs. induction n as [|n IH]; intros xs H.
  - destruct xs; [reflexivity | cbn in H; lia].
  - cbn [seq map concat]. rewrite <- seq_shift, map_map.
    rewrite (map_ext _ (fun k => slice (3 * k) (3 * k + 3) (skipn 3 xs))).
    + rewrite IH by (rewrite length_skipn; lia).
      unfold slice. cbn [skipn Nat.sub Nat.mul Nat.add]. apply firstn_skipn.
    + intros k. rewrite slice_skipn. f_equal; lia.
Qed.

Lemma rowOf_layout (d : Doc.t) (sk : Skills.t) (isPartialRow : bool)
  (i : nat) (rowCategories : list Category.t) :
  startsWith (html "
      <div class=~flex justify-center gap-8 mb-8~>")
    (rowOf d sk isPartialRow i rowCategories) = isPartialRow
  /\ startsWith (html "
      <div class=~grid grid-cols-1 md:grid-cols-2 lg:grid-cols-3 gap-8 mb-8~>")
       (rowOf d sk isPartialRow i rowCategories) = negb isPartialRow.
Proof. destruct isPartialRow; split; reflexivity. Qed.

Lemma rowOf_cards (d : Doc.t) (sk : Skills.t) (isPartialRow : bool) :
  exists pre post, forall i rowCategories,
    rowOf d sk isPartialRow i rowCategories
    = pre ++ join "" (mapi (cardOf d sk isPartialRow) i rowCategories) ++ post.
Proof.
  do 2 eexists. intros i rowCategories. unfold rowOf, skillsRowMarkup. frame.
Qed.

(** Reads a template as a frame around the operand [e], leaving the part
    after [e] to be read further. *)
Ltac hole e := seek_to e; eapply frame_skip; apply frame_at.

Lemma cardOf_parts (d : Doc.t) (sk : Skills.t) (isPartialRow : bool) :
  exists p1 p2 p3 p4, forall category globalIndex,
    cardOf d sk isPartialRow category globalIndex
    = p1 ++ getCategoryIcon (Category.icon category) (Category.name category)
              globalIndex
      ++ p2 ++ escapeHtml (ofOpt (Category.name category))
      ++ p3 ++ join "" (map (skillItem d) (associatedSkills sk category))
      ++ p4.
Proof.
  do 4 eexists. intros category globalIndex.
  unfold cardOf, categoryCardMarkup.
  hole (getCategoryIcon (Category.icon category) (Category.name category)
          globalIndex).
  hole (escapeHtml (ofOpt (Category.name category))).
  hole (join "" (map (skillItem d) (associatedSkills sk category))).
  reflexivity.
Qed.

Lemma skillItem_skill (d : Doc.t) :
  exists opening closing,
    includesS (html "<span class=~text-gray-700") opening = true
    /\ startsWith "</span>" closing = true
    /\ forall skill,
         skillItem d skill = opening ++ escapeHtml (JStr skill) ++ closing.
Proof.
  do 2 eexists. split; [|split].
  3: { intros skill. unfold skillItem. frame. }
  - do 2 apply includesS_app_r. vm_compute. reflexivity.
  - vm_compute. reflexivity.
Qed.

(** ** Cards that cannot be written *)

Lemma mapiM_cases {A B : Type} (f : A -> nat -> result B) (m : string)
  (i : nat) (xs : list A) :
  (forall x j, (exists y, f x j = Ok y) \/ f x j = TypeError m) ->
  (exists ys, mapiM f i xs = Ok ys) \/ mapiM f i xs = TypeError m.
Proof.
  intros H. revert i. induction xs as [|x xs IH]; intros i; cbn [mapiM].
  - left. now exists [].
  - destruct (H x i) as [[y ->]| ->]; [|now right]. cbn [bind].
    destruct (IH (S i)) as [[ys ->]| ->]; [left; now eexists | now right].
Qed.

Lemma mapiM_throw {A B : Type} (f : A -> nat -> result B) (m : string)
  (i : nat) (xs : list A) :
  (forall x j, (exists y, f x j = Ok y) \/ f x j = TypeError m) ->
  (exists x, In x xs /\ forall j, f x j = TypeError m) ->
  mapiM f i xs = TypeError m.
Proof.
  intros H. revert i. induction xs as [|x xs IH]; intros i [x' [Hin Hx']];
    [contradiction|].
  cbn [mapiM]. destruct (H x i) as [[y Hy]| ->]; [|reflexivity].
  rewrite Hy. cbn [bind]. destruct Hin as [->|Hin]; [congruence|].
  rewrite IH by eauto. reflexivity.
Qed.

Lemma rowsLoopM_throw {A : Type} (row : nat -> list A -> result string)
  (m : string) (fuel i : nat) (xs : list A) :
  (forall j r, (exists y, row j r = Ok y) \/ row j r = TypeError m) ->
  (exists k, k < fuel /\ i + 3 * k < length xs
             /\ row (i + 3 * k) (slice (i + 3 * k) (i + 3 * k + 3) xs)
                = TypeError m) ->
  rowsLoopM row fuel i xs = TypeError m.
Proof.
  intros H. revert i. induction fuel as [|fuel IH]; intros i [k [Hk [Hi Hrow]]];
    [lia|].
  cbn [rowsLoopM]. destruct (Nat.ltb_spec i (length xs)) as [Hlt|Hge]; [|lia].
  destruct k as [|k].
  - replace (i + 3 * 0) with i in Hrow by lia. now rewrite Hrow.
  - destruct (H i (slice i (i + 3) xs)) as [[y ->]| ->]; [|reflexivity].
    cbn [bind]. rewrite IH; [reflexivity|].
    exists k. split; [lia|].
    replace (i + 3 + 3 * k) with (i + 3 * S k) by lia. now split.
Qed.

Lemma In_slice_nth {A : Type} (xs : list A) (p : nat) (x : A) :
  nth_error xs p = Some x ->
  In x (slice (3 * (p / 3)) (3 * (p / 3) + 3) xs).
Proof.
  intros H. unfold slice.
  replace (3 * (p / 3) + 3 - 3 * (p / 3)) with 3 by lia.
  apply (nth_error_In _ (p mod 3)).
  rewrite nth_error_firstn.
  destruct (Nat.ltb_spec (p mod 3) 3) as [_|Hge]; [|lia].
  rewrite nth_error_skipn.
  replace (3 * (p / 3) + p mod 3) with p by lia. exact H.
Qed.

Lemma categoryCard_cases (d : Doc.t) (sk : Skills.t) (m : list (string * list string))
  (isPartialRow : bool) (c : Category.t) (globalIndex : nat) :
  Skills.skills sk = Some m ->
  (cardThrows sk c = false \/ hasPositiveLength (skillsOf sk c) = false ->
   hasPositiveLength (skillsOf sk c) = true ->
   exists card, categoryCard d sk isPartialRow c globalIndex = Ok card)
  /\ (cardThrows sk c = true ->
      categoryCard d sk isPartialRow c globalIndex
      = TypeError "skills.map is not a function")
  /\ ((exists card, categoryCard d sk isPartialRow c globalIndex = Ok card)
      \/ categoryCard d sk isPartialRow c globalIndex
         = TypeError "skills.map is not a function").
Proof.
  intros Em. unfold cardThrows, skillsOf, categoryCard. rewrite Em.
  cbn [chain]. cbv zeta.
  destruct (orEmpty (getMember (propertyKey (Category.id c)) m)) as [l|n|];
    cbn [mapSkills bind hasPositiveLength].
  - split; [eauto|]. split; [discriminate | eauto].
  - split; [|split; [reflexivity | now right]].
    intros [H|H] Hn; congruence.
  - split; [discriminate|]. split; [discriminate | now right].
Qed.

(** The cards renderer throws exactly when the filter keeps a category whose
    id reads a method: it returns when there is none. *)
Lemma generateSkillsCards_cases (d : Doc.t) (sk : Skills.t)
  (categories : list Category.t) :
  Doc.skills d = Some sk -> Skills.categories sk = Some categories ->
  (existsb (cardThrows sk) categories = true ->
   generateSkillsCards d = TypeError "skills.map is not a function")
  /\ (existsb (cardThrows sk) categories = false ->
      exists cards, generateSkillsCards d = Ok cards).
Proof.
  intros E1 E2. unfold generateSkillsCards. rewrite E1, E2. cbv zeta.
  set (kept := categoriesWithSkills sk categories).
  destruct (Skills.skills sk) as [m|] eqn:Em.
  - assert (forall j r,
              (exists y, skillsRow d sk j r = Ok y)
              \/ skillsRow d sk j r = TypeError "skills.map is not a function")
      as Hrows.
    { intros j r. unfold skillsRow. cbv zeta.
      destruct (mapiM_cases (categoryCard d sk (length r <? 3)%nat)
                  "skills.map is not a function" j r) as [[ys ->]| ->].
      - intros x g. apply (categoryCard_cases d sk m _ x g Em).
      - left. cbn [bind]. eauto.
      - now right. }
    split.
    + intros Hex. apply existsb_exists in Hex as [c [Hc Hthrow]].
      assert (In c kept) as Hkept.
      { apply filter_In. split; [exact Hc|]. unfold cardThrows in Hthrow.
        destruct (skillsOf sk c); cbn [hasPositiveLength]; congruence. }
      apply In_nth_error in Hkept as [p Hp].
      assert (p < length kept) as Hlen
        by (apply nth_error_Some; congruence).
      destruct (Nat.eqb_spec (length kept) 0) as [H0|_]; [lia|].
      rewrite (rowsLoopM_throw _ "skills.map is not a function");
        [reflexivity | exact Hrows |].
      exists (p / 3). split; [lia|]. split; [lia|].
      cbn [Nat.add]. unfold skillsRow. cbv zeta.
      rewrite (mapiM_throw _ "skills.map is not a function"); [reflexivity| |].
      * intros x g. apply (categoryCard_cases d sk m _ x g Em).
      * exists c. split; [now apply In_slice_nth|].
        intros g. now apply (categoryCard_cases d sk m _ c g Em).
    + intros Hnone.
      destruct (length kept =? 0)%nat; [eauto|].
      assert (exists rows, rowsLoopM (skillsRow d sk) (length kept) 0 kept = Ok rows)
        as [rows ->].
      { assert (forall x, In x kept ->
                  forall b g, exists card, categoryCard d sk b x g = Ok card)
          as Hcards.
        { intros x Hx b g. apply filter_In in Hx as [Hx Hpos].
          apply (categoryCard_cases d sk m b x g Em); [|exact Hpos].
          left. destruct (cardThrows sk x) eqn:Ex; [|reflexivity].
          assert (existsb (cardThrows sk) categories = true) as Hex
            by (apply existsb_exists; eauto).
          congruence. }
        eexists.
        apply (rowsLoopM_ok _
                 (fun j r =>
                    skillsRowMarkup (length r <? 3)%nat
                      (mapi (fun x g =>
                               match categoryCard d sk (length r <? 3)%nat x g with
                               | Ok card => card
                               | TypeError _ => ""
                               end) j r))).
        intros j r Hr. unfold skillsRow. cbv zeta.
        rewrite (mapiM_ok _ (fun x g =>
                               match categoryCard d sk (length r <? 3)%nat x g with
                               | Ok card => card
                               | TypeError _ => ""
                               end)); [reflexivity|].
        intros x g Hx. destruct (Hcards x (Hr x Hx) (length r <? 3)%nat g)
          as [card ->]. reflexivity. }
      cbn [bind]. eauto.
  - assert (kept = []) as ->.
    { subst kept. clear E2. unfold categoriesWithSkills.
      induction categories as [|c cs IH]; [reflexivity|].
      cbn [filter]. unfold skillsOf at 1. rewrite Em. cbn. exact IH. }
    cbn [length Nat.eqb]. split; [|eauto].
    intros Hex. apply existsb_exists in Hex as [c [_ Hthrow]].
    unfold cardThrows, skillsOf in Hthrow. rewrite Em in Hthrow. discriminate.
Qed.

(** The rows of the skills cards: when no category reads a member that every
    object inherits and [M >= 1] categories have associated skills, the cards
    renderer writes [ceil(M/3)] rows, joined by line feeds; row [k] holds the
    cards of those categories from place [3k] up to, and not including, place
    [3k + 3], in the order of the document, so the rows taken one after the
    other are those categories in that order; the row has the centred layout
    exactly when it is the last row and [M mod 3 <> 0], the grid layout
    otherwise; a card holds the icon picked by the place of its category
    among the [M], the name of the category, escaped, and an item for each
    associated skill, in order. *)
Lemma skills_cards_rows_associated (d : Doc.t) (sk : Skills.t)
  (categories : list Category.t) :
  Doc.skills d = Some sk -> Skills.categories sk = Some categories ->
  Forall (fun c => readsInherited sk c = false) categories ->
  1 <= length (filter (hasAssociatedSkills sk) categories) ->
  let filtered := filter (hasAssociatedSkills sk) categories in
  let M := length filtered in
  exists rows : list string,
    generateSkillsCards d = Ok (skillsCardsHead ++ join LF rows ++ skillsCardsFoot)
    /\ length rows = (M + 2) / 3
    /\ (forall k, k < (M + 2) / 3 ->
          nth_error rows k
          = Some (rowOf d sk
                    ((k =? (M + 2) / 3 - 1)%nat && negb (M mod 3 =? 0)%nat)
                    (3 * k) (slice (3 * k) (3 * k + 3) filtered)))
    /\ concat (map (fun k => slice (3 * k) (3 * k + 3) filtered)
                 (seq 0 ((M + 2) / 3))) = filtered.
Proof.
  intros E1 E2 Hplain HM filtered M.
  assert (length filtered = M) as HlenM by reflexivity.
  clearbody M. fold filtered in HM. rewrite HlenM in HM.
  exists (rowsLoop (fun i r => rowOf d sk (length r <? 3)%nat i r) M 0 filtered).
  split; [|split; [|split]].
  - rewrite (generateSkillsCards_associated d sk categories E1 E2 Hplain).
    fold filtered. rewrite HlenM.
    destruct filtered; [cbn in HlenM; lia | reflexivity].
  - rewrite rowsLoop_length, HlenM. lia.
  - intros k Hk.
    pose proof (rowsLoop_nth (fun i r => rowOf d sk (length r <? 3)%nat i r)
                  M 0 filtered k) as Hnth.
    cbn [Nat.add] in Hnth. rewrite Hnth by (rewrite ?HlenM; lia).
    f_equal. f_equal.
    pose proof (slice_length (3 * k) filtered) as Hlen. rewrite HlenM in Hlen.
    rewrite Hlen.
    destruct (Nat.ltb_spec (Nat.min 3 (M - 3 * k)) 3) as [H|H];
      destruct (Nat.eqb_spec k ((M + 2) / 3 - 1)) as [Hlast|Hlast];
      destruct (Nat.eqb_spec (M mod 3) 0) as [Hmod|Hmod];
      cbn [andb negb]; try reflexivity; exfalso; lia.
  - apply concat_slices_from. rewrite HlenM. lia.
Qed.

(** C9 fails on the code: the document has one category with a skill and one
    category whose id is [constructor]. One category has an associated skill,
    so C9 promises one row; the filter keeps both, since the id reads the
    method that every object has under that name, the card of the second
    cannot be written, and the run ends before any file is written. Where no
    id reads such a member, the rows are as C9 says. *)
Theorem skills_cards_rows :
  (Doc.skills inheritedKeyDoc = Some inheritedKeySkills
   /\ filter (hasAssociatedSkills inheritedKeySkills)
        (listOf (Skills.categories inheritedKeySkills))
      = [Category.mk (Some "lang") (Some "Languages") None]
   /\ categoriesWithSkills inheritedKeySkills
        (listOf (Skills.categories inheritedKeySkills))
      = listOf (Skills.categories inheritedKeySkills)
   /\ generateSkillsCards inheritedKeyDoc
      = TypeError "skills.map is not a function"
   /\ main inheritedKeyDoc = mkRun [] (Some "skills.map is not a function"))
  /\ (forall d sk categories,
        Doc.skills d = Some sk -> Skills.categories sk = Some categories ->
        Forall (fun c => readsInherited sk c = false) categories ->
        1 <= length (filter (hasAssociatedSkills sk) categories) ->
        let filtered := filter (hasAssociatedSkills sk) categories in
        let M := length filtered in
        exists rows : list string,
          generateSkillsCards d
          = Ok (skillsCardsHead ++ join LF rows ++ skillsCardsFoot)
          /\ length rows = (M + 2) / 3
          /\ (forall k, k < (M + 2) / 3 ->
                nth_error rows k
                = Some (rowOf d sk
                          ((k =? (M + 2) / 3 - 1)%nat && negb (M mod 3 =? 0)%nat)
                          (3 * k) (slice (3 * k) (3 * k + 3) filtered)))
          /\ concat (map (fun k => slice (3 * k) (3 * k + 3) filtered)
                       (seq 0 ((M + 2) / 3))) = filtered)
  /\ (forall d sk isPartialRow,
        (forall i rowCategories,
            startsWith (html "
      <div class=~flex justify-center gap-8 mb-8~>")
              (rowOf d sk isPartialRow i rowCategories) = isPartialRow
            /\ startsWith (html "
      <div class=~grid grid-cols-1 md:grid-cols-2 lg:grid-cols-3 gap-8 mb-8~>")
                 (rowOf d sk isPartialRow i rowCategories) = negb isPartialRow)
        /\ (exists pre post, forall i rowCategories,
              rowOf d sk isPartialRow i rowCategories
              = pre ++ join "" (mapi (cardOf d sk isPartialRow) i rowCategories)
                ++ post)
        /\ (exists p1 p2 p3 p4, forall category globalIndex,
              cardOf d sk isPartialRow category globalIndex
              = p1 ++ getCategoryIcon (Category.icon category)
                        (Category.name category) globalIndex
                ++ p2 ++ escapeHtml (ofOpt (Category.name category))
                ++ p3 ++ join "" (map (skillItem d) (associatedSkills sk category))
                ++ p4)
        /\ exists opening closing,
             includesS (html "<span class=~text-gray-700") opening = true
             /\ startsWith "</span>" closing = true
             /\ forall skill,
                  skillItem d skill = opening ++ escapeHtml (JStr skill) ++ closing).
Proof.
  split; [|split].
  - split; [reflexivity|]. split; [reflexivity|]. split; [reflexivity|].
    split; vm_compute; reflexivity.
  - intros d sk categories. apply skills_cards_rows_associated.
  - intros d sk isPartialRow.
    split; [intros; apply rowOf_layout|].
    split; [apply rowOf_cards|].
    split; [apply cardOf_parts | apply skillItem_skill].
Qed.

Lemma skills_cards_rows_witness :
  exists rows : list string,
    generateSkillsCards fourCategoriesDoc
    = Ok (skillsCardsHead ++ join LF rows ++ skillsCardsFoot)
    /\ length rows = 2
    /\ nth_error rows 1
       = Some (rowOf fourCategoriesDoc fourCategoriesSkills true 3
                 [Category.mk (Some "d") (Some "D") None]).
Proof.
  destruct (proj1 (proj2 skills_cards_rows) fourCategoriesDoc fourCategoriesSkills
              (listOf (Skills.categories fourCategoriesSkills)) eq_refl eq_refl)
    as [rows [Hpage [Hlen [Hrow _]]]].
  - repeat constructor.
  - cbn. lia.
  - exists rows. split; [exact Hpage|]. split; [exact Hlen|].
    apply (Hrow 1). cbn. lia.
Defined.
(** ** The references page *)

Lemma trim_nonempty (s : string) : trim s <> "" -> s <> "".
Proof. intros H ->. now apply H. Qed.

(** The test that guards the references page is the condition C6 states. *)
Lemma hasReferencesPage_iff (d : Doc.t) :
  hasReferencesPage d = true
  <-> (exists url, Doc.referencesUrl d = Some url /\ trim url <> "")
      \/ (exists refs, Doc.references d = Some refs /\ refs <> []).
Proof.
  unfold hasReferencesPage. rewrite orb_true_iff. split.
  - intros [H|H].
    + left. destruct (Doc.referencesUrl d) as [url|]; [|discriminate].
      exists url. split; [reflexivity|].
      apply andb_true_iff in H as [_ H]. apply negb_true_iff in H.
      now apply String.eqb_neq.
    + right. destruct (Doc.references d) as [[|r refs]|]; try discriminate.
      exists (r :: refs). split; [reflexivity | discriminate].
  - intros [[url [E H]]|[refs [E H]]].
    + left. rewrite E. apply andb_true_iff. split.
      * cbn. apply negb_true_iff, String.eqb_neq. now apply trim_nonempty.
      * now apply negb_true_iff, String.eqb_neq.
    + right. rewrite E. destruct refs; [congruence | reflexivity].
Qed.

Lemma mapM_ok {A B : Type} (f : A -> result B) (xs : list A) :
  (exists ys, mapM f xs = Ok ys) <-> Forall (fun x => exists y, f x = Ok y) xs.
Proof.
  induction xs as [|x xs IH]; cbn [mapM].
  - split; [constructor | now exists []].
  - split.
    + intros [ys H]. destruct (f x) as [y|m] eqn:Ex; [|discriminate].
      cbn [bind] in H. destruct (mapM f xs) as [zs|m] eqn:Exs; [|discriminate].
      constructor; [now exists y | apply IH; now exists zs].
    + intros H. inversion H as [|? ? [y Ey] Hxs]; subst.
      apply IH in Hxs as [zs Ezs]. rewrite Ey, Ezs. now exists (y :: zs).
Qed.

(** The renderer of the references page returns a page exactly when the
    document has a [references] array each of whose entries has a name. *)
Lemma generateReferencesHTML_ok (d : Doc.t) :
  (exists page, generateReferencesHTML d = Ok page)
  <-> exists refs, Doc.references d = Some refs
                   /\ Forall (fun r => Reference.name r <> None) refs.
Proof.
  unfold generateReferencesHTML.
  destruct (Doc.references d) as [refs|].
  - assert ((exists ys, mapM (referenceCard d) refs = Ok ys)
            <-> Forall (fun r => Reference.name r <> None) refs) as Hcards.
    { rewrite mapM_ok. split; apply Forall_impl; intros r; unfold referenceCard;
        destruct (Reference.name r).
      - discriminate.
      - intros [y Hy]. discriminate.
      - eauto.
      - congruence. }
    split.
    + intros [page H]. exists refs. split; [reflexivity|]. apply Hcards.
      destruct (mapM (referenceCard d) refs) as [cards|m]; [|discriminate].
      now exists cards.
    + intros [refs' [E H]]. injection E as <-.
      apply Hcards in H as [cards Hc]. rewrite Hc. cbn [bind]. eauto.
  - split; [intros [page H]; discriminate | intros [refs [E _]]; discriminate].
Qed.

(** The projects page, for comparison, is guarded by the very test its
    renderer needs: under the guard it does not throw. *)
Lemma generateProjectsHTML_guarded (d : Doc.t) :
  nonEmpty (Doc.projects d) = true -> exists page, generateProjectsHTML d = Ok page.
Proof.
  unfold generateProjectsHTML. destruct (Doc.projects d) as [projects|].
  - eauto.
  - discriminate.
Qed.

Lemma writeProjects_written (d : Doc.t) (files : list (string * string)) :
  exists more,
    written (writeProjects d files) = (files ++ more)%list
    /\ ~ In "references.html" (map fst more).
Proof.
  unfold writeProjects.
  destruct (nonEmpty (Doc.projects d)).
  - destruct (generateProjectsHTML d) as [page|m].
    + exists [("projects.html", page)]. split; [reflexivity|].
      cbn. intros [H|[]]. discriminate.
    + exists []. cbn. rewrite app_nil_r. tauto.
  - exists []. cbn. rewrite app_nil_r. tauto.
Qed.

(** What the code guarantees about the file: [references.html] is written
    exactly when the main page is, the guard holds and the renderer
    returns. *)
Lemma references_file_written (d : Doc.t) :
  In "references.html" (map fst (written (main d)))
  <-> (exists page, generateCompleteHTML d = Ok page)
      /\ hasReferencesPage d = true
      /\ exists page, generateReferencesHTML d = Ok page.
Proof.
  unfold main.
  destruct (generateCompleteHTML d) as [htmlContent|message].
  - cbv zeta. destruct (hasReferencesPage d).
    + destruct (generateReferencesHTML d) as [page|m].
      * destruct (writeProjects_written d
                    ([("index.html", htmlContent)]
                     ++ [("references.html", page)])%list) as [more [E _]].
        rewrite E. split; [eauto|]. intros _.
        rewrite !map_app. cbn. tauto.
      * cbn. split.
        -- intros [H|[]]. discriminate.
        -- intros [_ [_ [page H]]]. discriminate.
    + destruct (writeProjects_written d [("index.html", htmlContent)])
        as [more [E Hmore]].
      rewrite E. split.
      * rewrite map_app. cbn. intros [H|H]; [discriminate | contradiction].
      * intros [_ [H _]]. discriminate.
  - cbn. split; [intros [] | intros [[page H] _]; discriminate].
Qed.

(** C6 fails on the code: the document names a references file, so the
    condition of C6 holds and the guard is passed, but the renderer throws
    before the file is written. The run ends there with [index.html] as its
    only file. *)
Theorem references_page_missing_for_url_only :
  (exists url, Doc.referencesUrl referencesUrlOnlyDoc = Some url /\ trim url <> "")
  /\ hasReferencesPage referencesUrlOnlyDoc = true
  /\ map fst (written (main referencesUrlOnlyDoc)) = ["index.html"]
  /\ ~ In "references.html" (map fst (written (main referencesUrlOnlyDoc)))
  /\ uncaught (main referencesUrlOnlyDoc)
     = Some "Cannot read properties of undefined (reading 'map')".
Proof.
  assert (map fst (written (main referencesUrlOnlyDoc)) = ["index.html"]) as E
    by (vm_compute; reflexivity).
  split; [exists "references.pdf"; split; [reflexivity | discriminate]|].
  split; [reflexivity|]. split; [exact E|].
  split.
  - rewrite E. cbn. intros [H|[]]. discriminate.
  - vm_compute. reflexivity.
Qed.

(** C7 fails on the code: under the guard of the references page the
    renderer reaches both error branches. With a references file named and
    no [references] array, [portfolioData.references.map] throws; with a
    reference that has no name, [ref.name.split] throws. *)
Theorem references_renderer_throws :
  hasReferencesPage referencesUrlOnlyDoc = true
  /\ Doc.references referencesUrlOnlyDoc = None
  /\ generateReferencesHTML referencesUrlOnlyDoc
     = TypeError "Cannot read properties of undefined (reading 'map')"
  /\ hasReferencesPage namelessReferenceDoc = true
  /\ generateReferencesHTML namelessReferenceDoc
     = TypeError "Cannot read properties of undefined (reading 'split')".
Proof. repeat split. Qed.

(** With a reference that has a name the page is produced and written. *)
Lemma references_page_written_with_names :
  map fst (written (main oneReferenceDoc)) = ["index.html"; "references.html"]
  /\ uncaught (main oneReferenceDoc) = None.
Proof. split; vm_compute; reflexivity. Qed.

(** ** Further properties of the escaping utility *)

Lemma replaceG_append (c : ascii) (rep a b : string) :
  replaceG c rep (a ++ b) = replaceG c rep a ++ replaceG c rep b.
Proof.
  induction a as [|x a IH]; cbn [append replaceG]; [reflexivity|].
  destruct (Ascii.eqb x c); rewrite IH; [now rewrite append_assoc | reflexivity].
Qed.

(** The five replacements of [escapeHtml], one after the other. *)
Lemma escapeHtml_truthy (s : string) :
  s <> "" ->
  escapeHtml (JStr s)
  = replaceG "'" "&#39;"
      (replaceG dquote "&quot;"
         (replaceG ">" "&gt;"
            (replaceG "<" "&lt;" (replaceG "&" "&amp;" s)))).
Proof.
  intros H. unfold escapeHtml. cbn [truthy toString].
  apply String.eqb_neq in H. now rewrite H.
Qed.

Lemma replacements_cons (a : ascii) (s : string) :
  replaceG "'" "&#39;"
    (replaceG dquote "&quot;"
       (replaceG ">" "&gt;"
          (replaceG "<" "&lt;" (replaceG "&" "&amp;" (String a s)))))
  = escapeChar a
    ++ replaceG "'" "&#39;"
         (replaceG dquote "&quot;"
            (replaceG ">" "&gt;"
               (replaceG "<" "&lt;" (replaceG "&" "&amp;" s)))).
Proof.
  unfold escapeChar. cbn [replaceG].
  destruct (Ascii.eqb a "&"); [reflexivity|]. cbn [replaceG].
  destruct (Ascii.eqb a "<"); [reflexivity|]. cbn [replaceG].
  destruct (Ascii.eqb a ">"); [reflexivity|]. cbn [replaceG].
  destruct (Ascii.eqb a dquote); [reflexivity|]. cbn [replaceG].
  destruct (Ascii.eqb a "'"); reflexivity.
Qed.

Lemma replacements_escapeEach (s : string) :
  replaceG "'" "&#39;"
    (replaceG dquote "&quot;"
       (replaceG ">" "&gt;"
          (replaceG "<" "&lt;" (replaceG "&" "&amp;" s))))
  = escapeEach s.
Proof.
  induction s as [|a s IH]; [reflexivity|].
  rewrite replacements_cons. cbn [escapeEach]. now rewrite IH.
Qed.

Lemma escapeHtml_escapeEach (s : string) : escapeHtml (JStr s) = escapeEach s.
Proof.
  destruct s as [|a s]; [reflexivity|].
  rewrite escapeHtml_truthy by discriminate. apply replacements_escapeEach.
Qed.

Lemma escapeEach_append (a b : string) :
  escapeEach (a ++ b) = escapeEach a ++ escapeEach b.
Proof.
  induction a as [|x a IH]; cbn [append escapeEach]; [reflexivity|].
  now rewrite IH, append_assoc.
Qed.

(** X1: the five replacements that [escapeHtml] makes one after the other
    amount to one pass that replaces every character by its own text: the
    ampersand of an entity written by a later replacement is never escaped
    again. So escaping a concatenation is concatenating the escaped parts. *)
Theorem escapeHtml_one_pass (s t : string) :
  escapeHtml (JStr s) = escapeEach s
  /\ escapeHtml (JStr (s ++ t)) = escapeHtml (JStr s) ++ escapeHtml (JStr t).
Proof.
  split; [apply escapeHtml_escapeEach|].
  rewrite !escapeHtml_escapeEach. apply escapeEach_append.
Qed.

Lemma occursIn_append (c : ascii) (a b : string) :
  occursIn c (a ++ b) = occursIn c a || occursIn c b.
Proof.
  induction a as [|x a IH]; cbn [append occursIn]; [reflexivity|].
  now rewrite IH, orb_assoc.
Qed.

Lemma occursIn_escapeChar (c a : ascii) :
  In c ["<"; ">"; dquote; "'"]%char -> occursIn c (escapeChar a) = false.
Proof.
  intros Hc. unfold escapeChar.
  destruct (Ascii.eqb_spec a "&") as [->|H1].
  { cbn in Hc. decompose [or] Hc; subst; try reflexivity; contradiction. }
  destruct (Ascii.eqb_spec a "<") as [->|H2].
  { cbn in Hc. decompose [or] Hc; subst; try reflexivity; contradiction. }
  destruct (Ascii.eqb_spec a ">") as [->|H3].
  { cbn in Hc. decompose [or] Hc; subst; try reflexivity; contradiction. }
  destruct (Ascii.eqb_spec a dquote) as [->|H4].
  { cbn in Hc. decompose [or] Hc; subst; try reflexivity; contradiction. }
  destruct (Ascii.eqb_spec a "'") as [->|H5].
  { cbn in Hc. decompose [or] Hc; subst; try reflexivity; contradiction. }
  cbn [occursIn]. rewrite orb_false_r. apply Ascii.eqb_neq.
  cbn in Hc. decompose [or] Hc; subst; try assumption; contradiction.
Qed.

Lemma occursIn_escapeEach (c : ascii) (s : string) :
  In c ["<"; ">"; dquote; "'"]%char -> occursIn c (escapeEach s) = false.
Proof.
  intros Hc. induction s as [|a s IH]; [reflexivity|].
  cbn [escapeEach]. now rewrite occursIn_append, occursIn_escapeChar, IH.
Qed.

(** X2: whatever value is escaped, the result holds no [<], no [>], no double
    quote and no apostrophe, so it can stand in element content and in a
    quoted attribute value. *)
Theorem escapeHtml_no_markup_character (v : jsval) (c : ascii) :
  In c ["<"; ">"; dquote; "'"]%char -> occursIn c (escapeHtml v) = false.
Proof.
  intros Hc. unfold escapeHtml.
  destruct (negb (truthy v)); [reflexivity|].
  rewrite replacements_escapeEach. now apply occursIn_escapeEach.
Qed.

Lemma escapeHtml_no_markup_character_witness :
  occursIn "<" (escapeHtml (JStr "<script>alert('x')</script>")) = false.
Proof.
  apply (escapeHtml_no_markup_character (JStr "<script>alert('x')</script>") "<").
  cbn. tauto.
Defined.

Lemma escapeChar_inj (a b : ascii) (r s : string) :
  escapeChar a ++ r = escapeChar b ++ s -> a = b /\ r = s.
Proof.
  unfold escapeChar.
  destruct (Ascii.eqb_spec a "&") as [->|A1];
    [|destruct (Ascii.eqb_spec a "<") as [->|A2];
      [|destruct (Ascii.eqb_spec a ">") as [->|A3];
        [|destruct (Ascii.eqb_spec a dquote) as [->|A4];
          [|destruct (Ascii.eqb_spec a "'") as [->|A5]]]]];
  (destruct (Ascii.eqb_spec b "&") as [->|B1];
    [|destruct (Ascii.eqb_spec b "<") as [->|B2];
      [|destruct (Ascii.eqb_spec b ">") as [->|B3];
        [|destruct (Ascii.eqb_spec b dquote) as [->|B4];
          [|destruct (Ascii.eqb_spec b "'") as [->|B5]]]]]);
  cbn [append]; intros H; try discriminate H;
  inversion H; subst; split; congruence.
Qed.

Lemma escapeEach_inj (s t : string) : escapeEach s = escapeEach t -> s = t.
Proof.
  revert t. induction s as [|a s IH]; intros [|b t] H.
  - reflexivity.
  - cbn [escapeEach] in H. exfalso. revert H. unfold escapeChar.
    repeat match goal with |- context [Ascii.eqb b ?c] => destruct (Ascii.eqb b c) end;
      discriminate.
  - cbn [escapeEach] in H. exfalso. revert H. unfold escapeChar.
    repeat match goal with |- context [Ascii.eqb a ?c] => destruct (Ascii.eqb a c) end;
      discriminate.
  - cbn [escapeEach] in H. apply escapeChar_inj in H as [-> H].
    now rewrite (IH t H).
Qed.

(** X3: escaping loses nothing: two strings with the same escaped text are
    the same string. *)
Theorem escapeHtml_injective (s t : string) :
  escapeHtml (JStr s) = escapeHtml (JStr t) -> s = t.
Proof. rewrite !escapeHtml_escapeEach. apply escapeEach_inj. Qed.

Lemma escapeHtml_injective_witness :
  escapeHtml (JStr "a & b") = escapeHtml (JStr "a & b") /\ "a & b" = "a & b".
Proof.
  split; [reflexivity|].
  apply (escapeHtml_injective "a & b" "a & b"). reflexivity.
Defined.

(** ** The icon of a category *)

Lemma lowerChar_idempotent (a : ascii) : lowerChar (lowerChar a) = lowerChar a.
Proof.
  destruct a as [b0 b1 b2 b3 b4 b5 b6 b7].
  destruct b0, b1, b2, b3, b4, b5, b6, b7; reflexivity.
Qed.

Lemma toLowerCase_idempotent (s : string) :
  toLowerCase (toLowerCase s) = toLowerCase s.
Proof.
  induction s as [|a s IH]; cbn [toLowerCase]; [reflexivity|].
  now rewrite lowerChar_idempotent, IH.
Qed.

Lemma toLowerCase_empty (s : string) : (toLowerCase s =? "") = (s =? "").
Proof. destruct s; reflexivity. Qed.

(** What [getCategoryIcon] computes, as a function of the identifier it
    derives from its first two arguments. *)
Lemma getCategoryIcon_identifier (iconName categoryName iconName' categoryName'
  : option string) (i : nat) :
  toLowerCase (orElse iconName (orElse categoryName ""))
  = toLowerCase (orElse iconName' (orElse categoryName' "")) ->
  getCategoryIcon iconName categoryName i = getCategoryIcon iconName' categoryName' i.
Proof. intros H. unfold getCategoryIcon. now rewrite H. Qed.

(** X4: the icon is chosen by one identifier, the icon name when it is
    present and not empty and the category name otherwise, and upper and lower
    case are not told apart: an icon name wins over any category name, it can
    be written in any case, and a category name alone is used like an icon
    name. *)
Theorem getCategoryIcon_identifier_rules (iconName categoryName : string)
  (otherName : option string) (i : nat) :
  (iconName <> "" ->
   getCategoryIcon (Some iconName) otherName i
   = getCategoryIcon (Some (toLowerCase iconName)) None i)
  /\ getCategoryIcon None (Some categoryName) i
     = getCategoryIcon (Some categoryName) None i
  /\ getCategoryIcon (Some "") (Some categoryName) i
     = getCategoryIcon (Some categoryName) None i.
Proof.
  split; [|split].
  - intros H. apply getCategoryIcon_identifier.
    apply String.eqb_neq in H. cbn [orElse]. rewrite H, toLowerCase_empty, H.
    now rewrite toLowerCase_idempotent.
  - apply getCategoryIcon_identifier. cbn [orElse].
    destruct (categoryName =? ""); reflexivity.
  - apply getCategoryIcon_identifier. cbn [orElse String.eqb].
    destruct (categoryName =? ""); reflexivity.
Qed.

Lemma getCategoryIcon_identifier_rules_witness :
  getCategoryIcon (Some "DataBase") (Some "Languages") 2
  = getCategoryIcon (Some "database") None 2.
Proof.
  apply (proj1 (getCategoryIcon_identifier_rules "DataBase" "" (Some "Languages") 2)).
  discriminate.
Defined.

(** X5: the place of a category matters to its icon only through its
    remainder modulo five: two places with the same remainder give the same
    icon, whatever the names. The second and the fourth of the five fallback
    icons are the same icon, so places with remainders one and three give the
    same icon too. *)
Theorem getCategoryIcon_index_mod_5 (iconName categoryName : option string)
  (i j : nat) :
  (i mod 5 = j mod 5 ->
   getCategoryIcon iconName categoryName i = getCategoryIcon iconName categoryName j)
  /\ (i mod 5 = 1 -> j mod 5 = 3 ->
      getCategoryIcon iconName categoryName i = getCategoryIcon iconName categoryName j).
Proof.
  split.
  - intros H. unfold getCategoryIcon. now rewrite H.
  - intros Hi Hj. unfold getCategoryIcon. rewrite Hi, Hj. reflexivity.
Qed.

Lemma getCategoryIcon_index_mod_5_witness :
  getCategoryIcon None (Some "Gardening") 7 = getCategoryIcon None (Some "Gardening") 2
  /\ getCategoryIcon None (Some "Gardening") 1 = getCategoryIcon None (Some "Gardening") 3.
Proof.
  split.
  - apply (proj1 (getCategoryIcon_index_mod_5 None (Some "Gardening") 7 2)).
    reflexivity.
  - apply (proj2 (getCategoryIcon_index_mod_5 None (Some "Gardening") 1 3));
      reflexivity.
Defined.

Lemma defaultIcons_svg (k : nat) :
  startsWith (html "<svg class=~w-8 h-8 text-white~ ")
    (nth (k mod 5) defaultIcons "undefined") = true.
Proof.
  pose proof (Nat.mod_upper_bound k 5) as H.
  destruct (k mod 5) as [|[|[|[|[|n]]]]]; try reflexivity. lia.
Qed.

(** X6: [getCategoryIcon] returns icon markup for every identifier and every
    place, known or not: the result always starts an [svg] element of the
    icon size, and is never empty. *)
Theorem getCategoryIcon_always_svg (iconName categoryName : option string)
  (i : nat) :
  startsWith (html "<svg class=~w-8 h-8 text-white~ ")
    (getCategoryIcon iconName categoryName i) = true
  /\ getCategoryIcon iconName categoryName i <> "".
Proof.
  assert (startsWith (html "<svg class=~w-8 h-8 text-white~ ")
            (getCategoryIcon iconName categoryName i) = true) as H.
  { unfold getCategoryIcon.
    generalize (toLowerCase (orElse iconName (orElse categoryName ""))).
    intros identifier. cbv zeta.
    repeat (match goal with
            | |- context [String.eqb identifier ?s] =>
                destruct (String.eqb identifier s)
            end; cbn [orb]; try reflexivity).
    apply defaultIcons_svg. }
  split; [exact H|]. intros E. rewrite E in H. discriminate.
Qed.

(** ** When a section is empty *)

Lemma not_includes (x : string) (xs : list string) :
  includes x xs = false <-> ~ In x xs.
Proof.
  rewrite <- includes_In. destruct (includes x xs); split; congruence.
Qed.

(** X7: the guards of the section renderers. The hero section is never
    empty. The about and the contact section are empty exactly when their
    identifier is not in the section order; the projects and the timeline
    section are empty exactly when their identifier is not in the section
    order or their data is absent or an empty array. *)
Theorem section_empty_exactly_when (d : Doc.t) :
  generateHeroSection d <> ""
  /\ (generateAboutSection d = Ok "" <-> ~ In "about" (sectionOrder d))
  /\ (generateProjectsSection d = ""
      <-> ~ In "projects" (sectionOrder d) \/ nonEmpty (Doc.projects d) = false)
  /\ (generateTimelineSection d = ""
      <-> ~ In "timeline" (sectionOrder d) \/ nonEmpty (Doc.timeline d) = false)
  /\ (generateContactSection d = "" <-> ~ In "contact" (sectionOrder d)).
Proof.
  split; [|split; [|split; [|split]]].
  - unfold generateHeroSection. apply append_nonempty. discriminate.
  - rewrite <- not_includes. unfold generateAboutSection.
    destruct (includes "about" (sectionOrder d)); cbn [negb]; cbv zeta.
    + split; [|discriminate].
      destruct (skillsContent d) as [skills|m]; [|discriminate].
      cbn [bind]. intros H. apply Ok_inj in H. exfalso. revert H.
      apply literal_head_nonempty. discriminate.
    + tauto.
  - rewrite <- not_includes. unfold generateProjectsSection.
    destruct (includes "projects" (sectionOrder d)); cbn [negb orb];
      [|tauto].
    destruct (nonEmpty (Doc.projects d)); cbn [negb]; cbv zeta; [|tauto].
    split; [|intros [H|H]; discriminate]. intros H. exfalso. revert H.
    apply literal_head_nonempty. discriminate.
  - rewrite <- not_includes. unfold generateTimelineSection.
    destruct (includes "timeline" (sectionOrder d)); cbn [negb orb];
      [|tauto].
    destruct (nonEmpty (Doc.timeline d)); cbn [negb]; cbv zeta; [|tauto].
    split; [|intros [H|H]; discriminate]. intros H. exfalso. revert H.
    apply literal_head_nonempty. discriminate.
  - rewrite <- not_includes. unfold generateContactSection.
    destruct (includes "contact" (sectionOrder d)); cbn [negb].
    + split; [|discriminate]. intros H. exfalso. revert H.
      apply literal_head_nonempty. discriminate.
    + tauto.
Qed.

(** ** The projects section *)

Lemma projectsRow_layout (d : Doc.t) (i : nat) (rowProjects : list Project.t) :
  startsWith (html "
      <div class=~flex justify-center gap-8 mb-8~>")
    (projectsRow d i rowProjects) = (length rowProjects <? 3)%nat
  /\ startsWith (html "
      <div class=~grid grid-cols-1 md:grid-cols-2 lg:grid-cols-3 gap-8 mb-8~>")
       (projectsRow d i rowProjects) = negb (length rowProjects <? 3)%nat.
Proof.
  unfold projectsRow. destruct (length rowProjects <? 3)%nat; split; reflexivity.
Qed.

Lemma projectsRow_cards (d : Doc.t) (i : nat) (rowProjects : list Project.t) :
  exists pre post,
    projectsRow d i rowProjects
    = pre ++ join "" (map (projectCard d (length rowProjects <? 3)%nat) rowProjects)
      ++ post.
Proof. do 2 eexists. unfold projectsRow. cbv zeta. frame. Qed.

Lemma generateProjectsSection_rows (d : Doc.t) (projects : list Project.t) :
  In "projects" (sectionOrder d) -> Doc.projects d = Some projects ->
  projects <> [] ->
  exists pre post,
    generateProjectsSection d
    = pre ++ join LF (rowsLoop (projectsRow d) (length projects) 0 projects)
      ++ post.
Proof.
  intros Hd E Hne. apply includes_In in Hd.
  unfold generateProjectsSection. rewrite Hd, E.
  destruct projects as [|p projects]; [congruence|].
  cbn [negb orb nonEmpty listOf]. cbv zeta.
  do 2 eexists. frame.
Qed.

(** X8: with [N >= 1] projects and [projects] in the section order, the
    projects section holds [ceil(N/3)] rows joined by line feeds; row [k]
    holds the projects from place [3k] up to, and not including, place
    [3k + 3], in their order, so the rows one after the other are the projects
    in the order of the document; a row has the centred layout exactly when
    it is the last row and [N mod 3 <> 0], and the grid layout otherwise. *)
Theorem projects_section_rows (d : Doc.t) (projects : list Project.t) :
  In "projects" (sectionOrder d) -> Doc.projects d = Some projects ->
  1 <= length projects ->
  let N := length projects in
  exists pre post rows,
    generateProjectsSection d = pre ++ join LF rows ++ post
    /\ length rows = (N + 2) / 3
    /\ (forall k, k < (N + 2) / 3 ->
          let row := slice (3 * k) (3 * k + 3) projects in
          nth_error rows k = Some (projectsRow d (3 * k) row)
          /\ (length row <? 3)%nat
             = ((k =? (N + 2) / 3 - 1)%nat && negb (N mod 3 =? 0)%nat)
          /\ startsWith (html "
      <div class=~flex justify-center gap-8 mb-8~>")
               (projectsRow d (3 * k) row) = (length row <? 3)%nat
          /\ startsWith (html "
      <div class=~grid grid-cols-1 md:grid-cols-2 lg:grid-cols-3 gap-8 mb-8~>")
               (projectsRow d (3 * k) row) = negb (length row <? 3)%nat
          /\ exists before after,
               projectsRow d (3 * k) row
               = before
                 ++ join "" (map (projectCard d (length row <? 3)%nat) row)
                 ++ after)
    /\ concat (map (fun k => slice (3 * k) (3 * k + 3) projects)
                 (seq 0 ((N + 2) / 3))) = projects.
Proof.
  intros Hd E HN N.
  assert (length (rowsLoop (projectsRow d) N 0 projects) = (N + 2) / 3) as Hlen.
  { rewrite rowsLoop_length. fold N. lia. }
  assert (forall k, k < (N + 2) / 3 ->
            (length (slice (3 * k) (3 * k + 3) projects) <? 3)%nat
            = ((k =? (N + 2) / 3 - 1)%nat && negb (N mod 3 =? 0)%nat)) as Hpartial.
  { intros k Hk. rewrite slice_length. fold N.
    destruct (Nat.ltb_spec (Nat.min 3 (N - 3 * k)) 3) as [H|H];
      destruct (Nat.eqb_spec k ((N + 2) / 3 - 1)) as [Hlast|Hlast];
      destruct (Nat.eqb_spec (N mod 3) 0) as [Hmod|Hmod];
      cbn [andb negb]; try reflexivity; exfalso; lia. }
  assert (forall k, k < (N + 2) / 3 ->
            nth_error (rowsLoop (projectsRow d) N 0 projects) k
            = Some (projectsRow d (3 * k) (slice (3 * k) (3 * k + 3) projects)))
    as Hnth.
  { intros k Hk.
    pose proof (rowsLoop_nth (projectsRow d) N 0 projects k) as H.
    cbn [Nat.add] in H. apply H; fold N; lia. }
  assert (concat (map (fun k => slice (3 * k) (3 * k + 3) projects)
                    (seq 0 ((N + 2) / 3))) = projects) as Hall.
  { apply concat_slices_from. fold N. lia. }
  assert (projects <> []) as Hne by (intros ->; cbn in HN; lia).
  destruct (generateProjectsSection_rows d projects Hd E Hne) as [pre [post Hsec]].
  exists pre, post, (rowsLoop (projectsRow d) N 0 projects).
  split; [exact Hsec|]. split; [exact Hlen|]. split; [|exact Hall].
  intros k Hk row.
  split; [apply Hnth; exact Hk|].
  split; [apply Hpartial; exact Hk|].
  split; [exact (proj1 (projectsRow_layout d (3 * k) row))|].
  split; [exact (proj2 (projectsRow_layout d (3 * k) row))|].
  exact (projectsRow_cards d (3 * k) row).
Qed.

Lemma projects_section_rows_witness :
  exists pre post rows,
    generateProjectsSection fiveProjectsDoc = pre ++ join LF rows ++ post
    /\ length rows = 2.
Proof.
  destruct (projects_section_rows fiveProjectsDoc
              [projectTitled "one"; projectTitled "two"; projectTitled "three";
               projectTitled "four"; projectTitled "five"])
    as [pre [post [rows [Hsec [Hlen _]]]]].
  - cbn. tauto.
  - reflexivity.
  - cbn. lia.
  - exists pre, post, rows. split; [exact Hsec | exact Hlen].
Defined.

(** X9: a project card shows the first three skills of the project and, of
    the skills after the third, only how many they are: two projects that
    differ only in the skills after the third, and have as many of them, get
    the same card. *)
Theorem projectCard_skills_after_third (d : Doc.t) (isPartialRow : bool)
  (p : Project.t) (s1 s2 s3 : string) (more more' : list string) :
  length more = length more' ->
  projectCard d isPartialRow (withProjectSkills p (Some (s1 :: s2 :: s3 :: more)))
  = projectCard d isPartialRow (withProjectSkills p (Some (s1 :: s2 :: s3 :: more'))).
Proof.
  intros H. unfold projectCard, withProjectSkills.
  cbn [Project.skills Project.title Project.summary Project.description
       Project.image Project.imageBg Project.imageStyle listOf nonEmpty
       slice firstn skipn Nat.sub length].
  now rewrite H.
Qed.

Lemma projectCard_skills_after_third_witness :
  projectCard emptyDoc false
    (withProjectSkills (projectTitled "one") (Some ["a"; "b"; "c"; "d"; "e"]))
  = projectCard emptyDoc false
      (withProjectSkills (projectTitled "one") (Some ["a"; "b"; "c"; "x"; "y"])).
Proof.
  apply (projectCard_skills_after_third emptyDoc false (projectTitled "one")
           "a" "b" "c" ["d"; "e"] ["x"; "y"]).
  reflexivity.
Defined.

(** ** The entries of the timeline *)

Lemma mapi_nth {A B : Type} (f : A -> nat -> B) (i : nat) (xs : list A) (k : nat) :
  nth_error (mapi f i xs) k = option_map (fun x => f x (i + k)) (nth_error xs k).
Proof.
  revert i k. induction xs as [|x xs IH]; intros i [|k]; cbn [mapi nth_error option_map];
    try reflexivity.
  - now rewrite Nat.add_0_r.
  - rewrite IH. now rewrite Nat.add_succ_comm.
Qed.

Lemma mapi_length {A B : Type} (f : A -> nat -> B) (i : nat) (xs : list A) :
  length (mapi f i xs) = length xs.
Proof.
  revert i. induction xs as [|x xs IH]; intros i; cbn [mapi length];
    [reflexivity | now rewrite IH].
Qed.

Lemma mod_2_even (k : nat) : (k mod 2 =? 0)%nat = Nat.even k.
Proof.
  destruct (Nat.even k) eqn:E.
  - apply Nat.even_spec in E as [m ->]. apply Nat.eqb_eq. lia.
  - apply Nat.eqb_neq. rewrite <- Nat.negb_odd in E.
    apply negb_false_iff, Nat.odd_spec in E as [m ->]. lia.
Qed.

Lemma timelineItem_side (d : Doc.t) (item : TimelineEntry.t) (index : nat) :
  startsWith (html "
                        <div class=~flex items-center mb-12 flex-row~>
                            <div class=~w-1/2 pr-8 text-right~>")
    (timelineItem d item index) = (index mod 2 =? 0)%nat
  /\ startsWith (html "
                        <div class=~flex items-center mb-12 flex-row-reverse~>
                            <div class=~w-1/2 pl-8 text-left~>")
       (timelineItem d item index) = negb (index mod 2 =? 0)%nat.
Proof.
  unfold timelineItem. cbv zeta.
  destruct (index mod 2 =? 0)%nat; split; reflexivity.
Qed.

Lemma generateTimelineSection_items (d : Doc.t) (timeline : list TimelineEntry.t) :
  In "timeline" (sectionOrder d) ->
  Doc.timeline d = Some timeline -> timeline <> [] ->
  exists pre post,
    generateTimelineSection d
    = pre ++ join "" (mapi (timelineItem d) 0 timeline) ++ post.
Proof.
  intros Hd E Hne. apply includes_In in Hd.
  unfold generateTimelineSection. rewrite Hd, E. cbn [negb orb listOf].
  destruct timeline as [|item rest]; [congruence|].
  cbn [nonEmpty negb]. cbv zeta.
  do 2 eexists. frame.
Qed.

(** X10: the rendered timeline section holds one piece for each entry, in
    the order of the document, and the entries alternate sides by the parity
    of their place: the entry at an even place (counted from zero) has its
    card on the left ([flex-row], text aligned right), the entry at an odd
    place has it on the right ([flex-row-reverse], text aligned left). *)
Theorem timeline_entries_alternate (d : Doc.t) (timeline : list TimelineEntry.t) :
  In "timeline" (sectionOrder d) ->
  Doc.timeline d = Some timeline -> timeline <> [] ->
  exists pre post pieces,
    generateTimelineSection d = pre ++ join "" pieces ++ post
    /\ length pieces = length timeline
    /\ forall k item, nth_error timeline k = Some item ->
         nth_error pieces k = Some (timelineItem d item k)
         /\ startsWith (html "
                        <div class=~flex items-center mb-12 flex-row~>
                            <div class=~w-1/2 pr-8 text-right~>")
              (timelineItem d item k) = Nat.even k
         /\ startsWith (html "
                        <div class=~flex items-center mb-12 flex-row-reverse~>
                            <div class=~w-1/2 pl-8 text-left~>")
              (timelineItem d item k) = Nat.odd k.
Proof.
  intros Hd E Hne.
  destruct (generateTimelineSection_items d timeline Hd E Hne) as [pre [post H]].
  exists pre, post, (mapi (timelineItem d) 0 timeline).
  split; [exact H|]. clear H. split; [apply mapi_length|].
  intros k item Hk. split.
  - rewrite mapi_nth, Hk. reflexivity.
  - rewrite <- Nat.negb_even, <- (mod_2_even k).
    split; [exact (proj1 (timelineItem_side d item k))
           | exact (proj2 (timelineItem_side d item k))].
Qed.

Lemma timeline_entries_alternate_witness :
  exists pre post pieces,
    generateTimelineSection threeEntriesDoc = pre ++ join "" pieces ++ post
    /\ length pieces = 3.
Proof.
  destruct (timeline_entries_alternate threeEntriesDoc
              [entryOfType "research"; entryOfType "education";
               entryOfType "volunteer"])
    as [pre [post [pieces [Hsec [Hlen _]]]]].
  - cbn. tauto.
  - reflexivity.
  - discriminate.
  - exists pre, post, pieces. split; [exact Hsec | exact Hlen].
Defined.

(** X11: an entry whose type is neither [education] nor [research], an
    absent type and an unknown one included, is rendered exactly like an
    entry of the type [experience]: the badge reads Experience and has the
    fixed blue colour. *)
Theorem timelineItem_other_type_as_experience (d : Doc.t)
  (item : TimelineEntry.t) (index : nat) :
  typeIs item "education" = false -> typeIs item "research" = false ->
  timelineItem d item index
  = timelineItem d (withType item (Some "experience")) index.
Proof.
  intros H1 H2. unfold timelineItem. rewrite H1, H2. reflexivity.
Qed.

Lemma timelineItem_other_type_as_experience_witness :
  timelineItem emptyDoc (entryOfType "volunteer") 0
  = timelineItem emptyDoc (entryOfType "experience") 0
  /\ timelineItem emptyDoc (withType (entryOfType "volunteer") None) 1
     = timelineItem emptyDoc (entryOfType "experience") 1.
Proof.
  split.
  - apply (timelineItem_other_type_as_experience emptyDoc (entryOfType "volunteer") 0);
      reflexivity.
  - apply (timelineItem_other_type_as_experience emptyDoc
             (withType (entryOfType "volunteer") None) 1); reflexivity.
Defined.

(** ** The title of the timeline, again *)

(** X12: the title of the timeline depends only on which of the three types
    [education], [experience] and [research] occur in it: two timelines that
    are not empty and in which the same of these types occur get the same
    title, whatever the order and the number of their entries and whatever
    other types they hold. *)
Theorem generateTimelineTitle_by_types_present
  (timeline timeline' : list TimelineEntry.t) :
  timeline <> [] -> timeline' <> [] ->
  typesPresent timeline = typesPresent timeline' ->
  generateTimelineTitle timeline = generateTimelineTitle timeline'.
Proof.
  intros Hne Hne'. unfold generateTimelineTitle.
  rewrite !distinct_nonempty
    by (destruct timeline, timeline'; try congruence; discriminate).
  unfold typesPresent, preferredOrder.
  cbn [filter]. rewrite !existsb_distinct, !existsb_type.
  destruct (existsb _ timeline); destruct (existsb _ timeline);
    destruct (existsb _ timeline);
    destruct (existsb _ timeline'); destruct (existsb _ timeline');
    destruct (existsb _ timeline');
    intros H; try discriminate H; reflexivity.
Qed.

Lemma generateTimelineTitle_by_types_present_witness :
  generateTimelineTitle
    [entryOfType "research"; entryOfType "volunteer"; entryOfType "education"]
  = generateTimelineTitle
      [entryOfType "education"; entryOfType "research"; entryOfType "education"].
Proof.
  apply (generateTimelineTitle_by_types_present
           [entryOfType "research"; entryOfType "volunteer"; entryOfType "education"]
           [entryOfType "education"; entryOfType "research"; entryOfType "education"]).
  - discriminate.
  - discriminate.
  - reflexivity.
Defined.

(** ** Absent and empty contact data *)

(** X13: a document without a contact object and without links is rendered
    like one whose contact object and links are there with no field, and like
    one whose fields are empty strings and whose areas of interest are an
    empty array: the main page is the same in all three cases, with no
    contact method in the contact section and no icon in the footer. *)
Theorem absent_contact_as_empty (d : Doc.t) :
  generateCompleteHTML (withContact d None None)
  = generateCompleteHTML
      (withContact d (Some (Contact.mk None None None None)) (Some (Links.mk None)))
  /\ generateCompleteHTML (withContact d None None)
     = generateCompleteHTML
         (withContact d (Some (Contact.mk (Some "") (Some "") (Some "") (Some [])))
            (Some (Links.mk (Some "")))).
Proof. split; reflexivity. Qed.

(** ** The text of the footer *)

Lemma trimStart_whitespace (s : string) :
  allWhitespace s = true -> trimStart s = "".
Proof.
  induction s as [|a s IH]; cbn [allWhitespace trimStart]; [reflexivity|].
  intros H. apply andb_true_iff in H as [Ha Hs]. rewrite Ha. now apply IH.
Qed.

Lemma trim_whitespace (s : string) : allWhitespace s = true -> trim s = "".
Proof. intros H. unfold trim. now rewrite trimStart_whitespace. Qed.

Lemma escapeHtml_truthy_iff (s : string) :
  truthy (JStr (escapeHtml (JStr s))) = truthy (JStr s).
Proof.
  destruct s as [|a s]; [reflexivity|].
  rewrite escapeHtml_escapeEach. cbn [escapeEach truthy].
  unfold escapeChar.
  repeat match goal with |- context [Ascii.eqb a ?c] => destruct (Ascii.eqb a c) end;
    reflexivity.
Qed.

Lemma filter_escaped (l : list string) :
  filter (fun x => truthy (JStr x)) (map (fun x => escapeHtml (JStr (trim x))) l)
  = map (fun x => escapeHtml (JStr x))
      (filter (fun x => negb (x =? "")) (map trim l)).
Proof.
  induction l as [|x l IH]; [reflexivity|].
  cbn [map filter]. rewrite escapeHtml_truthy_iff.
  change (truthy (JStr (trim x))) with (negb (trim x =? "")).
  destruct (trim x =? ""); cbn [negb map]; now rewrite IH.
Qed.

Lemma filter_blank (l : list string) :
  Forall (fun x => allWhitespace x = true) l ->
  filter (fun x => negb (x =? "")) (map trim l) = [].
Proof.
  induction 1 as [|x l Hx Hl IH]; [reflexivity|].
  cbn [map filter]. now rewrite (trim_whitespace x Hx).
Qed.

(** X14: when the document lists footer descriptors, the footer line is the
    descriptors, trimmed and escaped, joined by [" | "], the blank ones left
    out; the title is the footer line only when the list is absent or empty.
    So a list of blank descriptors alone gives an empty footer line, whatever
    the title. *)
Theorem footerText_descriptors (d : Doc.t) :
  (forall descriptors,
     Doc.footerDescriptors d = Some descriptors -> descriptors <> [] ->
     footerText d
     = join " | "
         (map (fun x => escapeHtml (JStr x))
            (filter (fun x => negb (x =? "")) (map trim descriptors)))
     /\ (Forall (fun x => allWhitespace x = true) descriptors ->
         footerText d = ""))
  /\ (nonEmpty (Doc.footerDescriptors d) = false ->
      footerText d = escapeHtml (JStr (orElse (Doc.title d) ""))).
Proof.
  split.
  - intros descriptors E Hne.
    assert (footerText d
            = join " | "
                (map (fun x => escapeHtml (JStr x))
                   (filter (fun x => negb (x =? "")) (map trim descriptors))))
      as H.
    { unfold footerText. rewrite E.
      assert (nonEmpty (Some descriptors) = true) as ->
        by (destruct descriptors; [congruence | reflexivity]).
      cbn [listOf]. now rewrite <- filter_escaped. }
    split; [exact H|].
    intros Hblank. rewrite H, (filter_blank descriptors Hblank). reflexivity.
  - intros H. unfold footerText. now rewrite H.
Qed.

Lemma footerText_descriptors_witness :
  footerText blankDescriptorsDoc = ""
  /\ footerText emptyDoc = "".
Proof.
  split.
  - apply (proj1 (footerText_descriptors blankDescriptorsDoc) [" "; ""]).
    + reflexivity.
    + discriminate.
    + repeat constructor.
  - apply (proj2 (footerText_descriptors emptyDoc)). reflexivity.
Defined.

(** ** The files of a run *)

Lemma writeProjects_outcome (d : Doc.t) (files : list (string * string)) :
  uncaught (writeProjects d files) = None
  /\ map fst (written (writeProjects d files))
     = (map fst files
        ++ (if nonEmpty (Doc.projects d) then ["projects.html"] else []))%list
  /\ exists more, written (writeProjects d files) = (files ++ more)%list.
Proof.
  unfold writeProjects, generateProjectsHTML.
  destruct (Doc.projects d) as [[|p projects]|]; cbn [nonEmpty written uncaught].
  - rewrite app_nil_r. split; [reflexivity|]. split; [reflexivity|].
    exists []. now rewrite app_nil_r.
  - rewrite map_app. split; [reflexivity|]. split; [reflexivity|].
    eexists. reflexivity.
  - rewrite app_nil_r. split; [reflexivity|]. split; [reflexivity|].
    exists []. now rewrite app_nil_r.
Qed.

(** The skills content is written unless the cards renderer is called and
    throws. *)
Lemma skillsContent_cases (d : Doc.t) :
  (exists content, skillsContent d = Ok content)
  <-> ~ (hasSkills d = true /\ skillsDisplayMode d <> "rotating"
         /\ exists sk categories c,
              Doc.skills d = Some sk /\ Skills.categories sk = Some categories
              /\ In c categories /\ cardThrows sk c = true).
Proof.
  unfold skillsContent. destruct (hasSkills d).
  - destruct (String.eqb_spec (skillsDisplayMode d) "rotating") as [Hm|Hm].
    + split; [|eauto]. intros _ [_ [H _]]. contradiction.
    + destruct (Doc.skills d) as [sk|] eqn:E1.
      * destruct (Skills.categories sk) as [categories|] eqn:E2.
        -- destruct (generateSkillsCards_cases d sk categories E1 E2)
             as [Hthrow Hok].
           destruct (existsb (cardThrows sk) categories) eqn:Ex.
           ++ rewrite (Hthrow eq_refl). split.
              ** intros [content H]. discriminate.
              ** intros H. exfalso. apply H. split; [reflexivity|].
                 split; [exact Hm|].
                 apply existsb_exists in Ex as [c [Hc Hx]].
                 exists sk, categories, c. auto.
           ++ split; [|intros _; now apply Hok].
              intros _ [_ [_ [sk' [categories' [c [H1 [H2 [Hc Hx]]]]]]]].
              injection H1 as <-. rewrite E2 in H2. injection H2 as <-.
              assert (existsb (cardThrows sk) categories = true) as Ex'
                by (apply existsb_exists; eauto).
              congruence.
        -- split.
           ++ intros _ [_ [_ [sk' [categories' [c [H1 [H2 _]]]]]]].
              injection H1 as <-. congruence.
           ++ intros _. unfold generateSkillsCards. rewrite E1, E2. eauto.
      * split.
        -- intros _ [_ [_ [sk' [categories' [c [H1 _]]]]]]. discriminate.
        -- intros _. unfold generateSkillsCards. rewrite E1. eauto.
  - split; [|eauto]. intros _ [H _]. discriminate.
Qed.

(** The main page is written unless the about section is asked for and its
    skills content cannot be written. *)
Lemma main_page_returns (d : Doc.t) :
  (exists page, generateCompleteHTML d = Ok page)
  <-> ~ (In "about" (sectionOrder d)
         /\ hasSkills d = true /\ skillsDisplayMode d <> "rotating"
         /\ exists sk categories c,
              Doc.skills d = Some sk /\ Skills.categories sk = Some categories
              /\ In c categories /\ cardThrows sk c = true).
Proof.
  rewrite generateCompleteHTML_returns.
  assert (In "about" (sectionOrder d) ->
          ((exists fragment, generateAboutSection d = Ok fragment)
           <-> exists content, skillsContent d = Ok content)) as Habout.
  { intros H. apply includes_In in H. unfold generateAboutSection.
    rewrite H. cbn [negb]. cbv zeta.
    destruct (skillsContent d) as [content|m]; cbn [bind].
    - split; eauto.
    - split; intros [x Hx]; discriminate. }
  split.
  - intros H [Hin Hrest]. apply (proj1 (Habout Hin)) in H; [|exact Hin].
    now apply skillsContent_cases in H.
  - intros H Hin. apply (Habout Hin). apply skillsContent_cases.
    intros Hrest. apply H. now split.
Qed.

Lemma main_outcome (d : Doc.t) (page : string) :
  generateCompleteHTML d = Ok page ->
  (hasReferencesPage d = true /\ (exists message,
     generateReferencesHTML d = TypeError message
     /\ main d = mkRun [("index.html", page)] (Some message)))
  \/ (exists references : bool,
        (references = true
         <-> hasReferencesPage d = true
             /\ exists p, generateReferencesHTML d = Ok p)
        /\ (hasReferencesPage d = true ->
            exists p, generateReferencesHTML d = Ok p)
        /\ uncaught (main d) = None
        /\ (exists rest, written (main d) = ("index.html", page) :: rest)
        /\ map fst (written (main d))
           = ("index.html"
              :: (if references then ["references.html"] else [])
              ++ (if nonEmpty (Doc.projects d) then ["projects.html"] else []))%list).
Proof.
  intros Hpage. unfold main. rewrite Hpage. cbv zeta.
  destruct (hasReferencesPage d).
  - destruct (generateReferencesHTML d) as [p|message].
    + right. exists true.
      destruct (writeProjects_outcome d
                  ([("index.html", page)]
                   ++ [("references.html", p)])%list) as [H1 [H2 [more H3]]].
      split; [split; eauto|]. split; [eauto|]. split; [exact H1|].
      split; [rewrite H3; eexists; reflexivity|].
      rewrite H2. reflexivity.
    + left. split; [reflexivity|]. exists message. split; reflexivity.
  - right. exists false.
    destruct (writeProjects_outcome d [("index.html", page)])
      as [H1 [H2 [more H3]]].
    split; [split; [discriminate | intros [H _]; discriminate]|].
    split; [discriminate|]. split; [exact H1|].
    split; [rewrite H3; eexists; reflexivity|].
    rewrite H2. reflexivity.
Qed.

(** X15: a run writes no file when the main page cannot be written, which is
    the case exactly when the about section is asked for in card mode, with
    skills data, and the id of a category reads in the mapping a method that
    every object inherits ([cardThrows]). Otherwise it writes [index.html]
    first, with the main page as its content, and at most [references.html]
    and [projects.html] after it, in that order; the run then ends without an
    error exactly when the references page is not due or its renderer
    returns. [projects.html] is written exactly when the document has at
    least one project and the run ends without an error. *)
Theorem run_files (d : Doc.t) :
  (forall message, generateCompleteHTML d = TypeError message ->
     main d = mkRun [] (Some message))
  /\ (forall page, generateCompleteHTML d = Ok page ->
        (exists rest, written (main d) = ("index.html", page) :: rest)
        /\ (uncaught (main d) = None
            <-> (hasReferencesPage d = true ->
                 exists p, generateReferencesHTML d = Ok p)))
  /\ ((exists page, generateCompleteHTML d = Ok page)
      <-> ~ (In "about" (sectionOrder d)
             /\ hasSkills d = true /\ skillsDisplayMode d <> "rotating"
             /\ exists sk categories c,
                  Doc.skills d = Some sk /\ Skills.categories sk = Some categories
                  /\ In c categories /\ cardThrows sk c = true))
  /\ (In "projects.html" (fileNames (main d))
      <-> nonEmpty (Doc.projects d) = true /\ uncaught (main d) = None)
  /\ (exists index references projects : bool,
        fileNames (main d)
        = (if index
           then "index.html"
                :: (if references then ["references.html"] else [])
                ++ (if projects then ["projects.html"] else [])
           else [])%list).
Proof.
  split; [|split; [|split; [apply main_page_returns|]]].
  - intros message H. unfold main. now rewrite H.
  - intros page Hpage.
    destruct (main_outcome d page Hpage)
      as [[Hdue [message [Hthrow Hrun]]]
         |[references [_ [Hok [Hnone [Hfirst _]]]]]].
    + rewrite Hrun. cbn [written uncaught]. split; [eexists; reflexivity|].
      split; [discriminate|]. intros H. destruct (H Hdue) as [p Hp]. congruence.
    + split; [exact Hfirst|]. split; [intros _; exact Hok | intros _; exact Hnone].
  - unfold fileNames.
    destruct (generateCompleteHTML d) as [page|message] eqn:Hpage.
    + destruct (main_outcome d page Hpage)
        as [[Hdue [message [Hthrow Hrun]]]
           |[references [_ [Hok [Hnone [_ Hnames]]]]]].
      * rewrite Hrun. cbn [written uncaught map fst]. split.
        -- split; [intros [H|[]]; discriminate | intros [_ H]; discriminate].
        -- exists true, false, false. reflexivity.
      * split.
        -- rewrite Hnames. split.
           ++ intros H. split; [|exact Hnone].
              destruct (nonEmpty (Doc.projects d)); [reflexivity|].
              destruct references; cbn in H;
                repeat (destruct H as [H|H]; try discriminate H); contradiction.
           ++ intros [H _]. rewrite H. cbn [In]. right. apply in_or_app. right.
              cbn. tauto.
        -- exists true, references, (nonEmpty (Doc.projects d)). exact Hnames.
    + unfold main. rewrite Hpage. cbn [written uncaught map]. split.
      * split; [intros [] | intros [_ H]; discriminate].
      * exists false, false, false. reflexivity.
Qed.

Lemma run_files_witness :
  main inheritedKeyDoc = mkRun [] (Some "skills.map is not a function")
  /\ exists page rest,
       generateCompleteHTML emptyDoc = Ok page
       /\ written (main emptyDoc) = ("index.html", page) :: rest.
Proof.
  split.
  - apply (proj1 (run_files inheritedKeyDoc)). vm_compute. reflexivity.
  - destruct (proj1 (proj2 (proj2 (run_files emptyDoc)))) as [_ Hreturns].
    destruct Hreturns as [page Hpage]; [intros [_ [H _]]; discriminate|].
    destruct (proj1 (proj1 (proj2 (run_files emptyDoc)) page Hpage)) as [rest H].
    exists page, rest. split; [exact Hpage | exact H].
Defined.

(** X16: [references.html] is written exactly when the main page is written
    and the document has a [references] array each of whose entries has a
    name and, besides, the array is not empty or the document names a
    references file that is not blank. *)
Theorem references_file_exactly_when (d : Doc.t) :
  In "references.html" (fileNames (main d))
  <-> (exists page, generateCompleteHTML d = Ok page)
      /\ exists refs,
           Doc.references d = Some refs
           /\ Forall (fun r => Reference.name r <> None) refs
           /\ (refs <> []
               \/ exists url, Doc.referencesUrl d = Some url /\ trim url <> "").
Proof.
  unfold fileNames. rewrite references_file_written. split.
  - intros [Hmain [Hdue Hok]]. split; [exact Hmain|].
    apply generateReferencesHTML_ok in Hok as [refs [E Hnames]].
    exists refs. split; [exact E|]. split; [exact Hnames|].
    apply hasReferencesPage_iff in Hdue as [Hurl|[refs' [E' Hne]]].
    + right. exact Hurl.
    + left. congruence.
  - intros [Hmain [refs [E [Hnames Hdue]]]]. split; [exact Hmain|]. split.
    + apply hasReferencesPage_iff. destruct Hdue as [Hne|Hurl].
      * right. now exists refs.
      * left. exact Hurl.
    + apply generateReferencesHTML_ok. now exists refs.
Qed.
(** ** Splitting and joining *)

Lemma splitGo_nonempty (sep : string) (skip : nat) (cur s : string) :
  splitGo sep skip cur s <> [].
Proof.
  revert skip cur. induction s as [|a s IH]; intros skip cur; cbn [splitGo];
    [discriminate|].
  destruct skip as [|k]; [|apply IH].
  destruct (startsWith sep (String a s)); [discriminate | apply IH].
Qed.

Lemma join_cons_cons (sep x : string) (xs : list string) :
  xs <> [] -> join sep (x :: xs) = x ++ sep ++ join sep xs.
Proof. destruct xs; [congruence | reflexivity]. Qed.

Lemma dropS_empty (n : nat) : dropS n "" = "".
Proof. destruct n; reflexivity. Qed.

Lemma join_splitGo (sep : string) (skip : nat) (cur s : string) :
  sep <> "" -> join sep (splitGo sep skip cur s) = cur ++ dropS skip s.
Proof.
  intros Hsep. revert skip cur. induction s as [|a s IH]; intros skip cur.
  - cbn [splitGo join]. now rewrite dropS_empty, append_empty_r.
  - cbn [splitGo]. destruct skip as [|k]; [|now rewrite IH].
    destruct (startsWith sep (String a s)) eqn:E.
    + rewrite join_cons_cons by apply splitGo_nonempty.
      rewrite IH. cbn [append dropS].
      apply startsWith_decompose in E.
      destruct sep as [|b sep]; [congruence|].
      cbn [String.length dropS Nat.sub] in *. rewrite Nat.sub_0_r.
      now rewrite <- E.
    + rewrite IH. cbn [dropS]. rewrite append_assoc. reflexivity.
Qed.

(** X17: splitting a text at a separator that is not empty and joining the
    pieces with the same separator gives the text back, and there is always at
    least one piece. For the about section: the paragraphs, joined by blank
    lines, are the about text, so no character of it is lost; for a reference:
    the words of the name, joined by spaces, are the name. *)
Theorem join_split_round_trip (sep s : string) :
  sep <> "" -> join sep (split sep s) = s /\ split sep s <> [].
Proof.
  intros H. split.
  - unfold split. now rewrite join_splitGo.
  - apply splitGo_nonempty.
Qed.

Lemma join_split_round_trip_witness :
  join (LF ++ LF) (split (LF ++ LF) ("one" ++ LF ++ LF ++ LF ++ "two"))
  = "one" ++ LF ++ LF ++ LF ++ "two".
Proof.
  apply (proj1 (join_split_round_trip (LF ++ LF) ("one" ++ LF ++ LF ++ LF ++ "two")
                  ltac:(discriminate))).
Defined.

(** ** Links between the pages *)

Lemma generateCompleteHTML_markup (d : Doc.t) (page : string) :
  generateCompleteHTML d = Ok page ->
  exists sections, page = pageMarkup d sections.
Proof.
  unfold generateCompleteHTML.
  destruct (mapM (sectionFragment d) (sectionOrder d)) as [fragments|m];
    [|discriminate].
  cbn [bind]. cbv zeta. intros H. apply Ok_inj in H. eauto.
Qed.

(** X18: the projects page always holds a link to [references.html], and the
    main page holds one whenever the test for the references page succeeds:
    the link stands in the markup of the page, whatever the sections are;
    neither depends on whether [references.html] is in fact written. *)
Theorem links_to_references_page (d : Doc.t) :
  (forall projects, Doc.projects d = Some projects ->
     exists page,
       generateProjectsHTML d = Ok page
       /\ includesS (html "<a href=~references.html~") page = true)
  /\ (hasReferencesPage d = true ->
      (forall sections,
          includesS (html "<a href=~references.html~") (pageMarkup d sections)
          = true)
      /\ forall page, generateCompleteHTML d = Ok page ->
           includesS (html "<a href=~references.html~") page = true).
Proof.
  split.
  - intros projects E. unfold generateProjectsHTML. rewrite E.
    eexists. split; [reflexivity|]. contains.
  - intros H.
    assert (forall sections,
              includesS (html "<a href=~references.html~") (pageMarkup d sections)
              = true) as Hmarkup.
    { intros sections. unfold pageMarkup. rewrite H. contains. }
    split; [exact Hmarkup|]. intros page Hpage.
    destruct (generateCompleteHTML_markup d page Hpage) as [sections ->].
    apply Hmarkup.
Qed.

Lemma links_to_references_page_witness :
  (exists page,
      generateCompleteHTML referencesUrlOnlyDoc = Ok page
      /\ includesS (html "<a href=~references.html~") page = true)
  /\ ~ In "references.html" (fileNames (main referencesUrlOnlyDoc))
  /\ exists page,
       generateProjectsHTML fiveProjectsDoc = Ok page
       /\ includesS (html "<a href=~references.html~") page = true.
Proof.
  split; [|split].
  - destruct (generateCompleteHTML referencesUrlOnlyDoc) as [page|m] eqn:E;
      [|exfalso; revert E; vm_compute; discriminate].
    exists page. split; [reflexivity|]. revert E.
    apply (proj2 (proj2 (links_to_references_page referencesUrlOnlyDoc) eq_refl)).
  - vm_compute. intros [H|[]]. discriminate.
  - apply (proj1 (links_to_references_page fiveProjectsDoc)
             [projectTitled "one"; projectTitled "two"; projectTitled "three";
              projectTitled "four"; projectTitled "five"]).
    reflexivity.
Defined.
(** ** Values written without escaping *)

(** X19: two values of the document reach the page as they are, without
    passing through [escapeHtml]: the image style of a project, written into
    the class attribute of its image, and the primary theme colour, written
    into the style sheet. Around the value the markup is fixed, so a value
    that holds a double quote or a [<] stands in the page unchanged. *)
Theorem values_written_unescaped (d : Doc.t) (isPartialRow : bool)
  (p : Project.t) (colors : ThemeColors.t) :
  (truthyS (Project.image p) = true ->
   exists pre post, forall imageStyle, imageStyle <> "" ->
     projectCard d isPartialRow (withImageStyle p (Some imageStyle))
     = pre ++ imageStyle ++ post)
  /\ (exists pre post, forall primary, primary <> "" ->
        dynamicCSS
          (withThemeColors d
             (Some (ThemeColors.mk (Some primary) (ThemeColors.secondary colors)
                      (ThemeColors.accent colors) (ThemeColors.background colors)
                      (ThemeColors.text colors))))
        = pre ++ primary ++ post).
Proof.
  split.
  - intros Himage. do 2 eexists. intros imageStyle H.
    apply String.eqb_neq in H.
    unfold projectCard, withImageStyle.
    cbn [Project.skills Project.title Project.summary Project.description
         Project.image Project.imageBg Project.imageStyle orElse].
    rewrite Himage, H. frame.
  - do 2 eexists. intros primary H. apply String.eqb_neq in H.
    unfold dynamicCSS, primaryColor, secondaryColor, accentColor,
      backgroundColor, textColor, themeColors, withThemeColors.
    cbn [Doc.themeColors ThemeColors.primary ThemeColors.secondary
         ThemeColors.accent ThemeColors.background ThemeColors.text orElse].
    rewrite H. frame.
Qed.

Lemma values_written_unescaped_witness :
  exists pre post,
    projectCard emptyDoc false
      (withImageStyle pictureProject (Some (html "cover~ onload=~run()")))
    = pre ++ html "cover~ onload=~run()" ++ post.
Proof.
  destruct (proj1 (values_written_unescaped emptyDoc false pictureProject
                     (ThemeColors.mk None None None None None)) eq_refl)
    as [pre [post H]].
  exists pre, post. apply H. discriminate.
Defined.

(** ** The cards of the references page *)

Lemma splitGo_word (c : ascii) (cur w s : string) :
  occursIn c w = false ->
  splitGo (String c "") 0 cur (w ++ s) = splitGo (String c "") 0 (cur ++ w) s.
Proof.
  revert cur. induction w as [|a w IH]; intros cur H.
  - cbn [append]. now rewrite append_empty_r.
  - cbn [occursIn] in H. apply orb_false_iff in H as [Ha Hw].
    cbn [append splitGo startsWith]. rewrite Ascii.eqb_sym, Ha. cbn [andb].
    rewrite (IH _ Hw), append_assoc. reflexivity.
Qed.

Lemma split_join_words (c : ascii) (cur w : string) (ws : list string) :
  Forall (fun x => occursIn c x = false) (w :: ws) ->
  splitGo (String c "") 0 cur (join (String c "") (w :: ws)) = (cur ++ w) :: ws.
Proof.
  revert cur w. induction ws as [|v ws IH]; intros cur w H.
  - inversion H as [|? ? Hw _]; subst. cbn [join].
    rewrite <- (append_empty_r w) at 1. rewrite splitGo_word by exact Hw.
    reflexivity.
  - inversion H as [|? ? Hw Hrest]; subst.
    change (join (String c "") (w :: v :: ws))
      with (w ++ String c "" ++ join (String c "") (v :: ws)).
    rewrite splitGo_word by exact Hw.
    cbn [append splitGo startsWith String.length Nat.sub].
    rewrite Ascii.eqb_refl. cbn [andb].
    rewrite (IH "" v Hrest). reflexivity.
Qed.

Lemma referenceCard_initials (d : Doc.t) (ref : Reference.t) (name : string) :
  Reference.name ref = Some name ->
  exists pre post,
    referenceCard d ref
    = Ok (pre ++ escapeHtml (JStr (join "" (map firstChar (split " " name))))
          ++ post).
Proof.
  intros E. unfold referenceCard. rewrite E. cbv zeta.
  do 2 eexists. f_equal. frame.
Qed.

(** X20: the initials on a reference card are the first characters of the
    words of the name, the words being what single spaces separate: a name
    made of words joined by spaces gets the first character of each word, in
    order, escaped; an empty word, as two spaces in a row make one, adds
    nothing. *)
Theorem reference_initials (d : Doc.t) (ref : Reference.t) (words : list string) :
  words <> [] ->
  Forall (fun w => occursIn " " w = false) words ->
  Reference.name ref = Some (join " " words) ->
  exists pre post,
    referenceCard d ref
    = Ok (pre ++ escapeHtml (JStr (join "" (map firstChar words))) ++ post).
Proof.
  intros Hne Hwords E.
  destruct (referenceCard_initials d ref _ E) as [pre [post H]].
  exists pre, post. rewrite H. unfold split.
  destruct words as [|w ws]; [congruence|].
  now rewrite (split_join_words " " "" w ws Hwords).
Qed.

Lemma reference_initials_witness :
  exists pre post,
    referenceCard emptyDoc (referenceNamed "Grace  Brewster Hopper")
    = Ok (pre ++ "GBH" ++ post).
Proof.
  apply (reference_initials emptyDoc (referenceNamed "Grace  Brewster Hopper")
           ["Grace"; ""; "Brewster"; "Hopper"]).
  - discriminate.
  - repeat constructor.
  - reflexivity.
Defined.

Lemma mapM_nth {A B : Type} (f : A -> result B) (xs : list A) (ys : list B) :
  mapM f xs = Ok ys ->
  length ys = length xs
  /\ forall k x, nth_error xs k = Some x ->
       exists y, f x = Ok y /\ nth_error ys k = Some y.
Proof.
  revert ys. induction xs as [|x xs IH]; intros ys H; cbn [mapM] in H.
  - injection H as <-. split; [reflexivity|]. intros [|k] x' Hk; discriminate.
  - destruct (f x) as [y|m] eqn:Ex; [|discriminate]. cbn [bind] in H.
    destruct (mapM f xs) as [zs|m] eqn:Exs; [|discriminate]. cbn [bind] in H.
    injection H as <-. destruct (IH zs eq_refl) as [Hlen Hnth].
    split; [cbn; now rewrite Hlen|].
    intros [|k] x' Hk; cbn [nth_error] in *.
    + injection Hk as <-. now exists y.
    + now apply Hnth.
Qed.

(** X21: when every reference of the document has a name, the references
    page is returned and holds one card for each reference, in the order of
    the document. *)
Theorem references_page_cards (d : Doc.t) (refs : list Reference.t) :
  Doc.references d = Some refs ->
  Forall (fun r => Reference.name r <> None) refs ->
  exists pre post cards,
    generateReferencesHTML d = Ok (pre ++ join "" cards ++ post)
    /\ length cards = length refs
    /\ forall k ref, nth_error refs k = Some ref ->
         exists card, referenceCard d ref = Ok card
                      /\ nth_error cards k = Some card.
Proof.
  intros E Hnames.
  assert (exists cards, mapM (referenceCard d) refs = Ok cards) as [cards Hcards].
  { apply mapM_ok. revert Hnames. apply Forall_impl. intros r Hr.
    unfold referenceCard. destruct (Reference.name r); [eauto | congruence]. }
  destruct (mapM_nth _ _ _ Hcards) as [Hlen Hnth].
  assert (exists pre post,
            generateReferencesHTML d = Ok (pre ++ join "" cards ++ post))
    as [pre [post Hpage]].
  { unfold generateReferencesHTML. rewrite E, Hcards. cbn [bind].
    do 2 eexists. f_equal. frame. }
  exists pre, post, cards. split; [exact Hpage|]. split; [exact Hlen | exact Hnth].
Qed.

Lemma references_page_cards_witness :
  exists pre post cards,
    generateReferencesHTML oneReferenceDoc = Ok (pre ++ join "" cards ++ post)
    /\ length cards = 1.
Proof.
  destruct (references_page_cards oneReferenceDoc
              [Reference.mk (Some "Grace  Hopper") (Some "Manager") (Some "Acme")
                 None None None (Some "g@acme.example") None None])
    as [pre [post [cards [Hpage [Hlen _]]]]].
  - reflexivity.
  - repeat constructor. discriminate.
  - exists pre, post, cards. split; [exact Hpage | exact Hlen].
Defined.

(** ** When the about section shows no skills *)

(** X22: the place of the skills in the about section is never left empty
    for a document without skills data: it then holds the comment that there
    is no skills data. It is left empty in exactly two cases, both with skills
    data present: in rotating mode when the skills mapping is absent or holds
    no skill, and in any other mode when the list of categories is absent. *)
Theorem skillsContent_empty_exactly_when (d : Doc.t) :
  (hasSkills d = false -> skillsContent d = Ok "<!-- No skills data -->")
  /\ (skillsContent d = Ok ""
      <-> hasSkills d = true
          /\ ((skillsDisplayMode d = "rotating" /\ flattenedSkills d = [])
              \/ (skillsDisplayMode d <> "rotating"
                  /\ exists sk, Doc.skills d = Some sk
                                /\ Skills.categories sk = None))).
Proof.
  unfold skillsContent. destruct (hasSkills d) eqn:Hs.
  - split; [discriminate|].
    destruct (String.eqb_spec (skillsDisplayMode d) "rotating") as [Hm|Hm].
    + rewrite <- generateSkillsCarousel_empty. split.
      * intros H. apply Ok_inj in H. split; [reflexivity|]. left. now split.
      * intros [_ [[_ H]|[H _]]]; [now rewrite H | congruence].
    + rewrite generateSkillsCards_empty. split.
      * intros H. split; [reflexivity|]. right. split; [exact Hm|].
        destruct H as [H|H]; [|exact H].
        unfold hasSkills in Hs. rewrite H in Hs. discriminate.
      * intros [_ [[H _]|[_ H]]]; [congruence|]. right. exact H.
  - split; [reflexivity|]. split; [discriminate|]. intros [H _]. discriminate.
Qed.

Lemma skillsContent_empty_exactly_when_witness :
  skillsContent emptyDoc = Ok "<!-- No skills data -->"
  /\ skillsContent skillsWithoutCategoriesDoc = Ok "".
Proof.
  split.
  - apply (proj1 (skillsContent_empty_exactly_when emptyDoc)). reflexivity.
  - apply (proj2 (skillsContent_empty_exactly_when skillsWithoutCategoriesDoc)).
    split; [reflexivity|]. right. split; [discriminate|].
    eexists. split; reflexivity.
Defined.
(** ** Empty strings and absent fields *)

(** X23: an empty string is read like an absent field. A document whose
    name, title, bio, about text, display mode, resume and references
    addresses, projects description, contact introduction, headshot and theme
    colours are empty strings gives the same run, file by file, as the
    document in which they are absent, and as the one with no theme object;
    the colours are then the five defaults. *)
Theorem empty_text_as_absent (d : Doc.t) :
  main (withTexts d (Some "")) = main (withTexts d None)
  /\ main (withTexts d None) = main (withoutTexts d)
  /\ primaryColor (withTexts d (Some "")) = "#0B3D91"
  /\ secondaryColor (withTexts d (Some "")) = "#17A2B8"
  /\ accentColor (withTexts d (Some "")) = "#F3F4F6"
  /\ backgroundColor (withTexts d (Some "")) = "#ffffff"
  /\ textColor (withTexts d (Some "")) = "#1f2937".
Proof. repeat split. Qed.
(** ** Ids that read an inherited member *)

Lemma objectPrototype_method (key : string) :
  (exists arity, objectPrototype key = Some (Method arity) /\ 0 < arity)
  <-> In key inheritedMethods.
Proof.
  unfold objectPrototype, inheritedMethods. split.
  - intros [arity [H Hpos]]. revert H.
    repeat match goal with
           | |- context [String.eqb key ?s] =>
               destruct (String.eqb_spec key s) as [->|_];
               [intros H;
                first [ cbn; tauto | discriminate H | injection H as <-; lia ]|]
           end.
    discriminate.
  - intros H. cbn in H.
    repeat (destruct H as [<-|H]; [eexists; split; [reflexivity | lia]|]).
    contradiction.
Qed.

Lemma cardThrows_iff (sk : Skills.t) (c : Category.t) :
  cardThrows sk c = true
  <-> exists m,
        Skills.skills sk = Some m
        /\ lookup (propertyKey (Category.id c)) m = None
        /\ In (propertyKey (Category.id c)) inheritedMethods.
Proof.
  split.
  - intros H. unfold cardThrows, skillsOf, getMember in H.
    destruct (Skills.skills sk) as [m|]; cbn [chain orEmpty] in H;
      [|discriminate].
    destruct (lookup (propertyKey (Category.id c)) m) eqn:El;
      cbn [orEmpty] in H; [discriminate|].
    destruct (objectPrototype (propertyKey (Category.id c))) as [[l|n|]|] eqn:Ep;
      cbn [orEmpty] in H; try discriminate.
    exists m. split; [reflexivity|]. split; [exact El|].
    apply objectPrototype_method. exists n.
    split; [exact Ep | now apply Nat.ltb_lt].
  - intros [m [Em [El Hin]]].
    apply objectPrototype_method in Hin as [a [Ep Ha]].
    unfold cardThrows, skillsOf, getMember. rewrite Em. cbn [chain].
    rewrite El, Ep. cbn [orEmpty]. now apply Nat.ltb_lt.
Qed.

(** X24: with the skills object and its categories present, the cards
    renderer throws exactly when the id of some category, read as a property
    key, is not a key of the skills mapping and names one of the methods with
    a positive [length] that every object inherits; it returns in every other
    case. An id that names another inherited member ([toString], [valueOf],
    [toLocaleString], [__proto__]) is read as a category without skills. *)
Theorem skills_cards_throw_exactly_when (d : Doc.t) (sk : Skills.t)
  (categories : list Category.t) :
  Doc.skills d = Some sk -> Skills.categories sk = Some categories ->
  (generateSkillsCards d = TypeError "skills.map is not a function"
   <-> exists c m,
         In c categories /\ Skills.skills sk = Some m
         /\ lookup (propertyKey (Category.id c)) m = None
         /\ In (propertyKey (Category.id c)) inheritedMethods)
  /\ ((exists cards, generateSkillsCards d = Ok cards)
      <-> ~ exists c m,
              In c categories /\ Skills.skills sk = Some m
              /\ lookup (propertyKey (Category.id c)) m = None
              /\ In (propertyKey (Category.id c)) inheritedMethods)
  /\ (forall c m key,
        In c categories -> Skills.skills sk = Some m ->
        propertyKey (Category.id c) = key ->
        In key ["toString"; "valueOf"; "toLocaleString"; "__proto__"] ->
        lookup key m = None ->
        ~ In c (categoriesWithSkills sk categories)).
Proof.
  intros E1 E2.
  destruct (generateSkillsCards_cases d sk categories E1 E2) as [Hthrow Hok].
  assert (existsb (cardThrows sk) categories = true
          <-> exists c m,
                In c categories /\ Skills.skills sk = Some m
                /\ lookup (propertyKey (Category.id c)) m = None
                /\ In (propertyKey (Category.id c)) inheritedMethods) as Hex.
  { rewrite existsb_exists. split.
    - intros [c [Hc Hx]]. apply cardThrows_iff in Hx as [m Hm]. exists c, m. tauto.
    - intros [c [m [Hc Hm]]]. exists c. split; [exact Hc|].
      apply cardThrows_iff. now exists m. }
  split; [|split].
  - rewrite <- Hex. split; [|exact Hthrow].
    intros H. destruct (existsb (cardThrows sk) categories); [reflexivity|].
    destruct (Hok eq_refl) as [cards Hc]. congruence.
  - rewrite <- Hex. split.
    + intros [cards Hc] Hx. rewrite (Hthrow Hx) in Hc. discriminate.
    + intros H. apply Hok.
      destruct (existsb (cardThrows sk) categories); [now contradiction H|].
      reflexivity.
  - intros c m key Hc Em Hkey Hin Hown Hkept.
    apply filter_In in Hkept as [_ Hpos].
    unfold skillsOf, getMember in Hpos. rewrite Em, Hkey in Hpos.
    cbn [chain] in Hpos. rewrite Hown in Hpos.
    cbn in Hin.
    repeat (destruct Hin as [<-|Hin]; [discriminate Hpos|]).
    contradiction.
Qed.

Lemma skills_cards_throw_exactly_when_witness :
  generateSkillsCards inheritedKeyDoc = TypeError "skills.map is not a function"
  /\ exists cards, generateSkillsCards fourCategoriesDoc = Ok cards.
Proof.
  split.
  - apply (proj1 (skills_cards_throw_exactly_when inheritedKeyDoc
                    inheritedKeySkills
                    (listOf (Skills.categories inheritedKeySkills))
                    eq_refl eq_refl)).
    exists (Category.mk (Some "constructor") (Some "Other") None),
      [("lang", ["Rust"])].
    split; [cbn; tauto|]. split; [reflexivity|]. split; [reflexivity|].
    cbn. tauto.
  - apply (proj1 (proj2 (skills_cards_throw_exactly_when fourCategoriesDoc
                           fourCategoriesSkills
                           (listOf (Skills.categories fourCategoriesSkills))
                           eq_refl eq_refl))).
    intros [c [m [Hc [Em [_ Hin]]]]]. cbn in Hc, Hin.
    repeat (destruct Hc as [<-|Hc];
            [cbn in Hin;
             repeat (destruct Hin as [Hin|Hin]; [discriminate Hin|]);
             contradiction|]).
    contradiction.
Defined.
